(** * timelapse-generator: the video backends, their registry and the generator

    A shallow embedding of
      - [video/encoder.py]                     ([VideoEncoder])
      - [video/backends/opencv_backend.py]     ([OpenCVBackend])
      - [video/backends/ffmpegcv_backend.py]   ([FFmpegCVBackend])
      - [video/backends/registry.py]           ([BackendRegistry], [create_backend])
      - [video/generator.py]                   ([VideoGenerator])
      - [utils/file_utils.py]                  (the image-listing helpers)

    Python [int] is [Z] ([%] on a positive modulus is [Z.modulo]), [float]
    is the kernel's binary64, [str] is [string], [None]-or-value is
    [option], a [dict] whose order is observable is an insertion-ordered
    association list, a [dict] used as a plain map is a [gmap].  A Python
    call that may raise returns a [result]; code that mutates the registry,
    a backend or the file system passes that state explicitly. *)

From Stdlib Require Import ZArith Floats Uint63 String Ascii List Lia Bool Sorted.
From stdpp Require Import gmap strings list pretty.

Local Open Scope string_scope.
Local Open Scope list_scope.
Local Open Scope Z_scope.

(** ** Exceptions and results *)

Inductive exn_class :=
  | ValueError
  | RuntimeError
  | TypeError
  | ZeroDivisionError
  | IndexError
  | OverflowError
  | ImportError
  | SyntaxError
  | NameError
  | FileNotFoundError
  | LibraryError.   (* an exception raised inside cv2, numpy, ffmpegcv or a callback *)

(** An exception object: its class and [str(e)]. *)
Record exn := Exn { exn_cls : exn_class; exn_str : string }.

Inductive result (A : Type) :=
  | Ok (a : A)
  | Raise (e : exn).
Arguments Ok {A} a.
Arguments Raise {A} e.

Definition is_ok {A} (r : result A) : bool :=
  match r with Ok _ => true | Raise _ => false end.

(** Stateful code that may raise: the state reached is kept when it does. *)
Definition Py (S A : Type) : Type := S -> result A * S.


(** ** Python values that cross the keyword-argument boundary *)

Inductive PyVal :=
  | PyNone
  | PyBool (b : bool)
  | PyInt (z : Z)
  | PyStr (s : string).

(** ** Insertion-ordered dictionaries (Python 3.7+ [dict]) *)

Section Dict.
Context {V : Type}.

Definition dict := list (string * V).

Fixpoint dict_get (k : string) (d : dict) : option V :=
  match d with
  | [] => None
  | (k', v) :: d' => if String.eqb k k' then Some v else dict_get k d'
  end.

(** [d[k] = v]: an existing key keeps its position, a new key goes last. *)
Fixpoint dict_set (k : string) (v : V) (d : dict) : dict :=
  match d with
  | [] => [(k, v)]
  | (k', v') :: d' =>
      if String.eqb k k' then (k', v) :: d' else (k', v') :: dict_set k v d'
  end.

(** [del d[k]] for a key that is present ([d.pop(k, None)] otherwise). *)
Fixpoint dict_del (k : string) (d : dict) : dict :=
  match d with
  | [] => []
  | (k', v') :: d' =>
      if String.eqb k k' then d' else (k', v') :: dict_del k d'
  end.

Definition dict_keys (d : dict) : list string := map fst d.

Definition dict_mem (k : string) (d : dict) : bool :=
  match dict_get k d with Some _ => true | None => false end.

End Dict.
Arguments dict V : clear implicits.

(** ** Even dimensions

    [VideoEncoder.ensure_even_dimensions],
    [OpenCVBackend._ensure_even_dimensions] and
    [FFmpegCVBackend._ensure_even_dimensions] have the same body. *)

Definition ensure_even_dimensions (width height : Z) : Z * Z :=
  let width := if negb (width mod 2 =? 0) then width - 1 else width in
  let height := if negb (height mod 2 =? 0) then height - 1 else height in
  (width, height).

Definition _ensure_even_dimensions := ensure_even_dimensions.

(** ** Frames

    A numpy array is its [shape] and a symbolic account of where its
    samples come from, so that "the same frame", "a resized frame" and "a
    frame with its channels reversed" are told apart. *)

Inductive Pixels :=
  | Decoded (path : string)             (* cv2.imread *)
  | Resized (p : Pixels) (w h : Z)      (* cv2.resize(..., INTER_AREA) *)
  | CvtRGB (p : Pixels)                 (* cv2.cvtColor(..., COLOR_BGR2RGB) *)
  | Reversed (p : Pixels).              (* frame[:, :, ::-1] *)

Record ndarray := NdArray { shape : list Z; pixels : Pixels }.

(** What a caller may hand to [write_frame]. *)
Inductive PyFrame :=
  | NotArray
  | Array (a : ndarray).

(** [frame.shape[:2] != (h, w)] *)
Definition shape2_differs (a : ndarray) (h w : Z) : bool :=
  match firstn 2 (shape a) with
  | [r; c] => negb ((r =? h) && (c =? w))
  | _ => true
  end.

(** ** The file system and the encoder libraries

    The file system maps a path to the size of the file there.  The
    libraries are outside the repository: their behaviour is a parameter. *)

Abbreviation FS := (gmap string Z).

Inductive WriterKind := CvWriter | FFWriter | FFWriterNV | FFWriterQSV.

Record WriterParams := {
  wp_kind : WriterKind;
  wp_path : string;
  wp_codec : string;
  wp_fps : Z;
  wp_size : Z * Z;
  wp_options : dict PyVal
}.

Record VideoLib (W : Type) := {
(** [cv2.VideoWriter_fourcc( *name )] raises or returns. *)
cv2_fourcc : string -> result unit;
(** [cv2.VideoWriter(...)], [ffmpegcv.VideoWriter*(...)]. *)
new_writer : WriterParams -> FS -> result W * FS;
isOpened : W -> bool;
(** [writer.write(frame)]: raises, or returns a value read as a flag. *)
write : W -> ndarray -> FS -> result bool * (W * FS);
release : W -> FS -> result unit * FS;
(** [cv2.resize(frame, (w, h), interpolation=cv2.INTER_AREA)] *)
cv2_resize : ndarray -> Z -> Z -> result ndarray;
(** [cv2.imread(path)]: an array, or [None] for a file it cannot decode. *)
cv2_imread : string -> result (option ndarray);
(** [cv2.cvtColor(img, cv2.COLOR_BGR2RGB)] *)
cv2_cvtColor : ndarray -> result ndarray;
(** [import ffmpegcv] succeeds. *)
ffmpegcv_importable : bool;
(** A throwaway NVENC / QSV writer on [/dev/null] opens. *)
nvenc_probe : bool;
qsv_probe : bool
}.
Arguments cv2_fourcc {W}.
Arguments new_writer {W}.
Arguments isOpened {W}.
Arguments write {W}.
Arguments release {W}.
Arguments cv2_resize {W}.
Arguments cv2_imread {W}.
Arguments cv2_cvtColor {W}.
Arguments ffmpegcv_importable {W}.
Arguments nvenc_probe {W}.
Arguments qsv_probe {W}.

(** [str.lower()] on ASCII text. *)
Definition ascii_lower (c : ascii) : ascii :=
  let n := nat_of_ascii c in
  if ((65 <=? n) && (n <=? 90))%nat then ascii_of_nat (n + 32) else c.

Fixpoint lower (s : string) : string :=
  match s with
  | EmptyString => EmptyString
  | String c s' => String (ascii_lower c) (lower s')
  end.

Definition str_in (s : string) (l : list string) : bool :=
  existsb (String.eqb s) l.

(** [repr] of a list of [str]: ['a', 'b']. *)
Fixpoint repr_items (l : list string) : string :=
  match l with
  | [] => ""
  | [x] => ("'" ++ x ++ "'")%string
  | x :: l' => ("'" ++ x ++ "', " ++ repr_items l')%string
  end.
Definition repr_list (l : list string) : string :=
  ("[" ++ repr_items l ++ "]")%string.

(** Truthiness of a value in [if v:] and of an optional string in [if s:]. *)
Definition truthy (v : PyVal) : bool :=
  match v with
  | PyNone => false
  | PyBool b => b
  | PyInt z => negb (z =? 0)
  | PyStr s => negb (String.eqb s "")
  end.

Definition str_or (s : option string) (default : string) : string :=
  match s with
  | Some s' => if String.eqb s' "" then default else s'
  | None => default
  end.

Definition kwargs_get (k : string) (kw : dict PyVal) (default : PyVal) : PyVal :=
  match dict_get k kw with Some v => v | None => default end.

(** The dictionary of [get_encoder_info()]: the entries both backends
    give, and the backend's own further entries. *)
Record EncoderInfo := {
  info_backend : string;
  info_codec : string;
  info_fps : Z;
  info_resolution : Z * Z;
  info_quality_preset : string;
  info_crf : Z;
  info_preset : string;
  info_supports_gpu : bool;
  info_pixel_format : string;
  info_more : dict PyVal
}.

(** ** [OpenCVBackend] *)

Module OpenCV.

Definition priority : Z := 100.

(** [CODECS], in the order of the class body. *)
Definition CODECS : dict string :=
  [("mp4v", "mp4v"); ("x264", "XVID"); ("x265", "X264");
   ("avc1", "mp4v"); ("h264", "XVID"); ("hevc", "X264")].

Record preset_row := {
  row_bitrate : string; row_crf : Z; row_preset : string; row_codec : string }.

Definition QUALITY_PRESETS : dict preset_row :=
  [("low",    {| row_bitrate := "2M";  row_crf := 28; row_preset := "fast";     row_codec := "mp4v" |});
   ("medium", {| row_bitrate := "5M";  row_crf := 23; row_preset := "medium";   row_codec := "mp4v" |});
   ("high",   {| row_bitrate := "10M"; row_crf := 18; row_preset := "slow";     row_codec := "mp4v" |});
   ("ultra",  {| row_bitrate := "20M"; row_crf := 15; row_preset := "veryslow"; row_codec := "mp4v" |})].

Section WithLib.
Context {W : Type} (lib : VideoLib W).

Record t := {
  fps : Z;
  width : Z;
  height : Z;
  quality_preset : string;
  codec : string;
  bitrate : string;
  crf : Z;
  preset : string;
  use_color_conversion : PyVal;
  _writer : option W;
  _output_path : option string;
  _is_opened : bool
}.

Definition name (self : t) : string := "opencv".
Definition supported_codecs (self : t) : list string := dict_keys CODECS.
Definition supported_extensions (self : t) : list string :=
  [".mp4"; ".avi"; ".mov"; ".mkv"].
Definition get_default_codec (self : t) : string := "mp4v".
Definition get_pixel_format (self : t) : string := "bgr".
Definition supports_gpu (self : t) : bool := false.

(** [__init__]: the only way to an instance. *)
Definition __init__ (fps width height : Z) (codec bitrate : option string)
    (quality_preset : string) (kwargs : dict PyVal) : result t :=
  let qp := lower quality_preset in
  match dict_get qp QUALITY_PRESETS with
  | None =>
      Raise (Exn ValueError
        ("Invalid quality preset: " ++ quality_preset ++ ". Valid options: "
           ++ repr_list (dict_keys QUALITY_PRESETS))%string)
  | Some settings =>
      let '(w, h) := _ensure_even_dimensions width height in
      Ok {| fps := fps;
            width := w;
            height := h;
            quality_preset := qp;
            codec := str_or codec (row_codec settings);
            bitrate := str_or bitrate (row_bitrate settings);
            crf := row_crf settings;
            preset := row_preset settings;
            use_color_conversion :=
              kwargs_get "use_color_conversion" kwargs (PyBool true);
            _writer := None;
            _output_path := None;
            _is_opened := false |}
  end.

Definition set_writer (w : option W) (self : t) : t :=
  {| fps := fps self; width := width self; height := height self;
     quality_preset := quality_preset self; codec := codec self;
     bitrate := bitrate self; crf := crf self; preset := preset self;
     use_color_conversion := use_color_conversion self;
     _writer := w; _output_path := _output_path self;
     _is_opened := _is_opened self |}.

Definition set_output_path (p : string) (self : t) : t :=
  {| fps := fps self; width := width self; height := height self;
     quality_preset := quality_preset self; codec := codec self;
     bitrate := bitrate self; crf := crf self; preset := preset self;
     use_color_conversion := use_color_conversion self;
     _writer := _writer self; _output_path := Some p;
     _is_opened := _is_opened self |}.

Definition set_is_opened (b : bool) (self : t) : t :=
  {| fps := fps self; width := width self; height := height self;
     quality_preset := quality_preset self; codec := codec self;
     bitrate := bitrate self; crf := crf self; preset := preset self;
     use_color_conversion := use_color_conversion self;
     _writer := _writer self; _output_path := _output_path self;
     _is_opened := b |}.

(** [open(output_path)].  The constructor [cv2.VideoWriter] returns an
    object or raises, so the test [self._writer is None] after it never
    fires and has no counterpart here. *)
Definition open (output_path : string) : Py (t * FS) unit :=
  fun '(self, fs) =>
    let self := set_output_path output_path self in
    let codec_name :=
      match dict_get (codec self) CODECS with
      | Some c => c
      | None => codec self
      end in
    if negb (Nat.eqb (String.length codec_name) 4) then
      (Raise (Exn ValueError
         ("Invalid codec name '" ++ codec_name ++ "', must be 4 characters")%string),
       (self, fs))
    else
      match cv2_fourcc lib codec_name with
      | Raise e =>
          (Raise (Exn RuntimeError
             ("Failed to create FourCC codec '" ++ codec_name ++ "': "
                ++ exn_str e)%string),
           (self, fs))
      | Ok _ =>
          match new_writer lib
                  {| wp_kind := CvWriter; wp_path := output_path;
                     wp_codec := codec_name; wp_fps := fps self;
                     wp_size := (width self, height self);
                     wp_options := [] |} fs with
          | (Raise e, fs') => (Raise e, (self, fs'))
          | (Ok w, fs') =>
              if negb (isOpened lib w) then
                (Raise (Exn RuntimeError
                   ("Failed to OpenCV video writer for " ++ output_path)%string),
                 (set_writer None self, fs'))
              else
                (Ok tt, (set_is_opened true (set_writer (Some w) self), fs'))
          end
      end.

(** [write_frame(frame)] *)
Definition write_frame (frame : PyFrame) : Py (t * FS) unit :=
  fun '(self, fs) =>
    match _is_opened self, _writer self with
    | true, Some w =>
        match frame with
        | NotArray =>
            (Raise (Exn ValueError "Frame must be a numpy array"), (self, fs))
        | Array a =>
            if negb (Nat.eqb (length (shape a)) 3) then
              (Raise (Exn ValueError
                 ("Frame must have 3 dimensions, got "
                    ++ pretty (length (shape a)))%string),
               (self, fs))
            else
              let ch := nth 2 (shape a) 0 in
              if negb ((ch =? 1) || (ch =? 3) || (ch =? 4)) then
                (Raise (Exn ValueError
                   ("Frame must have 1, 3, or 4 channels, got "
                      ++ pretty ch)%string),
                 (self, fs))
              else
                let resized :=
                  if shape2_differs a (height self) (width self)
                  then cv2_resize lib a (width self) (height self)
                  else Ok a in
                match resized with
                | Raise e => (Raise e, (self, fs))
                | Ok a' =>
                    (* [self.use_color_conversion and frame.shape[2] == 3]
                       reads [shape[2]] of the frame as it is now *)
                    if truthy (use_color_conversion self)
                       && (length (shape a') <=? 2)%nat then
                      (Raise (Exn IndexError "tuple index out of range"),
                       (self, fs))
                    else
                      match write lib w a' fs with
                      | (Raise e, (w', fs')) =>
                          (Raise e, (set_writer (Some w') self, fs'))
                      | (Ok success, (w', fs')) =>
                          let self' := set_writer (Some w') self in
                          if negb success then
                            (Raise (Exn RuntimeError
                               "Failed to write frame to video"),
                             (self', fs'))
                          else (Ok tt, (self', fs'))
                      end
                end
        end
    | _, _ =>
        (Raise (Exn RuntimeError
           "Video writer not initialized. Call open() first."),
         (self, fs))
    end.

(** [close()]: an exception of [release] is logged and dropped, and the
    [finally] clause runs either way. *)
Definition close : Py (t * FS) unit :=
  fun '(self, fs) =>
    match _writer self with
    | Some w =>
        let '(_, fs') := release lib w fs in
        (Ok tt, (set_is_opened false (set_writer None self), fs'))
    | None => (Ok tt, (self, fs))
    end.

Definition get_encoder_info (self : t) : EncoderInfo :=
  {| info_backend := name self;
     info_codec := codec self;
     info_fps := fps self;
     info_resolution := (width self, height self);
     info_quality_preset := quality_preset self;
     info_crf := crf self;
     info_preset := preset self;
     info_supports_gpu := supports_gpu self;
     info_pixel_format := get_pixel_format self;
     info_more :=
       [("bitrate", PyStr (bitrate self));
        ("fourcc", PyStr (match dict_get (codec self) CODECS with
                          | Some c => c
                          | None => codec self
                          end))] |}.

(** [validate_settings()] *)
Definition validate_settings (self : t) : list string :=
  let errors := [] in
  let errors :=
    if fps self <=? 0 then errors ++ ["FPS must be greater than 0"]
    else errors in
  let errors :=
    if fps self >? 120
    then errors ++ ["FPS should not exceed 120 for most use cases"]
    else errors in
  let errors :=
    if (width self <=? 0) || (height self <=? 0)
    then errors ++ ["Width and height must be greater than 0"]
    else errors in
  let errors :=
    if (width self >? 8192) || (height self >? 8192)
    then errors ++ ["Width and height should not exceed 8192 pixels"]
    else errors in
  let errors :=
    if negb (str_in (codec self) (supported_codecs self))
    then errors ++
         [("Unsupported codec: " ++ codec self ++ ". Supported codecs: "
             ++ repr_list (supported_codecs self))%string]
    else errors in
  let errors :=
    if negb (width self mod 2 =? 0) || negb (height self mod 2 =? 0)
    then errors ++ ["Width and height must be even for most codecs"]
    else errors in
  let errors :=
    if str_in (codec self) ["mp4v"; "x264"]
       && ((width self <? 16) || (height self <? 16))
    then errors ++
         ["Width and height must be at least 16 pixels for this codec"]
    else errors in
  errors.
End WithLib.

Arguments t W : clear implicits.
End OpenCV.

(** [s.endswith(suf)] and [sub in s] *)
Fixpoint endswith (suf s : string) : bool :=
  String.eqb s suf ||
  match s with
  | EmptyString => false
  | String _ s' => endswith suf s'
  end.

Fixpoint contains (sub s : string) : bool :=
  String.prefix sub s ||
  match s with
  | EmptyString => false
  | String _ s' => contains sub s'
  end.

(** ** [FFmpegCVBackend]

    The file does not compile: line 116, inside [__init__], reads
    [self.min bitrate = kwargs.get('min_bitrate', None)].  Importing the
    module raises [SyntaxError], so that the class is never created and
    its constructor never runs (see [Backends.import_FFmpegCVBackend]).
    What follows is the text of the other methods, each on a record of
    the attributes the methods read; [bitrate], [min_bitrate] and
    [max_bitrate] are read by none of them except as an opaque writer
    option and are left out of the record. *)

Module FFmpegCV.

Definition priority : Z := 90.

Section WithLib.
Context {W : Type} (lib : VideoLib W).

Record t := {
  fps : Z;
  width : Z;
  height : Z;
  quality_preset : string;
  hardware_accel : string;
  gpu_id : Z;
  preset : string;
  crf : Z;
  codec : string;
  pix_fmt : string;
  thread_count : Z;
  _writer : option W;
  _output_path : option string;
  _is_opened : bool
}.

Definition name (self : t) : string := "ffmpegcv".
Definition get_pixel_format (self : t) : string := "rgb".
Definition supported_extensions (self : t) : list string :=
  [".mp4"; ".avi"; ".mov"; ".mkv"; ".webm"].

(** The hardware probes; each starts with [_import_ffmpegcv()] inside a
    [try] whose [except] answers [False]. *)
Definition _is_nvidia_available : bool :=
  ffmpegcv_importable lib && nvenc_probe lib.
Definition _is_intel_qsv_available : bool :=
  ffmpegcv_importable lib && qsv_probe lib.
Definition _is_amd_available : bool := ffmpegcv_importable lib.

Definition supports_gpu (self : t) : bool :=
  _is_nvidia_available || _is_intel_qsv_available || _is_amd_available.

Definition _select_optimal_codec (hardware_accel : string) : string :=
  if str_in hardware_accel ["auto"; "nvidia"] && _is_nvidia_available
  then "h264_nvenc"
  else if str_in hardware_accel ["auto"; "intel"] && _is_intel_qsv_available
  then "h264_qsv"
  else if str_in hardware_accel ["auto"; "amd"] && _is_amd_available
  then "h264_amf"
  else "libx264".

Definition get_default_codec (self : t) : string :=
  _select_optimal_codec (hardware_accel self).

Definition supported_codecs (self : t) : list string :=
  let codecs := ["libx264"; "libx265"; "libvpx-vp9"; "mpeg4"] in
  let codecs :=
    if _is_nvidia_available then codecs ++ ["h264_nvenc"; "hevc_nvenc"]
    else codecs in
  let codecs :=
    if _is_intel_qsv_available then codecs ++ ["h264_qsv"; "hevc_qsv"]
    else codecs in
  let codecs :=
    if _is_amd_available then codecs ++ ["h264_amf"; "hevc_amf"]
    else codecs in
  codecs.

Definition _is_gpu_codec (codec : string) : bool :=
  existsb (fun suffix => contains suffix codec) ["_nvenc"; "_qsv"; "_amf"].

Definition set_writer (w : option W) (self : t) : t :=
  {| fps := fps self; width := width self; height := height self;
     quality_preset := quality_preset self;
     hardware_accel := hardware_accel self; gpu_id := gpu_id self;
     preset := preset self; crf := crf self; codec := codec self;
     pix_fmt := pix_fmt self; thread_count := thread_count self;
     _writer := w; _output_path := _output_path self;
     _is_opened := _is_opened self |}.

Definition set_output_path (p : string) (self : t) : t :=
  {| fps := fps self; width := width self; height := height self;
     quality_preset := quality_preset self;
     hardware_accel := hardware_accel self; gpu_id := gpu_id self;
     preset := preset self; crf := crf self; codec := codec self;
     pix_fmt := pix_fmt self; thread_count := thread_count self;
     _writer := _writer self; _output_path := Some p;
     _is_opened := _is_opened self |}.

Definition set_is_opened (b : bool) (self : t) : t :=
  {| fps := fps self; width := width self; height := height self;
     quality_preset := quality_preset self;
     hardware_accel := hardware_accel self; gpu_id := gpu_id self;
     preset := preset self; crf := crf self; codec := codec self;
     pix_fmt := pix_fmt self; thread_count := thread_count self;
     _writer := _writer self; _output_path := _output_path self;
     _is_opened := b |}.

(** The [params] dictionary of [open], without its [fps], [size] and
    [codec] entries, which travel in [WriterParams]. *)
Definition open_options (self : t) : dict PyVal :=
  let params :=
    [("preset", PyStr (preset self)); ("crf", PyInt (crf self));
     ("pix_fmt", PyStr (pix_fmt self))] in
  let params :=
    if thread_count self >? 0
    then dict_set "threads" (PyInt (thread_count self)) params
    else params in
  let params :=
    if (gpu_id self >? 0) && _is_gpu_codec (codec self)
    then dict_set "gpu" (PyInt (gpu_id self)) params
    else params in
  params.

(** [open(output_path)] *)
Definition open (output_path : string) : Py (t * FS) unit :=
  fun '(self, fs) =>
    if negb (ffmpegcv_importable lib) then
      (Raise (Exn RuntimeError
         "ffmpegcv is not installed. Install with: pip install ffmpegcv"),
       (self, fs))
    else
      let self := set_output_path output_path self in
      let kind :=
        if endswith "_nvenc" (codec self) then FFWriterNV
        else if endswith "_qsv" (codec self) then FFWriterQSV
        else FFWriter in
      match new_writer lib
              {| wp_kind := kind; wp_path := output_path;
                 wp_codec := codec self; wp_fps := fps self;
                 wp_size := (width self, height self);
                 wp_options := open_options self |} fs with
      | (Raise e, fs') =>
          (Raise (Exn RuntimeError
             ("Failed to create ffmpegcv writer: " ++ exn_str e)%string),
           (self, fs'))
      | (Ok w, fs') =>
          (Ok tt, (set_is_opened true (set_writer (Some w) self), fs'))
      end.

(** [write_frame(frame)] *)
Definition write_frame (frame : PyFrame) : Py (t * FS) unit :=
  fun '(self, fs) =>
    match _is_opened self, _writer self with
    | true, Some w =>
        match frame with
        | NotArray =>
            (Raise (Exn ValueError "Frame must be a numpy array"), (self, fs))
        | Array a =>
            if negb (Nat.eqb (length (shape a)) 3) then
              (Raise (Exn ValueError
                 ("Frame must have 3 dimensions, got "
                    ++ pretty (length (shape a)))%string),
               (self, fs))
            else
              let resized :=
                if shape2_differs a (height self) (width self)
                then cv2_resize lib a (width self) (height self)
                else Ok a in
              match resized with
              | Raise e => (Raise e, (self, fs))
              | Ok a' =>
                  match nth_error (shape a') 2 with
                  | None =>
                      (Raise (Exn IndexError "tuple index out of range"),
                       (self, fs))
                  | Some ch =>
                      let frame_rgb :=
                        if ch =? 3
                        then {| shape := shape a';
                                pixels := Reversed (pixels a') |}
                        else a' in
                      match write lib w frame_rgb fs with
                      | (Raise e, (w', fs')) =>
                          (Raise (Exn RuntimeError
                             ("Failed to write frame to video: "
                                ++ exn_str e)%string),
                           (set_writer (Some w') self, fs'))
                      | (Ok _, (w', fs')) =>
                          (Ok tt, (set_writer (Some w') self, fs'))
                      end
                  end
              end
        end
    | _, _ =>
        (Raise (Exn RuntimeError
           "Video writer not initialized. Call open() first."),
         (self, fs))
    end.

(** [close()] *)
Definition close : Py (t * FS) unit :=
  fun '(self, fs) =>
    match _writer self with
    | Some w =>
        let '(_, fs') := release lib w fs in
        (Ok tt, (set_is_opened false (set_writer None self), fs'))
    | None => (Ok tt, (self, fs))
    end.

Definition get_encoder_info (self : t) : EncoderInfo :=
  let info := [("pix_fmt", PyStr (pix_fmt self));
               ("hardware_accel", PyStr (hardware_accel self))] in
  let info :=
    if _is_gpu_codec (codec self)
    then dict_set "gpu_id" (PyInt (gpu_id self)) info else info in
  let info :=
    if thread_count self >? 0
    then dict_set "threads" (PyInt (thread_count self)) info else info in
  {| info_backend := name self;
     info_codec := codec self;
     info_fps := fps self;
     info_resolution := (width self, height self);
     info_quality_preset := quality_preset self;
     info_crf := crf self;
     info_preset := preset self;
     info_supports_gpu := supports_gpu self;
     info_pixel_format := get_pixel_format self;
     info_more := info |}.

(** [validate_settings()]; [crf] is an [int] by its type. *)
Definition validate_settings (self : t) : list string :=
  let errors := [] in
  let errors :=
    if fps self <=? 0 then errors ++ ["FPS must be greater than 0"]
    else errors in
  let errors :=
    if fps self >? 240
    then errors ++ ["FPS should not exceed 240 for most use cases"]
    else errors in
  let errors :=
    if (width self <=? 0) || (height self <=? 0)
    then errors ++ ["Width and height must be greater than 0"]
    else errors in
  let errors :=
    if (width self >? 16384) || (height self >? 16384)
    then errors ++ ["Width and height should not exceed 16384 pixels"]
    else errors in
  let errors :=
    if negb (str_in (codec self) (supported_codecs self))
    then errors ++
         [("Unsupported codec: " ++ codec self ++ ". Supported codecs: "
             ++ repr_list (supported_codecs self))%string]
    else errors in
  let errors :=
    if (crf self <? 0) || (crf self >? 51)
    then errors ++ ["CRF must be an integer between 0 and 51"]
    else errors in
  let errors :=
    if negb (width self mod 2 =? 0) || negb (height self mod 2 =? 0)
    then errors ++ ["Width and height must be even for most codecs"]
    else errors in
  let errors :=
    if _is_gpu_codec (codec self) then
      if endswith "_nvenc" (codec self) && negb _is_nvidia_available
      then errors ++
           ["NVIDIA NVENC codec selected but NVIDIA GPU not available"]
      else if endswith "_qsv" (codec self) && negb _is_intel_qsv_available
      then errors ++
           ["Intel QSV codec selected but Intel Quick Sync not available"]
      else errors
    else errors in
  errors.
End WithLib.

Arguments t W : clear implicits.
End FFmpegCV.

(** ** [sorted(iterable, key=...)]

    Python's sort is stable; a stable sort is determined by the keys and the
    order of its input, and insertion from the right is one. *)

Section Sorted.
Context {A : Type} (key : A -> Z).

Fixpoint insert_by_key (x : A) (l : list A) : list A :=
  match l with
  | [] => [x]
  | y :: l' => if key x <=? key y then x :: y :: l' else y :: insert_by_key x l'
  end.

Definition sorted (l : list A) : list A := fold_right insert_by_key [] l.
End Sorted.

(** ** [BackendRegistry] *)

(** What [backend_class.is_available()] does when it is called. *)
Inductive Probe := ProbeTrue | ProbeFalse | ProbeRaises.

(** A backend class as the registry uses it: the class attribute
    [priority] when the class has one, the static probe, and the call
    [backend_class( **kwargs )] yielding an instance of type [I]. *)
Record BackendClass (I : Type) := {
  cls_priority : option Z;
  cls_is_available : Probe;
  cls_call : dict PyVal -> result I
}.
Arguments cls_priority {I}.
Arguments cls_is_available {I}.
Arguments cls_call {I}.

Module BackendRegistry.
Section WithInstances.
Context {I : Type}.

(** The two class-level dictionaries. *)
Record t := {
  _backends : dict (BackendClass I);
  _availability_cache : gmap string bool
}.

Definition empty : t := {| _backends := []; _availability_cache := ∅ |}.

Definition register (name : string) (backend_class : BackendClass I)
    (cls : t) : t :=
  {| _backends := dict_set name backend_class (_backends cls);
     _availability_cache := delete name (_availability_cache cls) |}.

Definition unregister (name : string) (cls : t) : t :=
  if dict_mem name (_backends cls) then
    {| _backends := dict_del name (_backends cls);
       _availability_cache := delete name (_availability_cache cls) |}
  else cls.

Definition get_backend (name : string) (cls : t) : option (BackendClass I) :=
  dict_get name (_backends cls).

Definition list_backends (cls : t) : list string :=
  dict_keys (_backends cls).

Definition cache_put (name : string) (b : bool) (cls : t) : t :=
  {| _backends := _backends cls;
     _availability_cache := <[name := b]> (_availability_cache cls) |}.

Definition is_backend_available (name : string) (cls : t) : bool * t :=
  match _availability_cache cls !! name with
  | Some b => (b, cls)
  | None =>
      match dict_get name (_backends cls) with
      | None => (false, cache_put name false cls)
      | Some backend_class =>
          match cls_is_available backend_class with
          | ProbeTrue => (true, cache_put name true cls)
          | ProbeFalse => (false, cache_put name false cls)
          | ProbeRaises => (false, cache_put name false cls)
          end
      end
  end.

(** The loop of [get_available_backends] over [_backends.items()]. *)
Fixpoint available_loop (items : dict (BackendClass I))
    (available : dict (BackendClass I)) (cls : t)
    : dict (BackendClass I) * t :=
  match items with
  | [] => (available, cls)
  | (name, backend_class) :: rest =>
      let '(b, cls') := is_backend_available name cls in
      available_loop rest
        (if b then dict_set name backend_class available else available)
        cls'
  end.

Definition get_available_backends (cls : t) : dict (BackendClass I) * t :=
  available_loop (_backends cls) [] cls.

Definition default_priorities : dict Z := [("ffmpegcv", 90); ("opencv", 100)].

Definition get_backend_priority (name : string) (cls : t) : Z :=
  match dict_get name (_backends cls) with
  | None => 100
  | Some backend_class =>
      match cls_priority backend_class with
      | Some p => p
      | None =>
          match dict_get name default_priorities with
          | Some p => p
          | None => 100
          end
      end
  end.

Definition get_best_backend (cls : t) : option string * t :=
  let '(available, cls') := get_available_backends cls in
  match available with
  | [] => (None, cls')
  | _ =>
      let sorted_backends :=
        sorted (fun name => get_backend_priority name cls')
               (dict_keys available) in
      (head sorted_backends, cls')
  end.

Definition clear_cache (cls : t) : t :=
  {| _backends := _backends cls; _availability_cache := ∅ |}.

(** The module-level factory [create_backend(backend_name, **kwargs)]. *)
Definition create_backend (backend_name : string) (kwargs : dict PyVal)
    : Py t I :=
  fun cls =>
    match get_backend backend_name cls with
    | None =>
        (Raise (Exn ValueError ("Unknown backend: " ++ backend_name)%string),
         cls)
    | Some backend_class =>
        let '(b, cls') := is_backend_available backend_name cls in
        if negb b then
          (Raise (Exn ValueError
             ("Backend '" ++ backend_name
                ++ "' is not available (missing dependencies)")%string),
           cls')
        else
          match cls_call backend_class kwargs with
          | Ok inst => (Ok inst, cls')
          | Raise e =>
              (Raise (Exn RuntimeError
                 ("Failed to create backend '" ++ backend_name ++ "': "
                    ++ exn_str e)%string),
               cls')
          end
    end.


Definition list_available_backends (cls : t) : list string * t :=
  let '(available, cls') := get_available_backends cls in
  (dict_keys available, cls').

(** [create_best_backend( **kwargs )] *)
Definition create_best_backend (kwargs : dict PyVal) : Py t I :=
  fun cls =>
    let '(backend_name, cls') := get_best_backend cls in
    match backend_name with
    | None =>
        (Raise (Exn RuntimeError "No video backends are available"), cls')
    | Some name => create_backend name kwargs cls'
    end.

(** Whether the probe of a class answers [True]; a probe that raises
    counts as [False]. *)
Definition probe (backend_class : BackendClass I) : bool :=
  match cls_is_available backend_class with
  | ProbeTrue => true
  | ProbeFalse | ProbeRaises => false
  end.

(** The states the class-level dictionaries go through: empty at first,
    then changed by the class methods and the factory only. *)
Inductive reachable : t -> Prop :=
  | reach_empty : reachable empty
  | reach_register name backend_class cls :
      reachable cls -> reachable (register name backend_class cls)
  | reach_unregister name cls :
      reachable cls -> reachable (unregister name cls)
  | reach_clear_cache cls :
      reachable cls -> reachable (clear_cache cls)
  | reach_is_backend_available name cls :
      reachable cls -> reachable (snd (is_backend_available name cls))
  | reach_get_available_backends cls :
      reachable cls -> reachable (snd (get_available_backends cls))
  | reach_get_best_backend cls :
      reachable cls -> reachable (snd (get_best_backend cls))
  | reach_create_backend name kwargs cls :
      reachable cls -> reachable (snd (create_backend name kwargs cls)).

(** A dictionary has each key once. *)
Definition wf (cls : t) : Prop := NoDup (list_backends cls).

(** What [is_backend_available] answers in a given state. *)
Definition available_now (cls : t) (name : string) : bool :=
  fst (is_backend_available name cls).

(** Two registry states that hold the same classes and give the same
    availability answers. *)
Definition same_answers (cls cls' : t) : Prop :=
  _backends cls' = _backends cls
  /\ forall n, available_now cls' n = available_now cls n.
End WithInstances.
Arguments t I : clear implicits.
End BackendRegistry.

(** ** Python floats

    [float] is IEEE 754 binary64, as the kernel's [float].  An [int] below
    2^53 in absolute value converts exactly, and for such operands the true
    division [a / b] of two [int]s is the binary64 quotient of their
    conversions. *)

Module PyFloat.
Definition of_int (z : Z) : float :=
  if 0 <=? z then PrimFloat.of_uint63 (Uint63.of_Z z)
  else PrimFloat.opp (PrimFloat.of_uint63 (Uint63.of_Z (- z))).

Definition zero_division : exn := Exn ZeroDivisionError "division by zero".

(** [a / b] on two [int]s. *)
Definition int_truediv (a b : Z) : result float :=
  if b =? 0 then Raise zero_division
  else Ok (PrimFloat.div (of_int a) (of_int b)).

(** [x / y] on two [float]s. *)
Definition truediv (x y : float) : result float :=
  if PrimFloat.eqb y PrimFloat.zero then Raise zero_division
  else Ok (PrimFloat.div x y).

(** [int(x)]: truncation toward zero; raises on an infinity or a NaN. *)
Definition to_int (x : float) : result Z :=
  match Prim2SF x with
  | S754_zero _ => Ok 0
  | S754_finite s m e =>
      let mag := if 0 <=? e then Z.shiftl (Z.pos m) e
                 else Z.shiftr (Z.pos m) (- e) in
      Ok (if s then - mag else mag)
  | S754_infinity _ =>
      Raise (Exn LibraryError "cannot convert float infinity to integer")
  | S754_nan =>
      Raise (Exn ValueError "cannot convert float NaN to integer")
  end.

(** The literal [0.01]. *)
Definition one_hundredth : float := 0x1.47ae147ae147bp-7%float.

(** The integers that convert to a float exactly. *)
Definition exact (z : Z) : Prop := - 2 ^ 53 < z < 2 ^ 53.
End PyFloat.

(** ** [VideoEncoder] *)

Module VideoEncoder.

(** [get_resolution_for_aspect_ratio(original_width, original_height,
    target_resolution)] *)
Definition get_resolution_for_aspect_ratio (original_width original_height : Z)
    (target_resolution : option (Z * Z)) : result (Z * Z) :=
  match target_resolution with
  | None => Ok (original_width, original_height)
  | Some (target_width, target_height) =>
      match PyFloat.int_truediv original_width original_height with
      | Raise e => Raise e
      | Ok original_aspect =>
          match PyFloat.int_truediv target_width target_height with
          | Raise e => Raise e
          | Ok target_aspect =>
              if PrimFloat.ltb
                   (PrimFloat.abs (PrimFloat.sub original_aspect target_aspect))
                   PyFloat.one_hundredth
              then Ok (target_width, target_height)
              else if PrimFloat.ltb target_aspect original_aspect
              then
                match PyFloat.truediv (PyFloat.of_int target_width)
                                      original_aspect with
                | Raise e => Raise e
                | Ok q =>
                    match PyFloat.to_int q with
                    | Raise e => Raise e
                    | Ok new_height => Ok (target_width, new_height)
                    end
                end
              else
                match PyFloat.to_int
                        (PrimFloat.mul (PyFloat.of_int target_height)
                                       original_aspect) with
                | Raise e => Raise e
                | Ok new_width => Ok (new_width, target_height)
                end
          end
      end
  end.

Definition ensure_even_dimensions := ensure_even_dimensions.
End VideoEncoder.

(** ** The interface [VideoBackend] (base.py), as the generator calls it *)

Module VideoBackend.
Class ops (B : Type) := {
  name : B -> string;
  get_pixel_format : B -> string;
  get_encoder_info : B -> EncoderInfo;
  open : string -> Py (B * FS) unit;
  write_frame : PyFrame -> Py (B * FS) unit;
  close : Py (B * FS) unit
}.

Section Instances.
Context {W : Type} (lib : VideoLib W).

Definition opencv : ops (OpenCV.t W) :=
  {| name := OpenCV.name;
     get_pixel_format := OpenCV.get_pixel_format;
     get_encoder_info := OpenCV.get_encoder_info;
     open := OpenCV.open lib;
     write_frame := OpenCV.write_frame lib;
     close := OpenCV.close lib |}.

Definition ffmpegcv : ops (FFmpegCV.t W) :=
  {| name := FFmpegCV.name;
     get_pixel_format := FFmpegCV.get_pixel_format;
     get_encoder_info := FFmpegCV.get_encoder_info lib;
     open := FFmpegCV.open lib;
     write_frame := FFmpegCV.write_frame lib;
     close := FFmpegCV.close lib |}.
End Instances.

(** An instance of either class: a method call goes to the class of the
    object. *)
Definition either {A B} (oa : ops A) (ob : ops B) : ops (A + B) :=
  {| name := fun x => match x with inl a => name a | inr b => name b end;
     get_pixel_format := fun x =>
       match x with
       | inl a => get_pixel_format a
       | inr b => get_pixel_format b
       end;
     get_encoder_info := fun x =>
       match x with
       | inl a => get_encoder_info a
       | inr b => get_encoder_info b
       end;
     open := fun p '(x, fs) =>
       match x with
       | inl a => let '(r, (a', fs')) := open p (a, fs) in (r, (inl a', fs'))
       | inr b => let '(r, (b', fs')) := open p (b, fs) in (r, (inr b', fs'))
       end;
     write_frame := fun f '(x, fs) =>
       match x with
       | inl a =>
           let '(r, (a', fs')) := write_frame f (a, fs) in (r, (inl a', fs'))
       | inr b =>
           let '(r, (b', fs')) := write_frame f (b, fs) in (r, (inr b', fs'))
       end;
     close := fun '(x, fs) =>
       match x with
       | inl a => let '(r, (a', fs')) := close (a, fs) in (r, (inl a', fs'))
       | inr b => let '(r, (b', fs')) := close (b, fs) in (r, (inr b', fs'))
       end |}.
End VideoBackend.

(** ** [video/backends/__init__.py]: the classes and their registration

    A call [backend_class( **kwargs )] binds the dictionary to the
    parameters of [__init__]; a value outside a parameter's annotated type
    is refused here with a [TypeError].  Of the two classes the package
    means to register, only [OpenCVBackend] can be imported. *)

Module Backends.
Definition arg_int (k : string) (kw : dict PyVal) : result Z :=
  match dict_get k kw with
  | Some (PyInt z) => Ok z
  | Some _ => Raise (Exn TypeError (k ++ ": int expected")%string)
  | None =>
      Raise (Exn TypeError
        ("__init__() missing 1 required positional argument: '" ++ k ++ "'")%string)
  end.

Definition arg_opt_str (k : string) (kw : dict PyVal) : result (option string) :=
  match dict_get k kw with
  | Some (PyStr s) => Ok (Some s)
  | Some PyNone | None => Ok None
  | Some _ => Raise (Exn TypeError (k ++ ": str or None expected")%string)
  end.

Definition arg_str_default (k : string) (kw : dict PyVal) (default : string)
    : result string :=
  match dict_get k kw with
  | Some (PyStr s) => Ok s
  | Some _ => Raise (Exn TypeError (k ++ ": str expected")%string)
  | None => Ok default
  end.

Definition rbind {A B} (r : result A) (k : A -> result B) : result B :=
  match r with
  | Ok a => k a
  | Raise e => Raise e
  end.

Section WithLib.
Context {W : Type} (lib : VideoLib W).

Abbreviation instance := (OpenCV.t W + FFmpegCV.t W)%type.

Definition OpenCVBackend_call (kw : dict PyVal) : result instance :=
  rbind (arg_int "fps" kw) (fun fps =>
  rbind (arg_int "width" kw) (fun width =>
  rbind (arg_int "height" kw) (fun height =>
  rbind (arg_opt_str "codec" kw) (fun codec =>
  rbind (arg_opt_str "bitrate" kw) (fun bitrate =>
  rbind (arg_str_default "quality_preset" kw "medium") (fun quality_preset =>
  rbind (OpenCV.__init__ fps width height codec bitrate quality_preset kw)
        (fun self => Ok (inl self)))))))).

(** [OpenCVBackend.is_available()]: [cv2.VideoWriter_fourcc( *'mp4v')]
    inside a [try]. *)
Definition OpenCVBackend : BackendClass instance :=
  {| cls_priority := Some OpenCV.priority;
     cls_is_available :=
       match cv2_fourcc lib "mp4v" with
       | Ok _ => ProbeTrue
       | Raise _ => ProbeFalse
       end;
     cls_call := OpenCVBackend_call |}.

(** [from .opencv_backend import OpenCVBackend]: the module imports [cv2]
    and [numpy] and then defines the class. *)
Definition import_OpenCVBackend (cv2_importable : bool)
    : result (BackendClass instance) :=
  if cv2_importable then Ok OpenCVBackend
  else Raise (Exn ImportError "No module named 'cv2'").

(** [from .ffmpegcv_backend import FFmpegCVBackend]: the module is
    compiled before any of it runs, and line 116 does not parse. *)
Definition import_FFmpegCVBackend : result (BackendClass instance) :=
  Raise (Exn SyntaxError "invalid syntax (ffmpegcv_backend.py, line 116)").

(** [from ...ffmpegcv_backend import FFmpegCVBackend] followed by
    [FFmpegCVBackend( **kwargs )]. *)
Definition new_FFmpegCVBackend (kw : dict PyVal) : result instance :=
  rbind import_FFmpegCVBackend (fun backend_class => cls_call backend_class kw).

(** One block of the package:
    [try: from .m import C; BackendRegistry.register(name, C)]
    [except ImportError: pass]. *)
Definition try_register (name : string)
    (imported : result (BackendClass instance))
    : Py (BackendRegistry.t instance) unit :=
  fun cls =>
    match imported with
    | Ok backend_class =>
        (Ok tt, BackendRegistry.register name backend_class cls)
    | Raise e =>
        match exn_cls e with
        | ImportError => (Ok tt, cls)
        | _ => (Raise e, cls)
        end
    end.

(** The module body of [video/backends/__init__.py] as far as it
    registers classes. *)
Definition package_body (cv2_importable : bool)
    : Py (BackendRegistry.t instance) unit :=
  fun cls =>
    match try_register "opencv" (import_OpenCVBackend cv2_importable) cls with
    | (Raise e, cls') => (Raise e, cls')
    | (Ok _, cls') => try_register "ffmpegcv" import_FFmpegCVBackend cls'
    end.

Definition instance_ops : VideoBackend.ops instance :=
  VideoBackend.either (VideoBackend.opencv lib) (VideoBackend.ffmpegcv lib).
End WithLib.
End Backends.

(** ** [VideoGenerator] *)

Module VideoGenerator.

(** [settings.video.backends] maps a backend name to an object with the
    attributes [enabled], [priority] and [settings]; its declaration is
    not in [config/settings.py], so the table is an attribute of the
    generator here. *)
Record BackendConfig := {
  enabled : bool;
  cfg_priority : Z;
  settings : dict PyVal
}.

Record t := {
  fps : Z;
  quality : string;
  resolution : option (Z * Z);
  show_progress : bool;
  backend_fallback : bool;
  backend_name : string;
  codec : option string;
  bitrate : option string;
  config_backends : dict BackendConfig
}.

Record ThumbnailInfo := {
  thumbnail_path : string;
  thumbnail_size_bytes : Z;
  source_image : string;
  middle_index : Z;
  total_images : Z
}.

(** The result dictionary.  Its float entries ([output_size_mb],
    [duration_seconds]) and [input_properties] are not kept; the division
    computing [duration_seconds] is, since it can raise. *)
Record GenerationResult := {
  success : bool;
  output_path : string;
  backend_used : string;
  encoder_info : EncoderInfo;
  frame_count : Z;
  skipped_count : Z;
  output_size_bytes : Z;
  result_resolution : Z * Z;
  result_fps : Z;
  thumbnail : option ThumbnailInfo
}.

(** What the run meets outside the program: the clock, the caller's
    progress callback (called with images done, frames written, total
    images; its float arguments carry no control flow) and the outcome of
    [_create_thumbnail], which catches every exception and writes only
    the sibling thumbnail file. *)
Record RunEnv := {
  elapsed_positive : nat -> bool;     (* [time.time() - start_time > 0] at image i *)
  total_time_positive : bool;
  progress_callback : option (Z -> Z -> Z -> result unit);
  thumbnail_outcome : option ThumbnailInfo
}.


(** The dimension negotiation of [generate_video]: the optional rescale,
    then forcing even. *)
Definition negotiate_dimensions (self : t) (width height : Z)
    : result (Z * Z) :=
  let scaled :=
    match resolution self with
    | Some target =>
        VideoEncoder.get_resolution_for_aspect_ratio width height (Some target)
    | None => Ok (width, height)
    end in
  match scaled with
  | Raise e => Raise e
  | Ok (w, h) => Ok (VideoEncoder.ensure_even_dimensions w h)
  end.

Section Acquire.
Context {I : Type}.



End Acquire.

Section Encode.
Context {W : Type} (lib : VideoLib W).
Context {B : Type} {backend_ops : VideoBackend.ops B}.

(** [_process_image]: every exception inside it yields [None]. *)
Definition _process_image (image_path : string)
    (target_width target_height : Z) (pixel_format : string)
    : option ndarray :=
  match cv2_imread lib image_path with
  | Raise _ => None
  | Ok None => None
  | Ok (Some img) =>
      match shape img with
      | current_height :: current_width :: _ =>
          let resized :=
            if negb (current_width =? target_width)
               || negb (current_height =? target_height)
            then cv2_resize lib img target_width target_height
            else Ok img in
          match resized with
          | Raise _ => None
          | Ok img =>
              if String.eqb pixel_format "rgb"
                 && Nat.eqb (length (shape img)) 3
                 && (nth 2 (shape img) 0 =? 3)
              then
                match cv2_cvtColor lib img with
                | Raise _ => None
                | Ok img' => Some img'
                end
              else Some img
          end
      | _ => None   (* unpacking [img.shape[:2]] fails *)
      end
  end.

(** The state of the frame loop. *)
Record loop_state := {
  ls_frame_count : Z;
  ls_skipped_count : Z;
  ls_backend : B;
  ls_fs : FS
}.

(** One iteration of [for i, image_path in enumerate(valid_images)],
    the [try]/[except Exception] included. *)
Definition loop_body (self : t) (env : RunEnv) (width height : Z)
    (total_images : Z) (i : nat) (image_path : string) (st : loop_state)
    : loop_state :=
  let fc := ls_frame_count st in
  let sc := ls_skipped_count st in
  match _process_image image_path width height
          (VideoBackend.get_pixel_format (ls_backend st)) with
  | Some frame =>
      match VideoBackend.write_frame (Array frame) (ls_backend st, ls_fs st) with
      | (Raise _, (b, fs)) =>
          {| ls_frame_count := fc; ls_skipped_count := sc + 1;
             ls_backend := b; ls_fs := fs |}
      | (Ok _, (b, fs)) =>
          let fc := fc + 1 in
          if elapsed_positive env i then
            (* [video_duration = frame_count / self.fps] *)
            if fps self =? 0 then
              {| ls_frame_count := fc; ls_skipped_count := sc + 1;
                 ls_backend := b; ls_fs := fs |}
            else
              match progress_callback env with
              | Some callback =>
                  match callback (Z.of_nat i + 1) fc total_images with
                  | Ok _ =>
                      {| ls_frame_count := fc; ls_skipped_count := sc;
                         ls_backend := b; ls_fs := fs |}
                  | Raise _ =>
                      {| ls_frame_count := fc; ls_skipped_count := sc + 1;
                         ls_backend := b; ls_fs := fs |}
                  end
              | None =>
                  {| ls_frame_count := fc; ls_skipped_count := sc;
                     ls_backend := b; ls_fs := fs |}
              end
          else
            {| ls_frame_count := fc; ls_skipped_count := sc;
               ls_backend := b; ls_fs := fs |}
      end
  | None =>
      {| ls_frame_count := fc; ls_skipped_count := sc + 1;
         ls_backend := ls_backend st; ls_fs := ls_fs st |}
  end.

Fixpoint frame_loop (self : t) (env : RunEnv) (width height : Z)
    (total_images : Z) (i : nat) (images : list string) (st : loop_state)
    : loop_state :=
  match images with
  | [] => st
  | image_path :: rest =>
      frame_loop self env width height total_images (S i) rest
        (loop_body self env width height total_images i image_path st)
  end.

(** The body of the outer [try] of [_generate_with_backend]. *)
Definition encode_and_finalize (self : t) (env : RunEnv)
    (valid_images : list string) (output_path : string) (width height : Z)
    (create_thumbnail : bool) (backend_info : EncoderInfo)
    : Py (B * FS) GenerationResult :=
  fun '(backend, fs) =>
    let total_images := Z.of_nat (length valid_images) in
    let st := frame_loop self env width height total_images 0 valid_images
                {| ls_frame_count := 0; ls_skipped_count := 0;
                   ls_backend := backend; ls_fs := fs |} in
    (* [final_success_rate = (frame_count / total_images) * 100] *)
    if total_time_positive env && (total_images =? 0) then
      (Raise PyFloat.zero_division, (ls_backend st, ls_fs st))
    else
      match VideoBackend.close (ls_backend st, ls_fs st) with
      | (Raise e, s) => (Raise e, s)
      | (Ok _, (backend, fs)) =>
          match fs !! output_path with
          | None =>
              (Raise (Exn RuntimeError "Video file was not created"),
               (backend, fs))
          | Some output_size =>
              let thumbnail_info :=
                if create_thumbnail then thumbnail_outcome env else None in
              (* ["duration_seconds": frame_count / self.fps] *)
              if fps self =? 0 then
                (Raise PyFloat.zero_division, (backend, fs))
              else
                (Ok {| success := true;
                       output_path := output_path;
                       backend_used := VideoBackend.name backend;
                       encoder_info := backend_info;
                       frame_count := ls_frame_count st;
                       skipped_count := ls_skipped_count st;
                       output_size_bytes := output_size;
                       result_resolution := (width, height);
                       result_fps := fps self;
                       thumbnail := thumbnail_info |},
                 (backend, fs))
          end
      end.

(** [_generate_with_backend]: [open] is outside the [try]; the handler
    closes the backend, removes the output file and re-raises. *)
Definition _generate_with_backend (self : t) (env : RunEnv)
    (valid_images : list string) (output_path : string) (width height : Z)
    (create_thumbnail : bool) : Py (B * FS) GenerationResult :=
  fun '(backend, fs) =>
    let backend_info := VideoBackend.get_encoder_info backend in
    match VideoBackend.open output_path (backend, fs) with
    | (Raise e, s) => (Raise e, s)
    | (Ok _, s) =>
        match encode_and_finalize self env valid_images output_path
                width height create_thumbnail backend_info s with
        | (Ok r, s') => (Ok r, s')
        | (Raise e, s') =>
            let '(_, (backend', fs')) := VideoBackend.close s' in
            (Raise e, (backend', delete output_path fs'))
        end
    end.

End Encode.
End VideoGenerator.

(** ** States a backend instance can be in

    An OpenCV instance comes from [__init__], here with the [width] and
    [height] it was given, and changes only through its methods. *)

Section Reachable.
Context {W : Type} (lib : VideoLib W).

Inductive opencv_reachable (width height : Z) : OpenCV.t W -> Prop :=
  | ocv_init fps codec bitrate quality_preset kwargs self :
      OpenCV.__init__ fps width height codec bitrate quality_preset kwargs
        = Ok self ->
      opencv_reachable width height self
  | ocv_open self fs path r self' fs' :
      opencv_reachable width height self ->
      OpenCV.open lib path (self, fs) = (r, (self', fs')) ->
      opencv_reachable width height self'
  | ocv_write self fs frame r self' fs' :
      opencv_reachable width height self ->
      OpenCV.write_frame lib frame (self, fs) = (r, (self', fs')) ->
      opencv_reachable width height self'
  | ocv_close self fs r self' fs' :
      opencv_reachable width height self ->
      OpenCV.close lib (self, fs) = (r, (self', fs')) ->
      opencv_reachable width height self'.
End Reachable.

(** In the words of the claim on the resolution override: the aspect
    ratios [ow / oh] and [tw / th] of positive sizes differ by less than
    1% of [base], in exact arithmetic and cross-multiplied; [base] is the
    smaller or the larger of the two ratios. *)
Definition ratios_differ_by_less_than_1_percent_of
    (base : Z -> Z -> Z) (ow oh tw th : Z) : bool :=
  100 * Z.abs (ow * th - tw * oh) <? base (ow * th) (tw * oh).

(** The progress callback, if there is one, returns from every call. *)
Definition callback_returns (env : VideoGenerator.RunEnv) : Prop :=
  match VideoGenerator.progress_callback env with
  | Some callback => forall done frames total, callback done frames total = Ok tt
  | None => True
  end.

(** The error of [write_frame] on an instance that is not open. *)
Definition not_initialized : exn :=
  Exn RuntimeError "Video writer not initialized. Call open() first.".

(** The frames [write_frame] looks at further: arrays of three
    dimensions, for the OpenCV backend with 1, 3 or 4 channels. *)
Definition three_dimensional (frame : PyFrame) : bool :=
  match frame with
  | NotArray => false
  | Array a => Nat.eqb (length (shape a)) 3
  end.

Definition opencv_frame (frame : PyFrame) : bool :=
  match frame with
  | NotArray => false
  | Array a =>
      Nat.eqb (length (shape a)) 3
      && ((nth 2 (shape a) 0 =? 1) || (nth 2 (shape a) 0 =? 3)
          || (nth 2 (shape a) 0 =? 4))
  end.

(** What the code relies on from [cv2.resize]: the array it returns has
    the height and width asked for. *)
Definition resize_gives_size {W : Type} (lib : VideoLib W) : Prop :=
  forall a w h a', cv2_resize lib a w h = Ok a' -> shape2_differs a' h w = false.

(** [stored] is [given] made even by stepping down: even, never larger,
    equal when [given] is even and one less when it is odd. *)
Definition forced_even (given stored : Z) : Prop :=
  stored mod 2 = 0
  /\ stored <= given
  /\ (given mod 2 = 0 -> stored = given)
  /\ (given mod 2 <> 0 -> stored = given - 1).

(** ** A small encoder library to run the code on

    The writer creates an empty file when it is constructed, appends the
    samples of each frame it is given, and has nothing left to flush on
    release.  [imread] decodes every path to a 640x480 BGR image, except
    the path [corrupt.jpg]. *)

Module Sim.
Record writer := { sw_path : string; sw_frames : list ndarray }.

Definition frame_bytes (a : ndarray) : Z := fold_right Z.mul 1 (shape a).

Definition file_size (p : string) (fs : FS) : Z :=
  match fs !! p with Some n => n | None => 0 end.

Definition lib : VideoLib writer :=
  {| cv2_fourcc := fun _ => Ok tt;
     new_writer := fun params fs =>
       (Ok {| sw_path := wp_path params; sw_frames := [] |},
        <[wp_path params := 0]> fs);
     isOpened := fun _ => true;
     write := fun w a fs =>
       (Ok true,
        ({| sw_path := sw_path w; sw_frames := sw_frames w ++ [a] |},
         <[sw_path w := file_size (sw_path w) fs + frame_bytes a]> fs));
     release := fun _ fs => (Ok tt, fs);
     cv2_resize := fun a w h =>
       match shape a with
       | [_; _; c] =>
           Ok {| shape := [h; w; c]; pixels := Resized (pixels a) w h |}
       | _ => Raise (Exn LibraryError "resize")
       end;
     cv2_imread := fun path =>
       if String.eqb path "corrupt.jpg" then Ok None
       else Ok (Some {| shape := [480; 640; 3]; pixels := Decoded path |});
     cv2_cvtColor := fun a =>
       Ok {| shape := shape a; pixels := CvtRGB (pixels a) |};
     ffmpegcv_importable := true;
     nvenc_probe := false;
     qsv_probe := false |}.

(** Two classes to register, as the tests register theirs: the OpenCV
    class, and a subclass of it that sets [priority = 90] and always
    passes [quality_preset='low'] on to the constructor it inherits. *)
Definition fast_backend : BackendClass (OpenCV.t writer + FFmpegCV.t writer) :=
  {| cls_priority := Some 90;
     cls_is_available := cls_is_available (Backends.OpenCVBackend lib);
     cls_call := fun kwargs =>
       Backends.OpenCVBackend_call
         (dict_set "quality_preset" (PyStr "low") kwargs) |}.

Definition registry : BackendRegistry.t (OpenCV.t writer + FFmpegCV.t writer) :=
  BackendRegistry.register "fast" fast_backend
    (BackendRegistry.register "opencv" (Backends.OpenCVBackend lib)
       BackendRegistry.empty).

Definition generator (backend : string) : VideoGenerator.t :=
  {| VideoGenerator.fps := 30;
     VideoGenerator.quality := "medium";
     VideoGenerator.resolution := None;
     VideoGenerator.show_progress := false;
     VideoGenerator.backend_fallback := true;
     VideoGenerator.backend_name := backend;
     VideoGenerator.codec := None;
     VideoGenerator.bitrate := None;
     VideoGenerator.config_backends := [] |}.

(** A clock that has advanced at every reading, no thumbnail. *)
Definition run_env (callback : option (Z -> Z -> Z -> result unit))
    : VideoGenerator.RunEnv :=
  {| VideoGenerator.elapsed_positive := fun _ => true;
     VideoGenerator.total_time_positive := true;
     VideoGenerator.progress_callback := callback;
     VideoGenerator.thumbnail_outcome := None |}.

Definition failing_callback (done frames total : Z) : result unit :=
  Raise (Exn LibraryError "callback failed").

(** A 640x480 session of each backend, opened on [out.mp4] in an empty
    directory, and a frame of another size. *)
Definition opencv_session : option (OpenCV.t writer * FS) :=
  match OpenCV.__init__ 30 640 480 None None "medium" [] with
  | Ok b =>
      match OpenCV.open lib "out.mp4" (b, ∅) with
      | (Ok _, s) => Some s
      | _ => None
      end
  | Raise _ => None
  end.

(** A record of the attributes the FFmpegCV methods read: 640x480,
    libx264, no writer. *)
Definition ffmpegcv_record (fps : Z) : FFmpegCV.t writer :=
  {| FFmpegCV.fps := fps;
     FFmpegCV.width := 640;
     FFmpegCV.height := 480;
     FFmpegCV.quality_preset := "medium";
     FFmpegCV.hardware_accel := "auto";
     FFmpegCV.gpu_id := 0;
     FFmpegCV.preset := "medium";
     FFmpegCV.crf := 23;
     FFmpegCV.codec := "libx264";
     FFmpegCV.pix_fmt := "yuv420p";
     FFmpegCV.thread_count := 0;
     FFmpegCV._writer := None;
     FFmpegCV._output_path := None;
     FFmpegCV._is_opened := false |}.

Definition ffmpegcv_session : option (FFmpegCV.t writer * FS) :=
  match FFmpegCV.open lib "out.mp4" (ffmpegcv_record 30, ∅) with
  | (Ok _, s) => Some s
  | _ => None
  end.

Definition small_frame : ndarray :=
  {| shape := [100; 200; 3]; pixels := Decoded "small.png" |}.

(** The instance [OpenCVBackend(fps=30, width=640, height=480)]. *)
Definition fresh_opencv : OpenCV.t writer :=
  {| OpenCV.fps := 30;
     OpenCV.width := 640;
     OpenCV.height := 480;
     OpenCV.quality_preset := "medium";
     OpenCV.codec := "mp4v";
     OpenCV.bitrate := "5M";
     OpenCV.crf := 23;
     OpenCV.preset := "medium";
     OpenCV.use_color_conversion := PyBool true;
     OpenCV._writer := None;
     OpenCV._output_path := None;
     OpenCV._is_opened := false |}.

(** A 640x480 job of that instance writing [out.mp4] in an empty
    directory. *)
Definition run (callback : option (Z -> Z -> Z -> result unit))
    (valid_images : list string)
    : result VideoGenerator.GenerationResult * (OpenCV.t writer * FS) :=
  VideoGenerator._generate_with_backend lib
    (backend_ops := VideoBackend.opencv lib)
    (generator "opencv") (run_env callback) valid_images
    "out.mp4" 640 480 false (fresh_opencv, ∅).

(** The state of the OpenCV session, and what [write_frame] makes of the
    small frame there. *)
Definition opencv_opened : OpenCV.t writer * FS :=
  match opencv_session with
  | Some s => s
  | None => (fresh_opencv, ∅)
  end.

Definition opencv_small_write : result unit * (OpenCV.t writer * FS) :=
  OpenCV.write_frame lib (Array small_frame) opencv_opened.
End Sim.

(** An instance of either class that holds no writer. *)
Definition no_writer {W : Type} (b : OpenCV.t W + FFmpegCV.t W) : Prop :=
  match b with
  | inl a => OpenCV._writer a = None
  | inr a => FFmpegCV._writer a = None
  end.

(** ** [utils/file_utils.py]

    PIL and the file system are outside the repository: what
    [Image.open], [img.verify()] and [Path.stat()] give for a path is a
    parameter.  File names are ASCII text. *)

Module FileUtils.

(** *** [natural_sort_key] *)

(** An item of a key: [int(text)] or [text.lower()]. *)
Inductive key_item :=
  | KeyInt (n : Z)
  | KeyStr (s : string).

(** [\d] on ASCII text. *)
Definition is_digit (c : ascii) : bool :=
  let n := nat_of_ascii c in ((48 <=? n) && (n <=? 57))%nat.

(** [re.split(r'(\d+)', s)]: the text between the maximal runs of digits
    and, the pattern being a group, the runs themselves.  The scan holds
    the piece in progress and whether that piece is a run; a string that
    ends in a run is followed by an empty last piece. *)
Fixpoint re_split_digits_from (s : string) (piece : string) (in_run : bool)
    : list string :=
  match s with
  | EmptyString => if in_run then [piece; ""] else [piece]
  | String c s' =>
      if Bool.eqb (is_digit c) in_run
      then re_split_digits_from s' (piece ++ String c "")%string in_run
      else piece :: re_split_digits_from s' (String c "") (negb in_run)
  end.

Definition re_split_digits (s : string) : list string :=
  re_split_digits_from s "" false.

(** [text.isdigit()] *)
Definition isdigit (text : string) : bool :=
  negb (String.eqb text "") && forallb is_digit (list_ascii_of_string text).

(** [int(text)] on a run of decimal digits (Python 3.11 and later refuse
    runs of more than 4300 digits; a file name is shorter). *)
Definition int_of_digits (text : string) : Z :=
  fold_left (fun acc c => 10 * acc + (Z.of_nat (nat_of_ascii c) - 48))
            (list_ascii_of_string text) 0.

Definition natural_sort_key (s : string) : list key_item :=
  map (fun text =>
         if isdigit text then KeyInt (int_of_digits text)
         else KeyStr (lower text))
      (re_split_digits s).

(** [a == b] on two items: an [int] and a [str] are unequal. *)
Definition item_eqb (a b : key_item) : bool :=
  match a, b with
  | KeyInt x, KeyInt y => x =? y
  | KeyStr x, KeyStr y => String.eqb x y
  | _, _ => false
  end.

(** [a < b] on two items. *)
Definition item_lt (a b : key_item) : result bool :=
  match a, b with
  | KeyInt x, KeyInt y => Ok (x <? y)
  | KeyStr x, KeyStr y => Ok (String.ltb x y)
  | KeyInt _, KeyStr _ =>
      Raise (Exn TypeError
        "'<' not supported between instances of 'int' and 'str'")
  | KeyStr _, KeyInt _ =>
      Raise (Exn TypeError
        "'<' not supported between instances of 'str' and 'int'")
  end.

(** [a < b] on two lists, as [list.sort] asks: the first pair of unequal
    items decides; without one, the shorter list is the smaller. *)
Fixpoint list_lt (a b : list key_item) : result bool :=
  match a, b with
  | x :: a', y :: b' => if item_eqb x y then list_lt a' b' else item_lt x y
  | [], _ :: _ => Ok true
  | _, [] => Ok false
  end.

(** *** Slices *)

(** [l[::k]] for a step [k >= 1]: the items at the indices 0, k, 2k, ... *)
Fixpoint slice_step_from {A : Type} (k skip : nat) (l : list A) : list A :=
  match l with
  | [] => []
  | x :: l' =>
      match skip with
      | O => x :: slice_step_from k (k - 1) l'
      | S skip' => slice_step_from k skip' l'
      end
  end.

Definition slice_step {A : Type} (k : nat) (l : list A) : list A :=
  slice_step_from k 0 l.

(** *** Images *)

(** An image as [Image.open] gives it: [img.size] as (width, height),
    [img.mode], [img.format]. *)
Record PilImage := {
  pil_size : Z * Z;
  pil_mode : string;
  pil_format : option string
}.

Record ImageLib := {
  Image_open : string -> result PilImage;
  (** [img.verify()] on the image opened at a path *)
  Image_verify : string -> result unit;
  (** [path.stat().st_size] *)
  stat_st_size : string -> result Z
}.

(** The dictionary of [get_image_info] without an ["error"] key. *)
Record ImageInfo := {
  info_path : string;
  info_size : Z * Z;
  info_mode : string;
  info_format : option string;
  info_file_size : Z
}.

(** The dictionary of [get_common_image_properties]. *)
Record CommonProperties := {
  count : nat;
  first_image : string;
  last_image : string;
  common_size : Z * Z;
  sizes_consistent : bool;
  common_mode : string;
  modes_consistent : bool;
  total_size_mb : float
}.

(** The name [logger] is bound nowhere in [file_utils.py]: evaluating it
    raises [NameError]. *)
Definition logger_undefined : exn :=
  Exn NameError "name 'logger' is not defined".

(** A directory as [find_image_files] sees it: its text, whether it
    exists, and what [directory.glob(pattern)] lists. *)
Record Directory := {
  dir_str : string;
  dir_exists : bool;
  dir_glob : string -> list string
}.

(** [find_image_files]: the [else] branch of the test for an empty list
    calls [logger.info], and [logger] is bound nowhere in the module, so
    the sort by natural key below it is never reached. *)
Definition find_image_files (directory : Directory) : result (list string) :=
  if negb (dir_exists directory) then
    Raise (Exn FileNotFoundError
             ("Directory not found: " ++ dir_str directory)%string)
  else
    let image_files :=
      flat_map (dir_glob directory)
        ["*.jpg"; "*.jpeg"; "*.JPG"; "*.JPEG"; "*.png"; "*.PNG"] in
    match image_files with
    | [] =>
        Raise (Exn ValueError
                 ("No images found in " ++ dir_str directory)%string)
    | _ :: _ => Raise logger_undefined
    end.

Section WithImageLib.
Context (L : ImageLib).

(** [str((w, h))] *)
Definition str_size (size : Z * Z) : string :=
  ("(" ++ pretty (fst size) ++ ", " ++ pretty (snd size) ++ ")")%string.

(** [validate_image]: the file is opened twice, once to verify it and
    once to read its size; every exception becomes a message. *)
Definition validate_image (image_path : string) : bool * option string :=
  let failed (e : exn) :=
    (false, Some ("Image validation failed: " ++ exn_str e)%string) in
  match Image_open L image_path with
  | Raise e => failed e
  | Ok _ =>
      match Image_verify L image_path with
      | Raise e => failed e
      | Ok _ =>
          match Image_open L image_path with
          | Raise e => failed e
          | Ok img =>
              if (fst (pil_size img) <? 1) || (snd (pil_size img) <? 1)
              then (false,
                    Some ("Invalid image dimensions: "
                            ++ str_size (pil_size img))%string)
              else (true, None)
          end
      end
  end.

(** [get_image_info]: the information, or the text of the error. *)
Definition get_image_info (image_path : string) : ImageInfo + string :=
  match Image_open L image_path with
  | Raise e => inr (exn_str e)
  | Ok img =>
      match stat_st_size L image_path with
      | Raise e => inr (exn_str e)
      | Ok file_size =>
          inl {| info_path := image_path;
                 info_size := pil_size img;
                 info_mode := pil_mode img;
                 info_format := pil_format img;
                 info_file_size := file_size |}
      end
  end.

(** The first loop of [validate_image_sequence]; an entry of [errors] is
    the pair of its ["file"] and its ["error"]. *)
Fixpoint validate_loop (image_files : list string)
    (valid_files : list string) (errors : list (string * option string))
    : list string * list (string * option string) :=
  match image_files with
  | [] => (valid_files, errors)
  | image_path :: rest =>
      let '(is_valid, error_msg) := validate_image image_path in
      if is_valid
      then validate_loop rest (valid_files ++ [image_path]) errors
      else validate_loop rest valid_files (errors ++ [(image_path, error_msg)])
  end.

(** [validate_image_sequence]: after the first loop,
    [for error in errors: logger.error(...)] runs once for every error. *)
Definition validate_image_sequence (image_files : list string)
    : result (list string * list (string * option string)) :=
  let '(valid_files, errors) := validate_loop image_files [] [] in
  match errors with
  | [] => Ok (valid_files, errors)
  | _ :: _ => Raise logger_undefined
  end.

Definition size_eqb (a b : Z * Z) : bool :=
  (fst a =? fst b) && (snd a =? snd b).

(** The loop over [sample_files[1:]]. *)
Fixpoint consistency_loop (common_size : Z * Z) (common_mode : string)
    (sample : list string) (sizes_consistent modes_consistent : bool)
    : bool * bool :=
  match sample with
  | [] => (sizes_consistent, modes_consistent)
  | img_path :: rest =>
      match get_image_info img_path with
      | inr _ =>
          consistency_loop common_size common_mode rest
            sizes_consistent modes_consistent
      | inl info =>
          consistency_loop common_size common_mode rest
            (if negb (size_eqb (info_size info) common_size)
             then false else sizes_consistent)
            (if negb (String.eqb (info_mode info) common_mode)
             then false else modes_consistent)
      end
  end.

(** [sum(p.stat().st_size for p in image_files)] *)
Fixpoint sum_sizes (image_files : list string) (total : Z) : result Z :=
  match image_files with
  | [] => Ok total
  | img_path :: rest =>
      match stat_st_size L img_path with
      | Raise e => Raise e
      | Ok n => sum_sizes rest (total + n)
      end
  end.

(** [image_files[::len(image_files)//sample_size + 1][:sample_size]] *)
Definition sample_files (image_files : list string) : list string :=
  let sample_size := Nat.min 10 (length image_files) in
  firstn sample_size
    (slice_step (length image_files / sample_size + 1) image_files).

(** [get_common_image_properties]: [None] is the empty dictionary.  The
    [stat()] calls of the total are outside every [try]. *)
Definition get_common_image_properties (image_files : list string)
    : result (option CommonProperties) :=
  match image_files with
  | [] => Ok None
  | first :: _ =>
      match get_image_info first with
      | inr _ => Ok None
      | inl properties =>
          let '(sizes_consistent, modes_consistent) :=
            consistency_loop (info_size properties) (info_mode properties)
              (skipn 1 (sample_files image_files)) true true in
          match sum_sizes image_files 0 with
          | Raise e => Raise e
          | Ok total =>
              match PyFloat.int_truediv total (1024 * 1024) with
              | Raise e => Raise e
              | Ok mb =>
                  Ok (Some {| count := length image_files;
                              first_image := first;
                              last_image := List.last image_files first;
                              common_size := info_size properties;
                              sizes_consistent := sizes_consistent;
                              common_mode := info_mode properties;
                              modes_consistent := modes_consistent;
                              total_size_mb := mb |})
              end
          end
      end
  end.
End WithImageLib.
End FileUtils.

(** ASCII text, the names [natural_sort_key] is modelled for. *)
Definition ascii_only (s : string) : bool :=
  forallb (fun c => (nat_of_ascii c <? 128)%nat) (list_ascii_of_string s).

(** Text without a digit, and text that is empty or begins with another
    character than a digit. *)
Definition digit_free (s : string) : bool :=
  forallb (fun c => negb (FileUtils.is_digit c)) (list_ascii_of_string s).

Definition starts_without_digit (s : string) : bool :=
  match s with
  | EmptyString => true
  | String c _ => negb (FileUtils.is_digit c)
  end.

(** The items of a list are in turn a [str] and an [int], or an [int]
    and a [str]. *)
Fixpoint items_alternate (int_first : bool) (l : list FileUtils.key_item)
    : Prop :=
  match l with
  | [] => True
  | x :: l' =>
      match x with
      | FileUtils.KeyInt _ => int_first = true
      | FileUtils.KeyStr _ => int_first = false
      end
      /\ items_alternate (negb int_first) l'
  end.

(** The pieces of a split are in turn text without a digit and a run of
    digits. *)
Fixpoint pieces_alternate (in_run : bool) (l : list string) : Prop :=
  match l with
  | [] => True
  | x :: l' =>
      (if in_run then FileUtils.isdigit x = true else digit_free x = true)
      /\ pieces_alternate (negb in_run) l'
  end.

(** ** Some image files to run the helpers on

    Every path opens as a 640x480 RGB JPEG of 1000 bytes, except
    [odd.jpg], which is 100x100, and [corrupt.jpg], which does not
    open. *)

Module SimImages.
Definition lib : FileUtils.ImageLib :=
  {| FileUtils.Image_open := fun path =>
       if String.eqb path "corrupt.jpg"
       then Raise (Exn LibraryError "cannot identify image file")
       else Ok {| FileUtils.pil_size :=
                    if String.eqb path "odd.jpg" then (100, 100)
                    else (640, 480);
                  FileUtils.pil_mode := "RGB";
                  FileUtils.pil_format := Some "JPEG" |};
     FileUtils.Image_verify := fun _ => Ok tt;
     FileUtils.stat_st_size := fun _ => Ok 1000 |}.
End SimImages.

(** * Properties *)

(** A list of distinct string literals has no duplicates. *)
Ltac nodup_strings :=
  repeat (apply NoDup_cons; split;
          [rewrite ?elem_of_cons, elem_of_nil; intuition discriminate|]);
  apply NoDup_nil_2.

(** ** Dictionaries *)

Section DictFacts.
Context {V : Type}.
Implicit Types (d : dict V) (k : string) (v : V).

Lemma dict_get_None d k : dict_get k d = None <-> k ∉ dict_keys d.
Proof.
  induction d as [|[k' v'] d IH]; simpl.
  - split; [intros _; apply not_elem_of_nil | done].
  - destruct (String.eqb_spec k k') as [->|Hne].
    + split; [done | intros H; exfalso; apply H; left].
    + rewrite IH, not_elem_of_cons. tauto.
Qed.

Lemma dict_mem_false d k : dict_mem k d = false <-> k ∉ dict_keys d.
Proof.
  unfold dict_mem. rewrite <- dict_get_None.
  destruct (dict_get k d); naive_solver.
Qed.

Lemma dict_mem_true d k : dict_mem k d = true <-> k ∈ dict_keys d.
Proof.
  destruct (dict_mem k d) eqn:E.
  - split; [intros _ | done].
    destruct (decide (k ∈ dict_keys d)) as [|Hn]; [done|].
    apply dict_mem_false in Hn. congruence.
  - apply dict_mem_false in E. naive_solver.
Qed.

Lemma dict_set_fresh d k v : k ∉ dict_keys d -> dict_set k v d = d ++ [(k, v)].
Proof.
  induction d as [|[k' v'] d IH]; simpl; [done|].
  rewrite not_elem_of_cons. intros [Hne Hnin].
  destruct (String.eqb_spec k k'); [done|]. by rewrite IH.
Qed.

Lemma dict_set_keys_present d k v :
  k ∈ dict_keys d -> dict_keys (dict_set k v d) = dict_keys d.
Proof.
  induction d as [|[k' v'] d IH]; simpl.
  - intros H; by apply elem_of_nil in H.
  - destruct (String.eqb_spec k k') as [->|Hne]; [done|].
    rewrite elem_of_cons. intros [?|Hin]; [done|]. simpl. by rewrite IH.
Qed.

Lemma dict_del_last d k v : k ∉ dict_keys d -> dict_del k (d ++ [(k, v)]) = d.
Proof.
  induction d as [|[k' v'] d IH]; simpl.
  - intros _. by rewrite String.eqb_refl.
  - rewrite not_elem_of_cons. intros [Hne Hnin].
    destruct (String.eqb_spec k k'); [done|]. by rewrite IH.
Qed.

Lemma dict_get_set_eq d k v : dict_get k (dict_set k v d) = Some v.
Proof.
  induction d as [|[k' v'] d IH]; simpl.
  - by rewrite String.eqb_refl.
  - destruct (String.eqb_spec k k') as [->|Hne]; simpl.
    + by rewrite String.eqb_refl.
    + destruct (String.eqb_spec k k'); [done | apply IH].
Qed.

Lemma dict_keys_app d1 d2 : dict_keys (d1 ++ d2) = dict_keys d1 ++ dict_keys d2.
Proof. apply map_app. Qed.

Lemma dict_keys_filter (p : string -> bool) d :
  dict_keys (List.filter (fun kv => p (fst kv)) d) = List.filter p (dict_keys d).
Proof.
  induction d as [|[k v] d IH]; simpl; [done|].
  destruct (p k); simpl; by rewrite IH.
Qed.

Lemma dict_get_Some_elem d k v : dict_get k d = Some v -> k ∈ dict_keys d.
Proof.
  intros H. destruct (decide (k ∈ dict_keys d)) as [|Hn]; [done|].
  apply dict_get_None in Hn. congruence.
Qed.
End DictFacts.

(** ** [sorted] puts the first smallest key in front *)

Section SortedFacts.
Context {A : Type} (key : A -> Z).

(** [sorted] is a sort: it permutes its input into ascending keys. *)
Lemma insert_by_key_Permutation (x : A) (l : list A) :
  Permutation (insert_by_key key x l) (x :: l).
Proof.
  induction l as [|y l IH]; simpl; [done|].
  destruct (key x <=? key y); [done|].
  rewrite IH. apply perm_swap.
Qed.

Lemma sorted_Permutation (l : list A) : Permutation (sorted key l) l.
Proof.
  induction l as [|x l IH]; simpl; [done|].
  by rewrite insert_by_key_Permutation, IH.
Qed.

Lemma insert_by_key_ordered (x : A) (l : list A) :
  StronglySorted (fun a b => key a <= key b) l ->
  StronglySorted (fun a b => key a <= key b) (insert_by_key key x l).
Proof.
  induction 1 as [|y l Hs IH Hall]; simpl.
  - repeat constructor.
  - destruct (Z.leb_spec (key x) (key y)) as [Hle|Hlt].
    + constructor; [by constructor|].
      constructor; [done|].
      eapply Forall_impl; [exact Hall|]. simpl. intros; lia.
    + constructor; [done|].
      rewrite insert_by_key_Permutation. constructor; [lia | done].
Qed.

Lemma sorted_ordered (l : list A) :
  StronglySorted (fun a b => key a <= key b) (sorted key l).
Proof.
  induction l as [|x l IH]; simpl; [constructor|].
  by apply insert_by_key_ordered.
Qed.
Lemma sorted_nil_inv (l : list A) : sorted key l = [] -> l = [].
Proof.
  destruct l as [|x l]; [done|]. simpl.
  destruct (sorted key l) as [|y s]; simpl; [done|].
  destruct (key x <=? key y); done.
Qed.

Lemma head_insert_by_key (x : A) (s : list A) :
  head (insert_by_key key x s) =
  match s with
  | [] => Some x
  | y :: _ => if key x <=? key y then Some x else Some y
  end.
Proof. destruct s as [|y s]; simpl; [done|]. destruct (key x <=? key y); done. Qed.

(** The head of the sorted list splits the input: strictly larger keys
    before it, keys at least as large after it. *)
Lemma sorted_head (l : list A) (n : A) :
  head (sorted key l) = Some n ->
  exists l1 l2, l = l1 ++ n :: l2
    /\ Forall (fun m => key n < key m) l1
    /\ Forall (fun m => key n <= key m) l2.
Proof.
  revert n. induction l as [|x l IH]; intros n; simpl; [done|].
  rewrite head_insert_by_key.
  destruct (sorted key l) as [|y s] eqn:Es.
  - intros [= <-]. apply sorted_nil_inv in Es as ->.
    exists [], []. split_and!; constructor.
  - destruct (IH y eq_refl) as (l1 & l2 & -> & H1 & H2).
    destruct (Z.leb_spec (key x) (key y)) as [Hle|Hlt]; intros [= <-].
    + exists [], (l1 ++ y :: l2). split_and!; [done | constructor |].
      apply Forall_app. split.
      * eapply Forall_impl; [exact H1|]. simpl. intros; lia.
      * constructor; [lia|]. eapply Forall_impl; [exact H2|]. simpl. intros; lia.
    + exists (x :: l1), l2. split_and!; [done | | done].
      constructor; [lia | done].
Qed.

Lemma sorted_head_nonempty (l : list A) :
  l <> [] -> is_Some (head (sorted key l)).
Proof.
  intros Hl. destruct (sorted key l) as [|y s] eqn:Es.
  - by apply sorted_nil_inv in Es.
  - by eexists.
Qed.
End SortedFacts.

(** ** The registry *)

Section RegistryFacts.
Context {I : Type}.
Implicit Types (cls : BackendRegistry.t I) (name n : string).

Import BackendRegistry.

Lemma same_answers_refl cls : same_answers cls cls.
Proof. by split. Qed.

Lemma same_answers_trans cls1 cls2 cls3 :
  same_answers cls1 cls2 -> same_answers cls2 cls3 -> same_answers cls1 cls3.
Proof.
  intros [H1 H2] [H3 H4]. split; [congruence|].
  intros n. by rewrite H4, H2.
Qed.

Lemma available_now_eq cls n :
  available_now cls n =
  match _availability_cache cls !! n with
  | Some b => b
  | None =>
      match dict_get n (_backends cls) with
      | Some bc =>
          match cls_is_available bc with ProbeTrue => true | _ => false end
      | None => false
      end
  end.
Proof.
  unfold available_now, is_backend_available.
  destruct (_availability_cache cls !! n); [done|].
  destruct (dict_get n (_backends cls)) as [bc|]; [|done].
  by destruct (cls_is_available bc).
Qed.

Lemma cache_put_same name b cls :
  available_now cls name = b -> same_answers cls (cache_put name b cls).
Proof.
  intros Hb. split; [done|]. intros n.
  rewrite !available_now_eq. unfold cache_put; simpl.
  destruct (decide (name = n)) as [<-|Hne].
  - rewrite lookup_insert_eq. by rewrite <- Hb, available_now_eq.
  - by rewrite lookup_insert_ne.
Qed.

Lemma is_backend_available_same name cls :
  same_answers cls (snd (is_backend_available name cls)).
Proof.
  pose proof (available_now_eq cls name) as Hnow.
  unfold is_backend_available.
  destruct (_availability_cache cls !! name) as [b|];
    [apply same_answers_refl|].
  destruct (dict_get name (_backends cls)) as [bc|].
  - destruct (cls_is_available bc); simpl; by apply cache_put_same.
  - simpl; by apply cache_put_same.
Qed.

Lemma is_backend_available_again name cls :
  fst (is_backend_available name (snd (is_backend_available name cls)))
  = fst (is_backend_available name cls).
Proof. apply (is_backend_available_same name cls). Qed.

Lemma available_loop_spec (items available : dict (BackendClass I)) cls :
  NoDup (dict_keys available ++ dict_keys items) ->
  fst (available_loop items available cls)
    = available ++ List.filter (fun kv => available_now cls (fst kv)) items
  /\ same_answers cls (snd (available_loop items available cls)).
Proof.
  revert available cls.
  induction items as [|[name bc] items IH]; intros available cls Hnd; simpl.
  - split; [by rewrite app_nil_r | apply same_answers_refl].
  - pose proof (is_backend_available_same name cls) as Hsame.
    fold (available_now cls name).
    destruct (is_backend_available name cls) as [b cls'] eqn:Ea.
    assert (Hb : available_now cls name = b)
      by (unfold available_now; by rewrite Ea).
    simpl in Hsame. rewrite Hb.
    assert (Hfresh : name ∉ dict_keys available).
    { apply NoDup_app in Hnd as (_ & Hd & _). intros Hin.
      apply (Hd _ Hin). simpl. left. }
    assert (Hfilter :
      List.filter (fun kv => available_now cls' (fst kv)) items
      = List.filter (fun kv => available_now cls (fst kv)) items).
    { apply filter_ext. intros kv. apply Hsame. }
    destruct b.
    + destruct (IH (dict_set name bc available) cls') as [E1 E2].
      { rewrite dict_set_fresh, dict_keys_app by done. simpl.
        rewrite <- app_assoc. exact Hnd. }
      split.
      * rewrite E1, dict_set_fresh, Hfilter by done.
        by rewrite <- app_assoc.
      * eapply same_answers_trans; [exact Hsame | exact E2].
    + destruct (IH available cls') as [E1 E2].
      { simpl in Hnd. apply NoDup_app in Hnd as (H1 & H2 & H3).
        apply NoDup_app. split_and!; [done | | by apply NoDup_cons in H3 as [_ ?]].
        intros x Hx Hx'. apply (H2 x Hx). by right. }
      split; [by rewrite E1, Hfilter|].
      eapply same_answers_trans; [exact Hsame | exact E2].
Qed.

Lemma get_available_backends_spec cls :
  wf cls ->
  dict_keys (fst (get_available_backends cls))
    = List.filter (available_now cls) (list_backends cls)
  /\ same_answers cls (snd (get_available_backends cls)).
Proof.
  intros Hwf. unfold get_available_backends.
  destruct (available_loop_spec (_backends cls) [] cls) as [E1 E2]; [exact Hwf|].
  split; [|exact E2].
  rewrite E1. simpl. apply dict_keys_filter.
Qed.

Lemma get_backend_priority_same cls cls' n :
  same_answers cls cls' ->
  get_backend_priority n cls' = get_backend_priority n cls.
Proof. intros [H _]. unfold get_backend_priority. by rewrite H. Qed.

Lemma get_best_backend_eq cls :
  wf cls ->
  fst (get_best_backend cls)
  = head (sorted (fun n => get_backend_priority n cls)
                 (List.filter (available_now cls) (list_backends cls))).
Proof.
  intros Hwf. unfold get_best_backend.
  destruct (get_available_backends_spec cls Hwf) as [E1 E2].
  destruct (get_available_backends cls) as [available cls'] eqn:Eg.
  simpl in E1, E2. rewrite <- E1.
  destruct available as [|kv available]; [done|].
  cbn [fst]. f_equal.
  generalize (dict_keys (kv :: available)). intros l.
  induction l as [|x l IH]; simpl; [done|].
  rewrite IH. clear IH.
  induction (sorted (fun n => get_backend_priority n cls) l) as [|y s IHs];
    simpl; [done|].
  rewrite !(get_backend_priority_same cls cls') by done.
  by rewrite IHs.
Qed.
End RegistryFacts.

(** The registry dictionary has each name once in every state that
    [register] and [unregister] lead to. *)
Section RegistryWf.
Context {I : Type}.
Implicit Types (cls : BackendRegistry.t I) (d : dict (BackendClass I)).

Import BackendRegistry.

Lemma dict_set_keys_NoDup d k (v : BackendClass I) :
  NoDup (dict_keys d) -> NoDup (dict_keys (dict_set k v d)).
Proof.
  intros Hnd. destruct (decide (k ∈ dict_keys d)) as [Hin|Hnin].
  - by rewrite dict_set_keys_present.
  - rewrite dict_set_fresh, dict_keys_app by done. simpl.
    apply NoDup_app. split_and!; [done | | apply NoDup_singleton].
    intros x Hx Hx'. apply list_elem_of_singleton in Hx' as ->. done.
Qed.

Lemma dict_del_keys_sublist d k : sublist (dict_keys (dict_del k d)) (dict_keys d).
Proof.
  induction d as [|[k' v'] d IH]; simpl; [done|].
  destruct (String.eqb k k'); simpl.
  - by apply sublist_cons.
  - by apply sublist_skip.
Qed.

Lemma wf_empty : wf (empty (I:=I)).
Proof. apply NoDup_nil_2. Qed.

Lemma wf_register name bc cls : wf cls -> wf (register name bc cls).
Proof. apply dict_set_keys_NoDup. Qed.

Lemma wf_unregister name cls : wf cls -> wf (unregister name cls).
Proof.
  intros Hwf. unfold unregister.
  destruct (dict_mem name (_backends cls)); [|done].
  eapply sublist_NoDup; [exact Hwf | apply dict_del_keys_sublist].
Qed.
End RegistryWf.

Section RegistryClaims.
Import BackendRegistry.

(** C10, as amended.  Registering a backend under a name that is not yet
    registered and then unregistering that name gives back the class
    dictionary, hence the same [list_backends()]. *)
Theorem register_unregister_fresh_name
    (I : Type) (cls : BackendRegistry.t I) (name : string)
    (backend_class : BackendClass I) :
  name ∉ list_backends cls ->
  _backends (unregister name (register name backend_class cls)) = _backends cls
  /\ list_backends (unregister name (register name backend_class cls))
     = list_backends cls.
Proof.
  intros Hfresh.
  assert (E : _backends (unregister name (register name backend_class cls))
              = _backends cls).
  { unfold unregister, register; simpl.
    assert (Hm : dict_mem name (dict_set name backend_class (_backends cls)) = true).
    { unfold dict_mem. by rewrite dict_get_set_eq. }
    rewrite Hm; simpl.
    rewrite dict_set_fresh by exact Hfresh.
    by apply dict_del_last. }
  split; [exact E|]. unfold list_backends. by rewrite E.
Qed.

Lemma register_unregister_fresh_name_witness :
  ("mock" ∉ list_backends (Sim.registry))
  /\ list_backends
       (unregister "mock"
          (register "mock" (Backends.OpenCVBackend Sim.lib)
             (Sim.registry)))
     = ["opencv"; "fast"].
Proof.
  assert (H : "mock" ∉ list_backends (Sim.registry)).
  { vm_compute. intros H. repeat (apply elem_of_cons in H as [H|H]; [discriminate H|]).
    by apply elem_of_nil in H. }
  split; [exact H|].
  exact (proj2 (register_unregister_fresh_name _ _ "mock"
                  (Backends.OpenCVBackend Sim.lib) H)).
Defined.

(** C10, as stated, fails for a name that is already registered:
    [register] overwrites the entry in place and [unregister] then removes
    it, so the name is gone from [list_backends()]. *)
Lemma register_unregister_registered_name :
  list_backends (Sim.registry) = ["opencv"; "fast"]
  /\ list_backends
       (unregister "opencv"
          (register "opencv" (Backends.OpenCVBackend Sim.lib)
             (Sim.registry)))
     = ["fast"].
Proof. split; reflexivity. Qed.


End RegistryClaims.

(** ** Backend acquisition *)

Section AcquireFacts.
Context {I : Type}.
Implicit Types (cls : BackendRegistry.t I) (n : string).

Import BackendRegistry.

Lemma create_backend_same n kw cls :
  same_answers cls (snd (create_backend n kw cls)).
Proof.
  unfold create_backend.
  destruct (get_backend n cls) as [bc|]; [|apply same_answers_refl].
  pose proof (is_backend_available_same n cls) as Hs.
  destruct (is_backend_available n cls) as [b cls']. simpl in Hs.
  destruct b; simpl; [|done].
  by destruct (cls_call bc kw).
Qed.

Lemma create_backend_available n kw cls bc :
  get_backend n cls = Some bc ->
  available_now cls n = true ->
  fst (create_backend n kw cls) =
  match cls_call bc kw with
  | Ok inst => Ok inst
  | Raise e =>
      Raise (Exn RuntimeError
        ("Failed to create backend '" ++ n ++ "': " ++ exn_str e)%string)
  end.
Proof.
  intros Hg Ha. unfold create_backend. rewrite Hg.
  unfold available_now in Ha.
  destruct (is_backend_available n cls) as [b cls']. simpl in Ha. subst b.
  simpl. by destruct (cls_call bc kw).
Qed.

Lemma get_backend_same cls cls' n :
  same_answers cls cls' -> get_backend n cls' = get_backend n cls.
Proof. intros [H _]. unfold get_backend. by rewrite H. Qed.


End AcquireFacts.

Section AcquireClaims.
Import BackendRegistry.



End AcquireClaims.

(** ** Even dimensions *)

Lemma ensure_even_dimensions_forced (width height : Z) :
  forced_even width (fst (ensure_even_dimensions width height))
  /\ forced_even height (snd (ensure_even_dimensions width height)).
Proof.
  unfold ensure_even_dimensions, forced_even; simpl.
  split.
  - destruct (Z.eqb_spec (width mod 2) 0) as [E|E]; simpl;
      pose proof (Z.mod_pos_bound width 2 ltac:(lia));
      repeat split; try lia.
    rewrite Zminus_mod. replace (width mod 2) with 1 by lia. reflexivity.
  - destruct (Z.eqb_spec (height mod 2) 0) as [E|E]; simpl;
      pose proof (Z.mod_pos_bound height 2 ltac:(lia));
      repeat split; try lia.
    rewrite Zminus_mod. replace (height mod 2) with 1 by lia. reflexivity.
Qed.

Lemma forced_even_unique (given s1 s2 : Z) :
  forced_even given s1 -> forced_even given s2 -> s1 = s2.
Proof.
  intros (_ & _ & He1 & Ho1) (_ & _ & He2 & Ho2).
  destruct (Z.eq_dec (given mod 2) 0) as [E|E].
  - by rewrite (He1 E), (He2 E).
  - by rewrite (Ho1 E), (Ho2 E).
Qed.

Section BackendFacts.
Context {W : Type} (lib : VideoLib W).

Lemma opencv_init_dimensions fps width height codec bitrate qp kw
    (self : OpenCV.t W) :
  OpenCV.__init__ fps width height codec bitrate qp kw = Ok self ->
  (OpenCV.width self, OpenCV.height self) = ensure_even_dimensions width height
  /\ OpenCV._writer self = None /\ OpenCV._is_opened self = false.
Proof.
  unfold OpenCV.__init__, _ensure_even_dimensions.
  destruct (dict_get (lower qp) OpenCV.QUALITY_PRESETS); [|done].
  destruct (ensure_even_dimensions width height) as [w h].
  by intros [= <-].
Qed.

(** No method assigns [width] or [height]. *)
Lemma opencv_open_dimensions path (self self' : OpenCV.t W) fs fs' r :
  OpenCV.open lib path (self, fs) = (r, (self', fs')) ->
  OpenCV.width self' = OpenCV.width self
  /\ OpenCV.height self' = OpenCV.height self.
Proof.
  unfold OpenCV.open. simpl.
  repeat match goal with
         | |- context [if ?c then _ else _] => destruct c
         | |- context [match ?x with _ => _ end] => destruct x
         end; by intros [= <- <- <-].
Qed.

Lemma opencv_write_dimensions frame (self self' : OpenCV.t W) fs fs' r :
  OpenCV.write_frame lib frame (self, fs) = (r, (self', fs')) ->
  OpenCV.width self' = OpenCV.width self
  /\ OpenCV.height self' = OpenCV.height self.
Proof.
  unfold OpenCV.write_frame.
  repeat match goal with
         | |- context [if ?c then _ else _] => destruct c
         | |- context [match ?x with _ => _ end] => destruct x
         end; by intros [= <- <- <-].
Qed.

Lemma opencv_close_dimensions (self self' : OpenCV.t W) fs fs' r :
  OpenCV.close lib (self, fs) = (r, (self', fs')) ->
  OpenCV.width self' = OpenCV.width self
  /\ OpenCV.height self' = OpenCV.height self.
Proof.
  unfold OpenCV.close.
  destruct (OpenCV._writer self) as [w|]; [|by intros [= <- <- <-]].
  destruct (release lib w fs). by intros [= <- <- <-].
Qed.

Lemma ffmpegcv_open_dimensions path (self self' : FFmpegCV.t W) fs fs' r :
  FFmpegCV.open lib path (self, fs) = (r, (self', fs')) ->
  FFmpegCV.width self' = FFmpegCV.width self
  /\ FFmpegCV.height self' = FFmpegCV.height self.
Proof.
  unfold FFmpegCV.open.
  destruct (negb (ffmpegcv_importable lib)); [by intros [= <- <- <-]|].
  match goal with
  | |- context [new_writer lib ?p ?f] => destruct (new_writer lib p f) as [[w|e] fs0]
  end; by intros [= <- <- <-].
Qed.

Lemma ffmpegcv_write_dimensions frame (self self' : FFmpegCV.t W) fs fs' r :
  FFmpegCV.write_frame lib frame (self, fs) = (r, (self', fs')) ->
  FFmpegCV.width self' = FFmpegCV.width self
  /\ FFmpegCV.height self' = FFmpegCV.height self.
Proof.
  unfold FFmpegCV.write_frame.
  repeat match goal with
         | |- context [if ?c then _ else _] => destruct c
         | |- context [match ?x with _ => _ end] => destruct x
         end; by intros [= <- <- <-].
Qed.

Lemma ffmpegcv_close_dimensions (self self' : FFmpegCV.t W) fs fs' r :
  FFmpegCV.close lib (self, fs) = (r, (self', fs')) ->
  FFmpegCV.width self' = FFmpegCV.width self
  /\ FFmpegCV.height self' = FFmpegCV.height self.
Proof.
  unfold FFmpegCV.close.
  destruct (FFmpegCV._writer self) as [w|]; [|by intros [= <- <- <-]].
  destruct (release lib w fs). by intros [= <- <- <-].
Qed.

Lemma opencv_reachable_dimensions width height (self : OpenCV.t W) :
  opencv_reachable lib width height self ->
  (OpenCV.width self, OpenCV.height self) = ensure_even_dimensions width height.
Proof.
  induction 1 as [? ? ? ? ? ? Hi|? ? ? ? ? ? _ IH Ho|? ? ? ? ? ? _ IH Hw
                 |? ? ? ? ? _ IH Hc].
  - by apply opencv_init_dimensions in Hi as [? _].
  - apply opencv_open_dimensions in Ho as [-> ->]. exact IH.
  - apply opencv_write_dimensions in Hw as [-> ->]. exact IH.
  - apply opencv_close_dimensions in Hc as [-> ->]. exact IH.
Qed.

End BackendFacts.

(** C7.  The OpenCV backend does what the claim says: the width and
    height an instance stores are the constructor's arguments with an odd
    value decremented by one and an even value kept, even and never larger
    than the input, in the instance [__init__] returns and in every state
    [open], [write_frame] and [close] lead to.  The FFmpegCV backend has
    the same [_ensure_even_dimensions] and no method of it assigns [width]
    or [height], but its module does not compile: creating an instance,
    [FFmpegCVBackend(fps=30, width=641, height=481)] or any other, raises
    [SyntaxError], and nothing is stored. *)
Theorem stored_dimensions_forced_even (W : Type) (lib : VideoLib W) :
  (forall width height (self : OpenCV.t W),
      opencv_reachable lib width height self ->
      forced_even width (OpenCV.width self)
      /\ forced_even height (OpenCV.height self))
  /\ (forall width height,
        forced_even width (fst (_ensure_even_dimensions width height))
        /\ forced_even height (snd (_ensure_even_dimensions width height)))
  /\ (forall (self self' : FFmpegCV.t W) fs fs' path frame r,
        FFmpegCV.open lib path (self, fs) = (r, (self', fs'))
        \/ FFmpegCV.write_frame lib frame (self, fs) = (r, (self', fs'))
        \/ FFmpegCV.close lib (self, fs) = (r, (self', fs')) ->
        FFmpegCV.width self' = FFmpegCV.width self
        /\ FFmpegCV.height self' = FFmpegCV.height self)
  /\ (forall kwargs,
        Backends.new_FFmpegCVBackend (W:=W) kwargs
        = Raise (Exn SyntaxError
                   "invalid syntax (ffmpegcv_backend.py, line 116)"))
  /\ Backends.new_FFmpegCVBackend (W:=W)
       [("fps", PyInt 30); ("width", PyInt 641); ("height", PyInt 481)]
     = Raise (Exn SyntaxError "invalid syntax (ffmpegcv_backend.py, line 116)").
Proof.
  split_and!.
  - intros width height self Hr.
    apply opencv_reachable_dimensions in Hr.
    pose proof (ensure_even_dimensions_forced width height) as [Hw Hh].
    rewrite <- Hr in Hw, Hh. by split.
  - intros width height. apply ensure_even_dimensions_forced.
  - intros self self' fs fs' path frame r [H|[H|H]].
    + by eapply ffmpegcv_open_dimensions.
    + by eapply ffmpegcv_write_dimensions.
    + by eapply ffmpegcv_close_dimensions.
  - reflexivity.
  - reflexivity.
Qed.

Lemma stored_dimensions_forced_even_witness :
  exists self : OpenCV.t Sim.writer,
    OpenCV.__init__ 30 641 481 None None "medium" [] = Ok self
    /\ opencv_reachable Sim.lib 641 481 self
    /\ OpenCV.width self = 640 /\ OpenCV.height self = 480.
Proof.
  destruct (OpenCV.__init__ (W:=Sim.writer) 30 641 481 None None "medium" [])
    as [self|e] eqn:E; [|vm_compute in E; discriminate E].
  exists self.
  assert (Hr : opencv_reachable Sim.lib 641 481 self)
    by exact (ocv_init Sim.lib 641 481 30 None None "medium" [] self E).
  split_and!; [reflexivity | exact Hr | |];
    destruct (proj1 (stored_dimensions_forced_even _ Sim.lib) 641 481 _ Hr)
      as [(_ & _ & _ & Hw) (_ & _ & _ & Hh)];
    [apply Hw | apply Hh]; vm_compute; discriminate.
Defined.

(** ** [validate_settings] *)

Lemma str_in_elem (s : string) (l : list string) :
  str_in s l = true -> s ∈ l.
Proof.
  unfold str_in. rewrite existsb_exists. intros (x & Hin & Hx).
  apply String.eqb_eq in Hx as ->. by apply list_elem_of_In.
Qed.

(** C6, as stated, fails: a positive fps and even positive dimensions are
    not enough.  [validate_settings] also caps the fps and the dimensions,
    asks for at least 16 pixels with the codecs mp4v and x264, and checks
    the codec. *)
Lemma validate_settings_rejects_valid_triples :
  (exists self : OpenCV.t Sim.writer,
      OpenCV.__init__ 121 640 480 None None "medium" [] = Ok self
      /\ OpenCV.validate_settings self
         = ["FPS should not exceed 120 for most use cases"])
  /\ (exists self : OpenCV.t Sim.writer,
        OpenCV.__init__ 30 8194 480 None None "medium" [] = Ok self
        /\ OpenCV.validate_settings self
           = ["Width and height should not exceed 8192 pixels"])
  /\ (exists self : OpenCV.t Sim.writer,
        OpenCV.__init__ 30 2 2 None None "medium" [] = Ok self
        /\ OpenCV.validate_settings self
           = ["Width and height must be at least 16 pixels for this codec"])
  /\ (exists self : FFmpegCV.t Sim.writer,
        self = Sim.ffmpegcv_record 241
        /\ FFmpegCV.validate_settings Sim.lib self
           = ["FPS should not exceed 240 for most use cases"]).
Proof. split_and!; eexists; split; reflexivity. Qed.

(** C6, as amended.  An OpenCV instance with 0 < fps <= 120, even width and
    height between 1 and 8192 (at least 16 when its codec is mp4v or x264)
    and a codec among its supported codecs, and an FFmpegCV instance with
    0 < fps <= 240, even width and height between 1 and 16384, a codec
    among its supported codecs and a crf between 0 and 51, have an empty
    [validate_settings()]. *)
Theorem validate_settings_empty_within_limits (W : Type) (lib : VideoLib W) :
  (forall self : OpenCV.t W,
      0 < OpenCV.fps self <= 120 ->
      0 < OpenCV.width self <= 8192 -> 0 < OpenCV.height self <= 8192 ->
      OpenCV.width self mod 2 = 0 -> OpenCV.height self mod 2 = 0 ->
      str_in (OpenCV.codec self) (OpenCV.supported_codecs self) = true ->
      (str_in (OpenCV.codec self) ["mp4v"; "x264"] = true ->
       16 <= OpenCV.width self /\ 16 <= OpenCV.height self) ->
      OpenCV.validate_settings self = [])
  /\ (forall self : FFmpegCV.t W,
        0 < FFmpegCV.fps self <= 240 ->
        0 < FFmpegCV.width self <= 16384 -> 0 < FFmpegCV.height self <= 16384 ->
        FFmpegCV.width self mod 2 = 0 -> FFmpegCV.height self mod 2 = 0 ->
        str_in (FFmpegCV.codec self) (FFmpegCV.supported_codecs lib self) = true ->
        0 <= FFmpegCV.crf self <= 51 ->
        FFmpegCV.validate_settings lib self = []).
Proof.
  split.
  - intros self Hf Hw Hh Hwe Hhe Hc H16.
    assert (E1 : (OpenCV.fps self <=? 0) = false) by lia.
    assert (E2 : (OpenCV.fps self >? 120) = false) by lia.
    assert (E3 : (OpenCV.width self <=? 0) = false) by lia.
    assert (E4 : (OpenCV.height self <=? 0) = false) by lia.
    assert (E5 : (OpenCV.width self >? 8192) = false) by lia.
    assert (E6 : (OpenCV.height self >? 8192) = false) by lia.
    unfold OpenCV.validate_settings.
    rewrite Hc, Hwe, Hhe, E1, E2, E3, E4, E5, E6.
    destruct (str_in (OpenCV.codec self) ["mp4v"; "x264"]); [|done].
    destruct (H16 eq_refl) as [G1 G2].
    assert (E7 : (OpenCV.width self <? 16) = false) by lia.
    assert (E8 : (OpenCV.height self <? 16) = false) by lia.
    by rewrite E7, E8.
  - intros self Hf Hw Hh Hwe Hhe Hc Hcrf.
    assert (E1 : (FFmpegCV.fps self <=? 0) = false) by lia.
    assert (E2 : (FFmpegCV.fps self >? 240) = false) by lia.
    assert (E3 : (FFmpegCV.width self <=? 0) = false) by lia.
    assert (E4 : (FFmpegCV.height self <=? 0) = false) by lia.
    assert (E5 : (FFmpegCV.width self >? 16384) = false) by lia.
    assert (E6 : (FFmpegCV.height self >? 16384) = false) by lia.
    assert (E7 : (FFmpegCV.crf self <? 0) = false) by lia.
    assert (E8 : (FFmpegCV.crf self >? 51) = false) by lia.
    unfold FFmpegCV.validate_settings.
    rewrite Hc, Hwe, Hhe, E1, E2, E3, E4, E5, E6, E7, E8.
    apply str_in_elem in Hc. revert Hc.
    unfold FFmpegCV.supported_codecs, FFmpegCV._is_gpu_codec,
      FFmpegCV._is_nvidia_available, FFmpegCV._is_intel_qsv_available,
      FFmpegCV._is_amd_available.
    destruct (ffmpegcv_importable lib), (nvenc_probe lib), (qsv_probe lib);
      simpl; intros Hc;
      repeat (apply elem_of_cons in Hc as [->|Hc]; [reflexivity|]);
      by apply elem_of_nil in Hc.
Qed.

Lemma validate_settings_empty_within_limits_witness :
  exists self : OpenCV.t Sim.writer,
    OpenCV.__init__ 30 640 480 None None "medium" [] = Ok self
    /\ OpenCV.validate_settings self = [].
Proof.
  destruct (OpenCV.__init__ (W:=Sim.writer) 30 640 480 None None "medium" [])
    as [self|e] eqn:E; [|vm_compute in E; discriminate E].
  exists self. split; [reflexivity|].
  vm_compute in E. injection E as <-.
  apply (proj1 (validate_settings_empty_within_limits _ Sim.lib));
    simpl; try lia; reflexivity.
Defined.

(** ** [close] *)

Section CloseFacts.
Context {W : Type} (lib : VideoLib W).

Lemma opencv_close_no_writer (self : OpenCV.t W) fs :
  OpenCV._writer self = None ->
  OpenCV.close lib (self, fs) = (Ok tt, (self, fs)).
Proof. intros H. unfold OpenCV.close. by rewrite H. Qed.

Lemma opencv_close_clears_writer (self : OpenCV.t W) fs :
  fst (OpenCV.close lib (self, fs)) = Ok tt
  /\ OpenCV._writer (fst (snd (OpenCV.close lib (self, fs)))) = None.
Proof.
  unfold OpenCV.close. destruct (OpenCV._writer self) as [w|] eqn:E.
  - by destruct (release lib w fs).
  - split; [done | exact E].
Qed.

Lemma opencv_failed_open_no_writer (self self' : OpenCV.t W) fs fs' path e :
  OpenCV._writer self = None ->
  OpenCV.open lib path (self, fs) = (Raise e, (self', fs')) ->
  OpenCV._writer self' = None.
Proof.
  intros Hw. unfold OpenCV.open.
  repeat match goal with
         | |- context [if ?c then _ else _] => destruct c
         | |- context [match ?x with _ => _ end] => destruct x
         end; intros [= <- <- <-]; done.
Qed.

Lemma ffmpegcv_close_no_writer (self : FFmpegCV.t W) fs :
  FFmpegCV._writer self = None ->
  FFmpegCV.close lib (self, fs) = (Ok tt, (self, fs)).
Proof. intros H. unfold FFmpegCV.close. by rewrite H. Qed.

Lemma ffmpegcv_close_clears_writer (self : FFmpegCV.t W) fs :
  fst (FFmpegCV.close lib (self, fs)) = Ok tt
  /\ FFmpegCV._writer (fst (snd (FFmpegCV.close lib (self, fs)))) = None.
Proof.
  unfold FFmpegCV.close. destruct (FFmpegCV._writer self) as [w|] eqn:E.
  - by destruct (release lib w fs).
  - split; [done | exact E].
Qed.

Lemma ffmpegcv_failed_open_no_writer (self self' : FFmpegCV.t W) fs fs' path e :
  FFmpegCV._writer self = None ->
  FFmpegCV.open lib path (self, fs) = (Raise e, (self', fs')) ->
  FFmpegCV._writer self' = None.
Proof.
  intros Hw. unfold FFmpegCV.open.
  destruct (negb (ffmpegcv_importable lib)); [by intros [= <- <- <-]|].
  match goal with
  | |- context [new_writer lib ?p ?f] => destruct (new_writer lib p f) as [[w|e0] fs0]
  end; intros [= <- <- <-]; done.
Qed.
End CloseFacts.

(** C9.  In both backends [close()] never raises, whatever the state.  A
    second [close()] right after a first changes neither the instance nor
    the file system, so a finalized file stays as it is; so does a
    [close()] on an instance that was never opened, and a [close()] after
    an [open] that failed on such an instance.  Never opened is, for the
    OpenCV backend, fresh from [__init__]; the FFmpegCV constructor does
    not compile, and the statement is made of every FFmpegCV record that
    holds no writer. *)
Theorem close_is_idempotent (W : Type) (lib : VideoLib W) :
  (forall (self : OpenCV.t W) (fs : FS),
      let after := OpenCV.close lib (self, fs) in
      fst after = Ok tt /\ OpenCV.close lib (snd after) = (Ok tt, snd after))
  /\ (forall fps width height codec bitrate quality_preset kwargs
             (self : OpenCV.t W) (fs : FS),
        OpenCV.__init__ fps width height codec bitrate quality_preset kwargs
          = Ok self ->
        OpenCV.close lib (self, fs) = (Ok tt, (self, fs))
        /\ forall path e self' fs',
             OpenCV.open lib path (self, fs) = (Raise e, (self', fs')) ->
             OpenCV.close lib (self', fs') = (Ok tt, (self', fs')))
  /\ (forall (self : FFmpegCV.t W) (fs : FS),
        let after := FFmpegCV.close lib (self, fs) in
        fst after = Ok tt /\ FFmpegCV.close lib (snd after) = (Ok tt, snd after))
  /\ (forall (self : FFmpegCV.t W) (fs : FS),
        FFmpegCV._writer self = None ->
        FFmpegCV.close lib (self, fs) = (Ok tt, (self, fs))
        /\ forall path e self' fs',
             FFmpegCV.open lib path (self, fs) = (Raise e, (self', fs')) ->
             FFmpegCV.close lib (self', fs') = (Ok tt, (self', fs'))).
Proof.
  split_and!.
  - intros self fs after.
    destruct (opencv_close_clears_writer lib self fs) as [H1 H2].
    split; [exact H1|]. subst after.
    destruct (OpenCV.close lib (self, fs)) as [r [self' fs']]. simpl in *.
    by apply opencv_close_no_writer.
  - intros fps width height codec bitrate qp kw self fs Hi.
    apply (opencv_init_dimensions (W:=W)) in Hi as (_ & Hw & _).
    split; [by apply opencv_close_no_writer|].
    intros path e self' fs' Ho.
    apply opencv_close_no_writer.
    by eapply opencv_failed_open_no_writer.
  - intros self fs after.
    destruct (ffmpegcv_close_clears_writer lib self fs) as [H1 H2].
    split; [exact H1|]. subst after.
    destruct (FFmpegCV.close lib (self, fs)) as [r [self' fs']]. simpl in *.
    by apply ffmpegcv_close_no_writer.
  - intros self fs Hw.
    split; [by apply ffmpegcv_close_no_writer|].
    intros path e self' fs' Ho.
    apply ffmpegcv_close_no_writer.
    by eapply ffmpegcv_failed_open_no_writer.
Qed.

Lemma close_is_idempotent_witness :
  (exists self : OpenCV.t Sim.writer,
      OpenCV.__init__ 30 640 480 None None "medium" [] = Ok self
      /\ OpenCV.close Sim.lib (self, ∅) = (Ok tt, (self, ∅)))
  /\ FFmpegCV._writer (Sim.ffmpegcv_record 30) = None
  /\ FFmpegCV.close Sim.lib (Sim.ffmpegcv_record 30, ∅)
     = (Ok tt, (Sim.ffmpegcv_record 30, ∅)).
Proof.
  split_and!; [|reflexivity|].
  - destruct (OpenCV.__init__ (W:=Sim.writer) 30 640 480 None None "medium" [])
      as [self|e] eqn:E; [|vm_compute in E; discriminate E].
    exists self. split; [reflexivity|].
    exact (proj1 (proj1 (proj2 (close_is_idempotent _ Sim.lib))
                    30 640 480 None None "medium" [] self ∅ E)).
  - exact (proj1 (proj2 (proj2 (proj2 (close_is_idempotent _ Sim.lib)))
                    (Sim.ffmpegcv_record 30) ∅ eq_refl)).
Defined.

(** ** [write_frame] *)

(** C8, as stated, fails: on a 640x480 session both backends accept a
    200x100 frame; what reaches the writer is the frame resized to
    640x480. *)
Lemma write_frame_accepts_other_dimensions :
  (exists s1 s2 w2,
      Sim.ffmpegcv_session = Some s1
      /\ (FFmpegCV.width (fst s1), FFmpegCV.height (fst s1)) = (640, 480)
      /\ FFmpegCV.write_frame Sim.lib (Array Sim.small_frame) s1 = (Ok tt, s2)
      /\ FFmpegCV._writer (fst s2) = Some w2
      /\ Sim.sw_frames w2 =
         [{| shape := [480; 640; 3];
             pixels := Reversed (Resized (Decoded "small.png") 640 480) |}])
  /\ (exists s1 s2 w2,
        Sim.opencv_session = Some s1
        /\ (OpenCV.width (fst s1), OpenCV.height (fst s1)) = (640, 480)
        /\ OpenCV.write_frame Sim.lib (Array Sim.small_frame) s1 = (Ok tt, s2)
        /\ OpenCV._writer (fst s2) = Some w2
        /\ Sim.sw_frames w2 =
           [{| shape := [480; 640; 3];
               pixels := Resized (Decoded "small.png") 640 480 |}]).
Proof. split; do 3 eexists; split_and!; reflexivity. Qed.

(** C8, as amended.  Given that [cv2.resize] returns an array of the size
    asked for, whenever [write_frame] accepts a frame the array handed to
    the writer has exactly the stored height and width: it is the given
    frame when that already has them, and otherwise the result of resizing
    the given frame to them, never the given frame itself.  (The FFmpegCV
    backend hands over a view of that array with the same shape.) *)
Theorem write_frame_hands_over_stored_size (W : Type) (lib : VideoLib W) :
  resize_gives_size lib ->
  (forall (self self' : OpenCV.t W) (fs fs' : FS) (a : ndarray),
      OpenCV.write_frame lib (Array a) (self, fs) = (Ok tt, (self', fs')) ->
      exists wr wr' a',
        OpenCV._writer self = Some wr
        /\ write lib wr a' fs = (Ok true, (wr', fs'))
        /\ shape2_differs a' (OpenCV.height self) (OpenCV.width self) = false
        /\ (if shape2_differs a (OpenCV.height self) (OpenCV.width self)
            then cv2_resize lib a (OpenCV.width self) (OpenCV.height self)
                 = Ok a' /\ a' <> a
            else a' = a))
  /\ (forall (self self' : FFmpegCV.t W) (fs fs' : FS) (a : ndarray),
        FFmpegCV.write_frame lib (Array a) (self, fs) = (Ok tt, (self', fs')) ->
        exists wr wr' a' handed ok,
          FFmpegCV._writer self = Some wr
          /\ write lib wr handed fs = (Ok ok, (wr', fs'))
          /\ shape handed = shape a'
          /\ shape2_differs a' (FFmpegCV.height self) (FFmpegCV.width self)
             = false
          /\ (if shape2_differs a (FFmpegCV.height self) (FFmpegCV.width self)
              then cv2_resize lib a (FFmpegCV.width self) (FFmpegCV.height self)
                   = Ok a' /\ a' <> a
              else a' = a)).
Proof.
  intros Hresize. split.
  - intros self self' fs fs' a. unfold OpenCV.write_frame.
    destruct (OpenCV._is_opened self); [|done].
    destruct (OpenCV._writer self) as [wr|]; [|done].
    destruct (negb _); [done|].
    destruct (negb _); [done|].
    destruct (shape2_differs a (OpenCV.height self) (OpenCV.width self)) eqn:Ed.
    + destruct (cv2_resize lib a (OpenCV.width self) (OpenCV.height self))
        as [a'|e] eqn:Er; [|done].
      destruct (_ && _); [done|].
      destruct (write lib wr a' fs) as [[ok|e] [wr' fs0]] eqn:Ew; [|done].
      destruct ok; simpl; [|done]. intros [= <- <-].
      exists wr, wr', a'. split_and!; try done.
      * by eapply Hresize.
      * intros ->. apply Hresize in Er. congruence.
    + destruct (_ && _); [done|].
      destruct (write lib wr a fs) as [[ok|e] [wr' fs0]] eqn:Ew; [|done].
      destruct ok; simpl; [|done]. intros [= <- <-].
      by exists wr, wr', a.
  - intros self self' fs fs' a. unfold FFmpegCV.write_frame.
    destruct (FFmpegCV._is_opened self); [|done].
    destruct (FFmpegCV._writer self) as [wr|]; [|done].
    destruct (negb _); [done|].
    destruct (shape2_differs a (FFmpegCV.height self) (FFmpegCV.width self))
      eqn:Ed.
    + destruct (cv2_resize lib a (FFmpegCV.width self) (FFmpegCV.height self))
        as [a'|e] eqn:Er; [|done].
      destruct (nth_error (shape a') 2) as [ch|]; [|done].
      match goal with
      | |- context [write lib wr ?f fs] =>
          destruct (write lib wr f fs) as [[ok|e] [wr' fs0]] eqn:Ew; [|done];
          intros [= <- <-]; exists wr, wr', a', f, ok
      end.
      split_and!; try done.
      * by destruct (ch =? 3).
      * by eapply Hresize.
      * intros ->. apply Hresize in Er. congruence.
    + destruct (nth_error (shape a) 2) as [ch|]; [|done].
      match goal with
      | |- context [write lib wr ?f fs] =>
          destruct (write lib wr f fs) as [[ok|e] [wr' fs0]] eqn:Ew; [|done];
          intros [= <- <-]; exists wr, wr', a, f, ok
      end.
      split_and!; try done. by destruct (ch =? 3).
Qed.

(** Nothing but the resize and the writer can refuse a three-channel
    frame of another size. *)
Lemma ffmpegcv_write_frame_resized (W : Type) (lib : VideoLib W)
    (self : FFmpegCV.t W) (fs fs' : FS) (a a' : ndarray) (wr wr' : W)
    (h w ch : Z) (ok : bool) :
  FFmpegCV._is_opened self = true ->
  FFmpegCV._writer self = Some wr ->
  shape a = [h; w; ch] ->
  shape2_differs a (FFmpegCV.height self) (FFmpegCV.width self) = true ->
  cv2_resize lib a (FFmpegCV.width self) (FFmpegCV.height self) = Ok a' ->
  shape a' = [FFmpegCV.height self; FFmpegCV.width self; 3] ->
  write lib wr {| shape := shape a'; pixels := Reversed (pixels a') |} fs
    = (Ok ok, (wr', fs')) ->
  FFmpegCV.write_frame lib (Array a) (self, fs)
    = (Ok tt, (FFmpegCV.set_writer (Some wr') self, fs')).
Proof.
  intros Ho Hw Hs Hd Hr Hs' Hwr. unfold FFmpegCV.write_frame.
  assert (Hl : negb (Nat.eqb (length (shape a)) 3) = false) by (by rewrite Hs).
  assert (Hn : nth_error (shape a') 2 = Some 3) by (by rewrite Hs').
  rewrite Ho, Hw, Hl, Hd, Hr, Hn, Z.eqb_refl.
  by rewrite Hwr.
Qed.

Lemma sim_resize_gives_size : resize_gives_size Sim.lib.
Proof.
  intros a w h a'. simpl.
  destruct (shape a) as [|r [|c [|ch [|? ?]]]]; try done.
  intros [= <-]. unfold shape2_differs; simpl.
  by rewrite !Z.eqb_refl.
Qed.

Lemma write_frame_hands_over_stored_size_witness :
  resize_gives_size Sim.lib
  /\ fst Sim.opencv_small_write = Ok tt
  /\ exists wr wr' a',
       OpenCV._writer (fst Sim.opencv_opened) = Some wr
       /\ write Sim.lib wr a' (snd Sim.opencv_opened)
          = (Ok true, (wr', snd (snd Sim.opencv_small_write)))
       /\ shape2_differs a' (OpenCV.height (fst Sim.opencv_opened))
            (OpenCV.width (fst Sim.opencv_opened)) = false.
Proof.
  split; [exact sim_resize_gives_size|].
  assert (E : OpenCV.write_frame Sim.lib (Array Sim.small_frame)
                (fst Sim.opencv_opened, snd Sim.opencv_opened)
              = (Ok tt, (fst (snd Sim.opencv_small_write),
                         snd (snd Sim.opencv_small_write))))
    by (vm_compute; reflexivity).
  split; [vm_compute; reflexivity|].
  destruct (proj1 (write_frame_hands_over_stored_size _ Sim.lib
                     sim_resize_gives_size) _ _ _ _ _ E)
    as (wr & wr' & a' & H1 & H2 & H3 & _).
  exists wr, wr', a'. split_and!; [exact H1 | exact H2 | exact H3].
Defined.

(** ** The frame loop and finalization *)

Section EncodeFacts.
Context {W : Type} (lib : VideoLib W).
Context {B : Type} {backend_ops : VideoBackend.ops B}.

Import VideoGenerator.

Abbreviation body := (loop_body lib (B:=B)).
Abbreviation loop := (frame_loop lib (B:=B)).

(** Every iteration counts its image once, or twice. *)
Lemma loop_body_counts self env width height total i path (st : loop_state) :
  let st' := body self env width height total i path st in
  let before := ls_frame_count st + ls_skipped_count st in
  let after := ls_frame_count st' + ls_skipped_count st' in
  before + 1 <= after <= before + 2.
Proof.
  unfold loop_body.
  repeat match goal with
         | |- context [if ?c then _ else _] => destruct c
         | |- context [match ?x with _ => _ end] => destruct x
         end; simpl; lia.
Qed.

(** It counts it once when the callback returns and [fps] is not zero. *)
Lemma loop_body_counts_once self env width height total i path
    (st : loop_state) :
  callback_returns env -> fps self <> 0 ->
  let st' := body self env width height total i path st in
  ls_frame_count st' + ls_skipped_count st'
  = ls_frame_count st + ls_skipped_count st + 1.
Proof.
  unfold callback_returns, loop_body. intros Hcb Hfps.
  destruct (_process_image _ _ _ _ _); [|simpl; lia].
  destruct (VideoBackend.write_frame _ _) as [[[]|e] [b fs]]; [|simpl; lia].
  destruct (elapsed_positive env i); [|simpl; lia].
  destruct (Z.eqb_spec (fps self) 0); [done|].
  destruct (progress_callback env) as [cb|]; [|simpl; lia].
  rewrite Hcb. simpl; lia.
Qed.

Lemma frame_loop_counts_once self env width height total images i
    (st : loop_state) :
  callback_returns env -> fps self <> 0 ->
  let st' := loop self env width height total i images st in
  ls_frame_count st' + ls_skipped_count st'
  = ls_frame_count st + ls_skipped_count st + Z.of_nat (length images).
Proof.
  intros Hcb Hfps. revert i st.
  induction images as [|path images IH]; intros i st; simpl; [lia|].
  rewrite IH, loop_body_counts_once by done. lia.
Qed.

Lemma frame_loop_counts self env width height total images i
    (st : loop_state) :
  let st' := loop self env width height total i images st in
  let before := ls_frame_count st + ls_skipped_count st in
  let after := ls_frame_count st' + ls_skipped_count st' in
  before + Z.of_nat (length images) <= after
  <= before + 2 * Z.of_nat (length images).
Proof.
  revert i st.
  induction images as [|path images IH]; intros i st; simpl; [lia|].
  pose proof (loop_body_counts self env width height total i path st) as Hb.
  specialize (IH (S i) (body self env width height total i path st)).
  simpl in *. lia.
Qed.

(** What a returned result says about the run. *)
Lemma encode_and_finalize_ok self env images out width height thumb info
    (s s' : B * FS) r :
  encode_and_finalize lib self env images out width height thumb info s
    = (Ok r, s') ->
  let st := loop self env width height (Z.of_nat (length images)) 0 images
              {| ls_frame_count := 0; ls_skipped_count := 0;
                 ls_backend := fst s; ls_fs := snd s |} in
  VideoBackend.close (ls_backend st, ls_fs st) = (Ok tt, s')
  /\ snd s' !! out = Some (output_size_bytes r)
  /\ success r = true
  /\ frame_count r = ls_frame_count st
  /\ skipped_count r = ls_skipped_count st
  /\ fps self <> 0.
Proof.
  unfold encode_and_finalize. destruct s as [b fs]. simpl.
  destruct (_ && _); [done|].
  destruct (VideoBackend.close _) as [[[]|e] [b2 fs2]]; [|done].
  destruct (fs2 !! out) as [size|] eqn:Es; [|done].
  destruct (Z.eqb_spec (fps self) 0); [done|].
  intros [= <- <-]. simpl. by split_and!.
Qed.

End EncodeFacts.




(** C2, at the failing input.  One image that decodes and is written, a
    progress callback that raises: the job completes, and the image is
    counted both as written and as skipped, so that [frame_count] plus
    [skipped_count] is 2 for a list of one image. *)
Theorem callback_failure_counts_image_twice :
  exists r s,
    Sim.run (Some Sim.failing_callback) ["a.jpg"] = (Ok r, s)
    /\ VideoGenerator.frame_count r = 1
    /\ VideoGenerator.skipped_count r = 1
    /\ VideoGenerator.frame_count r + VideoGenerator.skipped_count r
       <> Z.of_nat (length ["a.jpg"]).
Proof. do 2 eexists. split_and!; [reflexivity | reflexivity | reflexivity |]. discriminate. Qed.

(** The count is right for every completed job whose callback returns
    (or that has none), failed decodes and failed writes included. *)
Lemma counts_add_up_when_callback_returns
    (W : Type) (lib : VideoLib W) (B : Type) (backend_ops : VideoBackend.ops B)
    (self : VideoGenerator.t) (env : VideoGenerator.RunEnv)
    (valid_images : list string) (output_path : string) (width height : Z)
    (create_thumbnail : bool) (s s' : B * FS)
    (r : VideoGenerator.GenerationResult) :
  callback_returns env ->
  VideoGenerator._generate_with_backend lib self env valid_images output_path
    width height create_thumbnail s = (Ok r, s') ->
  VideoGenerator.frame_count r + VideoGenerator.skipped_count r
  = Z.of_nat (length valid_images).
Proof.
  intros Hcb. unfold VideoGenerator._generate_with_backend. destruct s as [b fs].
  destruct (VideoBackend.open output_path (b, fs)) as [[[]|e0] s1]; [|done].
  destruct (VideoGenerator.encode_and_finalize _ _ _ _ _ _ _ _ _ _)
    as [[r0|e] s2] eqn:Ee.
  - intros [= <- <-].
    apply encode_and_finalize_ok in Ee as (_ & _ & _ & -> & -> & Hfps).
    by rewrite frame_loop_counts_once.
  - by destruct (VideoBackend.close s2) as [rc [b3 fs3]].
Qed.

(** In general each image is counted once or twice. *)
Lemma counts_between_once_and_twice
    (W : Type) (lib : VideoLib W) (B : Type) (backend_ops : VideoBackend.ops B)
    (self : VideoGenerator.t) (env : VideoGenerator.RunEnv)
    (valid_images : list string) (output_path : string) (width height : Z)
    (create_thumbnail : bool) (s s' : B * FS)
    (r : VideoGenerator.GenerationResult) :
  VideoGenerator._generate_with_backend lib self env valid_images output_path
    width height create_thumbnail s = (Ok r, s') ->
  Z.of_nat (length valid_images)
  <= VideoGenerator.frame_count r + VideoGenerator.skipped_count r
  <= 2 * Z.of_nat (length valid_images).
Proof.
  unfold VideoGenerator._generate_with_backend. destruct s as [b fs].
  destruct (VideoBackend.open output_path (b, fs)) as [[[]|e0] s1]; [|done].
  destruct (VideoGenerator.encode_and_finalize _ _ _ _ _ _ _ _ _ _)
    as [[r0|e] s2] eqn:Ee.
  - intros [= <- <-].
    apply encode_and_finalize_ok in Ee as (_ & _ & _ & -> & -> & Hfps).
    match goal with
    | |- context [VideoGenerator.frame_loop lib ?a ?b ?c ?d ?e ?f ?g ?h] =>
        pose proof (frame_loop_counts lib a b c d e g f h) as H
    end.
    simpl in H. lia.
  - by destruct (VideoBackend.close s2) as [rc [b3 fs3]].
Qed.

(** ** Dimension negotiation *)

Section NegotiationFacts.
Import VideoEncoder PyFloat.

Lemma negotiate_dimensions_even (self : VideoGenerator.t) (ow oh w h : Z) :
  VideoGenerator.negotiate_dimensions self ow oh = Ok (w, h) ->
  exists w0 h0,
    match VideoGenerator.resolution self with
    | Some target =>
        get_resolution_for_aspect_ratio ow oh (Some target) = Ok (w0, h0)
    | None => (w0, h0) = (ow, oh)
    end
    /\ forced_even w0 w /\ forced_even h0 h.
Proof.
  unfold VideoGenerator.negotiate_dimensions.
  pose proof ensure_even_dimensions_forced as Hev.
  destruct (VideoGenerator.resolution self) as [target|].
  - destruct (get_resolution_for_aspect_ratio ow oh (Some target))
      as [[w0 h0]|e]; [|done].
    intros [= Ew Eh]. exists w0, h0. split; [done|].
    specialize (Hev w0 h0). unfold ensure_even_dimensions in Hev.
    simpl in Hev. by rewrite Ew, Eh in Hev.
  - intros [= Ew Eh]. exists ow, oh. split; [done|].
    specialize (Hev ow oh). unfold ensure_even_dimensions in Hev.
    simpl in Hev. by rewrite Ew, Eh in Hev.
Qed.
End NegotiationFacts.

(** Some negotiations, evaluated: a 4:3 source fitted to the height of a
    16:9 target, a 16:9 source taking a 16:9 target verbatim, a square
    source, an odd target forced even, and no target at all. *)
Lemma negotiation_examples :
  let negotiate := fun target w h =>
    VideoGenerator.negotiate_dimensions
      {| VideoGenerator.fps := 30;
         VideoGenerator.quality := "medium";
         VideoGenerator.resolution := target;
         VideoGenerator.show_progress := false;
         VideoGenerator.backend_fallback := true;
         VideoGenerator.backend_name := "opencv";
         VideoGenerator.codec := None;
         VideoGenerator.bitrate := None;
         VideoGenerator.config_backends := [] |} w h in
  negotiate (Some (1920, 1080)) 4000 3000 = Ok (1440, 1080)
  /\ negotiate (Some (1280, 720)) 3840 2160 = Ok (1280, 720)
  /\ negotiate (Some (1920, 1080)) 1000 1000 = Ok (1080, 1080)
  /\ negotiate (Some (1281, 721)) 1920 1080 = Ok (1280, 720)
  /\ negotiate (Some (1280, 720)) 1920 0
     = Raise (Exn ZeroDivisionError "division by zero")
  /\ negotiate None 1920 1081 = Ok (1920, 1080).
Proof. vm_compute. split_and!; reflexivity. Qed.

(** C5, as stated, fails in both directions when "differ by less than 1%"
    is read of the ratios themselves.  A 1790x1000 source and a 1280x720
    target have ratios 1.79 and 1.778, less than 1% of either apart, and
    the target is not used verbatim: the step gives 1280x715, negotiated
    to 1280x714.  A 1000x2000 source and a 203x400 target have ratios 0.5
    and 0.5075, more than 1% of either apart, and the target is used
    verbatim.  The code compares the difference of the ratios with
    0.01. *)
Lemma resolution_override_not_one_percent :
  let negotiate := fun target w h =>
    VideoGenerator.negotiate_dimensions
      {| VideoGenerator.fps := 30;
         VideoGenerator.quality := "medium";
         VideoGenerator.resolution := Some target;
         VideoGenerator.show_progress := false;
         VideoGenerator.backend_fallback := true;
         VideoGenerator.backend_name := "opencv";
         VideoGenerator.codec := None;
         VideoGenerator.bitrate := None;
         VideoGenerator.config_backends := [] |} w h in
  (ratios_differ_by_less_than_1_percent_of Z.min 1790 1000 1280 720 = true
   /\ VideoEncoder.get_resolution_for_aspect_ratio 1790 1000 (Some (1280, 720))
      = Ok (1280, 715)
   /\ negotiate (1280, 720) 1790 1000 = Ok (1280, 714))
  /\ (ratios_differ_by_less_than_1_percent_of Z.max 1000 2000 203 400 = false
      /\ VideoEncoder.get_resolution_for_aspect_ratio 1000 2000 (Some (203, 400))
         = Ok (203, 400)
      /\ negotiate (203, 400) 1000 2000 = Ok (202, 400)).
Proof. vm_compute. split_and!; reflexivity. Qed.

(** C5, as amended.  With a target resolution [(tw, th)] and a source [(ow, oh)] of
    non-zero heights, all four integers in the range where Python converts
    them to floats exactly, write [oa = ow / oh] and [ta = tw / th] for the
    two aspect ratios as Python computes them.  "Differ by less than 1%" is
    the code's test [abs(oa - ta) < 0.01].  When it holds, the rescale step
    returns the target resolution verbatim.  Otherwise, when the original
    is wider ([oa > ta]) the step returns exactly the resolutions made of
    the target width and the height [int(tw / oa)], and when it is not,
    those made of the target height and the width [int(th * oa)].  The
    negotiated dimensions are the rescaled ones with each side forced even.
    A 1920x1000 source with target 1280x720 negotiates to 1280x666. *)
Theorem resolution_override_negotiation :
  (forall ow oh tw th : Z,
      PyFloat.exact ow -> PyFloat.exact oh ->
      PyFloat.exact tw -> PyFloat.exact th ->
      oh <> 0 -> th <> 0 ->
      let oa := PrimFloat.div (PyFloat.of_int ow) (PyFloat.of_int oh) in
      let ta := PrimFloat.div (PyFloat.of_int tw) (PyFloat.of_int th) in
      let near :=
        PrimFloat.ltb (PrimFloat.abs (PrimFloat.sub oa ta))
                      PyFloat.one_hundredth in
      let wider := PrimFloat.ltb ta oa in
      let rescaled :=
        VideoEncoder.get_resolution_for_aspect_ratio ow oh (Some (tw, th)) in
      (near = true -> rescaled = Ok (tw, th))
      /\ (near = false -> wider = true ->
          forall w h,
            rescaled = Ok (w, h) <->
            PrimFloat.eqb oa PrimFloat.zero = false
            /\ w = tw
            /\ PyFloat.to_int (PrimFloat.div (PyFloat.of_int tw) oa) = Ok h)
      /\ (near = false -> wider = false ->
          forall w h,
            rescaled = Ok (w, h) <->
            h = th
            /\ PyFloat.to_int (PrimFloat.mul (PyFloat.of_int th) oa) = Ok w)
      /\ (forall (self : VideoGenerator.t) w h,
            VideoGenerator.resolution self = Some (tw, th) ->
            VideoGenerator.negotiate_dimensions self ow oh = Ok (w, h) <->
            exists w0 h0,
              rescaled = Ok (w0, h0) /\ forced_even w0 w /\ forced_even h0 h))
  /\ (forall self : VideoGenerator.t,
        VideoGenerator.resolution self = Some (1280, 720) ->
        VideoGenerator.negotiate_dimensions self 1920 1000 = Ok (1280, 666)).
Proof.
  split.
  - intros ow oh tw th _ _ _ _ Hoh Hth oa ta near wider rescaled.
    assert (Er : rescaled =
      if near then Ok (tw, th)
      else if wider then
        match PyFloat.truediv (PyFloat.of_int tw) oa with
        | Raise e => Raise e
        | Ok q =>
            match PyFloat.to_int q with
            | Raise e => Raise e
            | Ok new_height => Ok (tw, new_height)
            end
        end
      else
        match PyFloat.to_int (PrimFloat.mul (PyFloat.of_int th) oa) with
        | Raise e => Raise e
        | Ok new_width => Ok (new_width, th)
        end).
    { unfold rescaled, VideoEncoder.get_resolution_for_aspect_ratio,
        PyFloat.int_truediv.
      destruct (Z.eqb_spec oh 0); [done|].
      destruct (Z.eqb_spec th 0); [done|]. reflexivity. }
    split_and!.
    + intros Hn. by rewrite Er, Hn.
    + intros Hn Hw w h. rewrite Er, Hn, Hw. clear Er.
      unfold PyFloat.truediv.
      destruct (PrimFloat.eqb oa PrimFloat.zero).
      { split; [done | by intros [? _]]. }
      destruct (PyFloat.to_int _) as [nh|e].
      * split; [by intros [= <- <-] | by intros (_ & -> & [= ->])].
      * split; [done | by intros (_ & _ & ?)].
    + intros Hn Hw w h. rewrite Er, Hn, Hw. clear Er.
      destruct (PyFloat.to_int _) as [nw|e].
      * split; [by intros [= <- <-] | by intros (-> & [= ->])].
      * split; [done | by intros (_ & ?)].
    + intros self w h Hres. split.
      * intros Hneg.
        destruct (negotiate_dimensions_even self ow oh w h Hneg)
          as (w0 & h0 & H0 & Hw & Hh).
        rewrite Hres in H0. by exists w0, h0.
      * intros (w0 & h0 & H0 & Hw & Hh).
        unfold VideoGenerator.negotiate_dimensions. rewrite Hres.
        fold rescaled. rewrite H0. f_equal.
        pose proof (ensure_even_dimensions_forced w0 h0) as [Hw' Hh'].
        destruct (ensure_even_dimensions w0 h0) as [w' h'] eqn:E.
        change (VideoEncoder.ensure_even_dimensions w0 h0) with
          (ensure_even_dimensions w0 h0). rewrite E. simpl in Hw', Hh'.
        f_equal; by eapply forced_even_unique.
  - intros self Hres. unfold VideoGenerator.negotiate_dimensions.
    rewrite Hres. vm_compute. reflexivity.
Qed.

Lemma resolution_override_negotiation_witness :
  VideoEncoder.get_resolution_for_aspect_ratio 1920 1080 (Some (1280, 720))
    = Ok (1280, 720)
  /\ VideoGenerator.negotiate_dimensions
       {| VideoGenerator.fps := 30;
          VideoGenerator.quality := "medium";
          VideoGenerator.resolution := Some (1280, 720);
          VideoGenerator.show_progress := false;
          VideoGenerator.backend_fallback := true;
          VideoGenerator.backend_name := "opencv";
          VideoGenerator.codec := None;
          VideoGenerator.bitrate := None;
          VideoGenerator.config_backends := [] |} 1920 1000
     = Ok (1280, 666).
Proof.
  split.
  - refine (proj1 (proj1 resolution_override_negotiation 1920 1080 1280 720
                           _ _ _ _ _ _) _);
      try (unfold PyFloat.exact; lia); vm_compute; reflexivity.
  - apply (proj2 resolution_override_negotiation). reflexivity.
Defined.

(** * Further properties of the registry *)

Section RegistryMore.
Context {I : Type}.
Implicit Types (cls : BackendRegistry.t I) (name n m : string).

Import BackendRegistry.

Lemma dict_get_set_ne {V : Type} (d : dict V) (k k' : string) (v : V) :
  k <> k' -> dict_get k' (dict_set k v d) = dict_get k' d.
Proof.
  intros Hne. induction d as [|[k0 v0] d IH]; simpl.
  - destruct (String.eqb_spec k' k); [congruence | done].
  - destruct (String.eqb_spec k k0) as [->|Hk]; simpl.
    + destruct (String.eqb_spec k' k0); [congruence | done].
    + destruct (String.eqb_spec k' k0); [done | exact IH].
Qed.

Lemma dict_get_del_ne {V : Type} (d : dict V) (k k' : string) :
  k <> k' -> dict_get k' (dict_del k d) = dict_get k' d.
Proof.
  intros Hne. induction d as [|[k0 v0] d IH]; simpl; [done|].
  destruct (String.eqb_spec k k0) as [->|Hk]; simpl.
  - destruct (String.eqb_spec k' k0); [congruence | done].
  - destruct (String.eqb_spec k' k0); [done | exact IH].
Qed.

Lemma dict_get_del_eq {V : Type} (d : dict V) (k : string) :
  NoDup (dict_keys d) -> dict_get k (dict_del k d) = None.
Proof.
  induction d as [|[k0 v0] d IH]; simpl; [done|].
  intros [Hnin Hnd]%NoDup_cons.
  destruct (String.eqb_spec k k0) as [->|Hk]; simpl.
  - by apply dict_get_None.
  - destruct (String.eqb_spec k k0); [done | by apply IH].
Qed.

Lemma dict_del_absent {V : Type} (d : dict V) (k : string) :
  k ∉ dict_keys d -> dict_del k d = d.
Proof.
  induction d as [|[k0 v0] d IH]; simpl; [done|].
  rewrite not_elem_of_cons. intros [Hne Hnin].
  destruct (String.eqb_spec k k0); [done|]. by rewrite IH.
Qed.

(** X1.  [is_backend_available] is memoized: the call leaves the answer in
    the cache under the name asked, touches no other cache entry and no
    registered class, and asking again gives the same answer without
    changing the registry any further. *)
Theorem is_backend_available_memoized name cls :
  let b := fst (is_backend_available name cls) in
  let cls1 := snd (is_backend_available name cls) in
  is_backend_available name cls1 = (b, cls1)
  /\ _availability_cache cls1 !! name = Some b
  /\ (forall m, m <> name ->
        _availability_cache cls1 !! m = _availability_cache cls !! m)
  /\ _backends cls1 = _backends cls.
Proof.
  unfold is_backend_available.
  destruct (_availability_cache cls !! name) as [b0|] eqn:Ec; simpl.
  - rewrite Ec. by split_and!.
  - destruct (dict_get name (_backends cls)) as [bc|]; simpl.
    + destruct (cls_is_available bc); simpl;
        rewrite lookup_insert_eq; split_and!; try done;
        intros m Hm; by rewrite lookup_insert_ne.
    + rewrite lookup_insert_eq; split_and!; try done.
      intros m Hm; by rewrite lookup_insert_ne.
Qed.

Lemma available_now_register name (bc : BackendClass I) cls :
  available_now (register name bc cls) name = probe bc
  /\ forall m, m <> name ->
       available_now (register name bc cls) m = available_now cls m.
Proof.
  split.
  - rewrite available_now_eq. unfold register; simpl.
    rewrite lookup_delete_eq, dict_get_set_eq. reflexivity.
  - intros m Hm. rewrite !available_now_eq. unfold register; simpl.
    rewrite lookup_delete_ne by done.
    by rewrite dict_get_set_ne by done.
Qed.

(** X2.  Registering a class under a name drops whatever answer the cache
    held for that name: the next availability check is decided by the new
    class's own probe, and the answers for all other names stay as they
    were. *)
Theorem register_invalidates_cached_answer name (bc : BackendClass I) cls :
  available_now (register name bc cls) name = probe bc
  /\ forall m, m <> name ->
       available_now (register name bc cls) m = available_now cls m.
Proof. apply available_now_register. Qed.

(** X3.  Lookups after [register] and [unregister]: a registered name
    yields the class just registered, an unregistered name yields [None],
    no other name is affected by either, and unregistering a name that is
    not registered changes nothing at all. *)
Theorem get_backend_after_register_unregister name (bc : BackendClass I) cls :
  wf cls ->
  get_backend name (register name bc cls) = Some bc
  /\ get_backend name (unregister name cls) = None
  /\ (forall m, m <> name ->
        get_backend m (register name bc cls) = get_backend m cls
        /\ get_backend m (unregister name cls) = get_backend m cls)
  /\ (name ∉ list_backends cls -> unregister name cls = cls).
Proof.
  intros Hwf. unfold get_backend, register, unregister. split_and!.
  - apply dict_get_set_eq.
  - destruct (dict_mem name (_backends cls)) eqn:Em; simpl.
    + by apply dict_get_del_eq.
    + apply dict_mem_false in Em. by apply dict_get_None.
  - intros m Hm. split.
    + simpl. by apply dict_get_set_ne.
    + destruct (dict_mem name (_backends cls)); simpl; [|done].
      by apply dict_get_del_ne.
  - intros Hnin. apply dict_mem_false in Hnin. by rewrite Hnin.
Qed.
End RegistryMore.

Lemma get_backend_after_register_unregister_witness :
  BackendRegistry.get_backend "opencv"
    (BackendRegistry.unregister "opencv" (Sim.registry)) = None
  /\ BackendRegistry.get_backend "fast"
       (BackendRegistry.unregister "opencv" (Sim.registry))
     = Some (Sim.fast_backend).
Proof.
  assert (Hwf : BackendRegistry.wf (Sim.registry)).
  { unfold BackendRegistry.wf. vm_compute. nodup_strings. }
  destruct (get_backend_after_register_unregister "opencv"
              (Backends.OpenCVBackend Sim.lib) _ Hwf) as (_ & H2 & H3 & _).
  split; [exact H2|].
  rewrite (proj2 (H3 "fast" ltac:(discriminate))). reflexivity.
Defined.

Section RegistryMore2.
Context {I : Type}.
Implicit Types (cls : BackendRegistry.t I) (name n m : string).

Import BackendRegistry.

(** X4.  [get_available_backends()] returns exactly the registered
    entries whose availability check answers [True], each with its class
    and in registration order; [list_available_backends()] returns their
    names; neither changes the registered classes. *)
Theorem get_available_backends_filters cls :
  wf cls ->
  fst (get_available_backends cls)
    = List.filter (fun kv => available_now cls (fst kv)) (_backends cls)
  /\ fst (list_available_backends cls)
     = List.filter (available_now cls) (list_backends cls)
  /\ _backends (snd (get_available_backends cls)) = _backends cls.
Proof.
  intros Hwf. unfold list_available_backends, get_available_backends.
  destruct (available_loop_spec (_backends cls) [] cls Hwf) as [E1 [E2 _]].
  destruct (available_loop (_backends cls) [] cls) as [av cls'].
  simpl in *. subst av. split_and!; [done | | done].
  apply dict_keys_filter.
Qed.

(** X5.  [create_backend] returns an instance exactly when the name is
    registered, its availability check answers [True] and the class call
    returns.  An unknown name is a [ValueError] that leaves the registry
    untouched, an unavailable backend is a [ValueError], and a failing
    class call is wrapped in a [RuntimeError]. *)
Theorem create_backend_outcomes name (kwargs : dict PyVal) cls :
  (forall inst,
      fst (create_backend name kwargs cls) = Ok inst <->
      exists bc, get_backend name cls = Some bc
                 /\ available_now cls name = true
                 /\ cls_call bc kwargs = Ok inst)
  /\ (get_backend name cls = None ->
      create_backend name kwargs cls
      = (Raise (Exn ValueError ("Unknown backend: " ++ name)%string), cls))
  /\ (forall bc, get_backend name cls = Some bc ->
      available_now cls name = false ->
      fst (create_backend name kwargs cls)
      = Raise (Exn ValueError
                 ("Backend '" ++ name
                    ++ "' is not available (missing dependencies)")%string))
  /\ (forall bc e, get_backend name cls = Some bc ->
      available_now cls name = true ->
      cls_call bc kwargs = Raise e ->
      fst (create_backend name kwargs cls)
      = Raise (Exn RuntimeError
                 ("Failed to create backend '" ++ name ++ "': "
                    ++ exn_str e)%string)).
Proof.
  unfold create_backend, available_now.
  destruct (get_backend name cls) as [bc|] eqn:Eg.
  2:{ split_and!; try done. intros inst. split; [done | by intros (? & ? & _)]. }
  destruct (is_backend_available name cls) as [b cls'] eqn:Ea. simpl.
  split_and!.
  - intros inst. split.
    + destruct b; simpl; [|done].
      destruct (cls_call bc kwargs) as [i|e] eqn:Ec; [|done].
      intros [= <-]. by exists bc.
    + intros (bc' & [= <-] & -> & Hc). simpl. by rewrite Hc.
  - done.
  - intros bc' _ ->. done.
  - intros bc' e [= <-] -> Hc. simpl. by rewrite Hc.
Qed.

Lemma get_best_backend_same cls :
  wf cls -> same_answers cls (snd (get_best_backend cls)).
Proof.
  intros Hwf. unfold get_best_backend.
  destruct (get_available_backends_spec cls Hwf) as [_ Hs].
  destruct (get_available_backends cls) as [av cls']. simpl in Hs.
  by destruct av.
Qed.

(** X6.  [create_best_backend] raises "No video backends are available"
    exactly when no registered backend is available; otherwise it goes
    straight to the class call of the best backend, so that its only other
    failure is that class call failing: it never ends in "Unknown backend"
    or "is not available". *)
Theorem create_best_backend_outcomes (kwargs : dict PyVal) cls :
  wf cls ->
  match fst (get_best_backend cls) with
  | None =>
      List.filter (available_now cls) (list_backends cls) = []
      /\ fst (create_best_backend kwargs cls)
         = Raise (Exn RuntimeError "No video backends are available")
  | Some best =>
      exists bc,
        get_backend best cls = Some bc
        /\ available_now cls best = true
        /\ fst (create_best_backend kwargs cls) =
           match cls_call bc kwargs with
           | Ok inst => Ok inst
           | Raise e =>
               Raise (Exn RuntimeError
                 ("Failed to create backend '" ++ best ++ "': "
                    ++ exn_str e)%string)
           end
  end.
Proof.
  intros Hwf. unfold create_best_backend.
  pose proof (get_best_backend_eq cls Hwf) as Hb.
  pose proof (get_best_backend_same cls Hwf) as Hs.
  destruct (get_best_backend cls) as [[best|] cls'] eqn:Eg; simpl in *.
  - symmetry in Hb. apply sorted_head in Hb as (l1 & l2 & Hl & _).
    assert (Hin : best ∈ List.filter (available_now cls) (list_backends cls)).
    { rewrite Hl. apply elem_of_app. right. left. }
    apply list_elem_of_In, filter_In in Hin as [Hin Hav].
    destruct (get_backend best cls) as [bc|] eqn:Egb.
    2:{ apply dict_get_None in Egb. by apply list_elem_of_In in Hin. }
    exists bc. split_and!; [done | done |].
    apply create_backend_available.
    + by rewrite (get_backend_same cls cls').
    + destruct Hs as [_ Hs]. by rewrite Hs.
  - split; [|done].
    destruct (List.filter (available_now cls) (list_backends cls)) as [|x l]
      eqn:Ef; [done|].
    destruct (sorted_head_nonempty
                (fun n => get_backend_priority n cls) (x :: l)) as [y Hy];
      [done|]. congruence.
Qed.
End RegistryMore2.

Lemma get_available_backends_filters_witness :
  BackendRegistry.wf (Sim.registry)
  /\ fst (BackendRegistry.list_available_backends (Sim.registry))
     = ["opencv"; "fast"].
Proof.
  assert (Hwf : BackendRegistry.wf (Sim.registry)).
  { unfold BackendRegistry.wf. vm_compute. nodup_strings. }
  split; [exact Hwf|].
  rewrite (proj1 (proj2 (get_available_backends_filters _ Hwf))).
  vm_compute. reflexivity.
Defined.

Lemma create_backend_outcomes_witness :
  BackendRegistry.create_backend "custom" []
    (Sim.registry)
  = (Raise (Exn ValueError "Unknown backend: custom"),
     Sim.registry).
Proof.
  apply (proj1 (proj2 (create_backend_outcomes "custom" []
                         (Sim.registry)))).
  reflexivity.
Defined.

Lemma create_best_backend_outcomes_witness :
  BackendRegistry.wf (BackendRegistry.empty (I:=unit))
  /\ fst (BackendRegistry.create_best_backend [] (BackendRegistry.empty (I:=unit)))
     = Raise (Exn RuntimeError "No video backends are available").
Proof.
  assert (Hwf : BackendRegistry.wf (BackendRegistry.empty (I:=unit)))
    by apply wf_empty.
  split; [exact Hwf|].
  pose proof (create_best_backend_outcomes [] _ Hwf) as H.
  change (fst (BackendRegistry.get_best_backend (BackendRegistry.empty (I:=unit))))
    with (@None string) in H.
  exact (proj2 H).
Defined.

Section RegistryInvariant.
Context {I : Type}.
Implicit Types (cls : BackendRegistry.t I) (name n m : string).

Import BackendRegistry.

(** The answer a fresh probe of the registered class would give. *)
Lemma answers_fresh_transfer cls cls' :
  same_answers cls cls' ->
  wf cls /\ (forall n, available_now cls n =
                       match get_backend n cls with
                       | Some bc => probe bc
                       | None => false
                       end) ->
  wf cls' /\ (forall n, available_now cls' n =
                        match get_backend n cls' with
                        | Some bc => probe bc
                        | None => false
                        end).
Proof.
  intros Hs [Hwf Ha]. split.
  - unfold wf, list_backends. destruct Hs as [-> _]. exact Hwf.
  - intros n. rewrite (get_backend_same cls cls') by done.
    destruct Hs as [_ Hs]. rewrite Hs. apply Ha.
Qed.

(** X7.  The cache never goes stale.  In every state the registry can
    reach from the empty one through [register], [unregister],
    [clear_cache], the availability checks and the factory, each name is
    registered at most once, and [is_backend_available(name)] answers
    [True] exactly when the name is registered and the probe of the class
    registered under it answers [True]. *)
Theorem reachable_registry_answers_fresh cls :
  reachable cls ->
  wf cls
  /\ forall n, available_now cls n =
               match get_backend n cls with
               | Some bc => probe bc
               | None => false
               end.
Proof.
  induction 1 as [|name bc cls _ [Hwf Ha]|name cls _ [Hwf Ha]|cls _ [Hwf Ha]
                 |name cls _ IH|cls _ IH|cls _ IH|name kw cls _ IH].
  - split; [apply wf_empty|]. intros n. by rewrite available_now_eq.
  - split; [by apply wf_register|]. intros n.
    destruct (available_now_register name bc cls) as [H1 H2].
    destruct (decide (n = name)) as [->|Hne].
    + rewrite H1. unfold get_backend, register; simpl.
      by rewrite dict_get_set_eq.
    + rewrite H2 by done. unfold get_backend, register; simpl.
      rewrite dict_get_set_ne by done. apply Ha.
  - split; [by apply wf_unregister|]. intros n.
    unfold unregister. destruct (dict_mem name (_backends cls)) eqn:Em;
      [|apply Ha].
    rewrite available_now_eq. unfold get_backend. simpl.
    destruct (decide (n = name)) as [->|Hne].
    + by rewrite lookup_delete_eq, dict_get_del_eq.
    + rewrite lookup_delete_ne, dict_get_del_ne by done.
      rewrite <- available_now_eq. apply Ha.
  - split; [exact Hwf|]. intros n. rewrite available_now_eq.
    unfold get_backend, clear_cache; simpl. rewrite lookup_empty.
    by destruct (dict_get n (_backends cls)).
  - eapply answers_fresh_transfer; [apply is_backend_available_same | exact IH].
  - eapply answers_fresh_transfer; [|exact IH].
    apply get_available_backends_spec, IH.
  - eapply answers_fresh_transfer; [|exact IH].
    apply get_best_backend_same, IH.
  - eapply answers_fresh_transfer; [apply create_backend_same | exact IH].
Qed.
End RegistryInvariant.

Lemma reachable_registry_answers_fresh_witness :
  BackendRegistry.reachable (Sim.registry)
  /\ BackendRegistry.available_now (Sim.registry) "fast"
     = true.
Proof.
  assert (Hr : BackendRegistry.reachable (Sim.registry)).
  { unfold Sim.registry. do 2 apply BackendRegistry.reach_register.
    apply BackendRegistry.reach_empty. }
  split; [exact Hr|].
  rewrite (proj2 (reachable_registry_answers_fresh _ Hr) "fast").
  reflexivity.
Defined.

(** X8.  Importing the package [video.backends] fails: its module body
    registers "opencv" when [cv2] can be imported, and then the import of
    [ffmpegcv_backend] raises [SyntaxError], which [except ImportError]
    does not catch.  "ffmpegcv" is never registered, and in the registry
    the failed import leaves [get_best_backend()] answers "opencv" when
    [cv2] is there and can make a fourcc, and [None] otherwise. *)
Theorem package_import_fails (W : Type) (lib : VideoLib W)
    (cv2_importable : bool) :
  let imported := Backends.package_body lib cv2_importable BackendRegistry.empty in
  fst imported
    = Raise (Exn SyntaxError "invalid syntax (ffmpegcv_backend.py, line 116)")
  /\ BackendRegistry.list_backends (snd imported)
     = (if cv2_importable then ["opencv"] else [])
  /\ BackendRegistry.get_backend "ffmpegcv" (snd imported) = None
  /\ fst (BackendRegistry.get_best_backend (snd imported))
     = (if cv2_importable && is_ok (cv2_fourcc lib "mp4v")
        then Some "opencv" else None).
Proof.
  destruct cv2_importable; simpl; split_and!; try reflexivity.
  unfold BackendRegistry.get_best_backend, BackendRegistry.get_available_backends.
  simpl. unfold BackendRegistry.is_backend_available. simpl.
  rewrite lookup_delete_eq.
  destruct (cv2_fourcc lib "mp4v"); reflexivity.
Qed.

(** * Further properties of the backends *)

Section BackendMore.
Context {W : Type} (lib : VideoLib W).

Lemma opencv_write_not_open (self : OpenCV.t W) fs frame :
  OpenCV._writer self = None \/ OpenCV._is_opened self = false ->
  OpenCV.write_frame lib frame (self, fs) = (Raise not_initialized, (self, fs)).
Proof.
  intros [H|H]; unfold OpenCV.write_frame; rewrite H; [|done].
  by destruct (OpenCV._is_opened self).
Qed.

Lemma ffmpegcv_write_not_open (self : FFmpegCV.t W) fs frame :
  FFmpegCV._writer self = None \/ FFmpegCV._is_opened self = false ->
  FFmpegCV.write_frame lib frame (self, fs)
  = (Raise not_initialized, (self, fs)).
Proof.
  intros [H|H]; unfold FFmpegCV.write_frame; rewrite H; [|done].
  by destruct (FFmpegCV._is_opened self).
Qed.
End BackendMore.

(** X9.  [write_frame] before [open] and after [close]: in both backends,
    on any instance after [close()] and on any instance that holds no
    writer or is not flagged open, and in the OpenCV backend on an
    instance fresh from [__init__], [write_frame] raises the
    [RuntimeError] "Video writer not initialized. Call open() first." and
    changes neither the instance nor the file system. *)
Theorem write_frame_requires_open (W : Type) (lib : VideoLib W) :
  (forall (self : OpenCV.t W) fs frame,
      let closed := snd (OpenCV.close lib (self, fs)) in
      OpenCV.write_frame lib frame closed = (Raise not_initialized, closed))
  /\ (forall fps width height codec bitrate quality_preset kwargs
             (self : OpenCV.t W) fs frame,
        OpenCV.__init__ fps width height codec bitrate quality_preset kwargs
          = Ok self ->
        OpenCV.write_frame lib frame (self, fs)
        = (Raise not_initialized, (self, fs)))
  /\ (forall (self : FFmpegCV.t W) fs frame,
        let closed := snd (FFmpegCV.close lib (self, fs)) in
        FFmpegCV.write_frame lib frame closed
        = (Raise not_initialized, closed))
  /\ (forall (self : FFmpegCV.t W) fs frame,
        FFmpegCV._writer self = None \/ FFmpegCV._is_opened self = false ->
        FFmpegCV.write_frame lib frame (self, fs)
        = (Raise not_initialized, (self, fs)))
  /\ (forall (self : OpenCV.t W) fs frame,
        OpenCV._writer self = None \/ OpenCV._is_opened self = false ->
        OpenCV.write_frame lib frame (self, fs)
        = (Raise not_initialized, (self, fs))).
Proof.
  split_and!.
  - intros self fs frame closed. subst closed.
    destruct (opencv_close_clears_writer lib self fs) as [_ H].
    destruct (OpenCV.close lib (self, fs)) as [r [self' fs']]. simpl in *.
    apply opencv_write_not_open. by left.
  - intros fps width height codec bitrate qp kw self fs frame Hi.
    apply (opencv_init_dimensions (W:=W)) in Hi as (_ & Hw & _).
    apply opencv_write_not_open. by left.
  - intros self fs frame closed. subst closed.
    destruct (ffmpegcv_close_clears_writer lib self fs) as [_ H].
    destruct (FFmpegCV.close lib (self, fs)) as [r [self' fs']]. simpl in *.
    apply ffmpegcv_write_not_open. by left.
  - intros self fs frame H. by apply ffmpegcv_write_not_open.
  - intros self fs frame H. by apply opencv_write_not_open.
Qed.

Lemma write_frame_requires_open_witness :
  OpenCV.__init__ 30 640 480 None None "medium" [] = Ok Sim.fresh_opencv
  /\ OpenCV.write_frame Sim.lib (Array Sim.small_frame) (Sim.fresh_opencv, ∅)
     = (Raise not_initialized, (Sim.fresh_opencv, ∅)).
Proof.
  assert (E : OpenCV.__init__ (W:=Sim.writer) 30 640 480 None None "medium" []
              = Ok Sim.fresh_opencv) by reflexivity.
  split; [exact E|].
  exact (proj1 (proj2 (write_frame_requires_open _ Sim.lib))
           30 640 480 None None "medium" [] _ ∅ _ E).
Defined.

(** X10.  [open] reports success only with a writer in place: after a
    successful [open] the instance is flagged open, holds a writer (for
    OpenCV one that answers [isOpened()]) and remembers the output path.
    After a failed [open] the open flag is as it was, and an instance that
    held no writer holds none; the FFmpegCV backend, when [ffmpegcv]
    cannot be imported, fails without changing anything. *)
Theorem open_outcomes (W : Type) (lib : VideoLib W) :
  (forall (self self' : OpenCV.t W) fs fs' path r,
      OpenCV.open lib path (self, fs) = (r, (self', fs')) ->
      OpenCV._output_path self' = Some path
      /\ match r with
         | Ok _ =>
             OpenCV._is_opened self' = true
             /\ exists w, OpenCV._writer self' = Some w /\ isOpened lib w = true
         | Raise _ =>
             OpenCV._is_opened self' = OpenCV._is_opened self
             /\ (OpenCV._writer self = None -> OpenCV._writer self' = None)
         end)
  /\ (forall (self self' : FFmpegCV.t W) fs fs' path r,
        FFmpegCV.open lib path (self, fs) = (r, (self', fs')) ->
        match r with
        | Ok _ =>
            FFmpegCV._is_opened self' = true
            /\ (exists w, FFmpegCV._writer self' = Some w)
            /\ FFmpegCV._output_path self' = Some path
        | Raise _ =>
            FFmpegCV._is_opened self' = FFmpegCV._is_opened self
            /\ FFmpegCV._writer self' = FFmpegCV._writer self
            /\ (ffmpegcv_importable lib = false -> (self', fs') = (self, fs))
        end).
Proof.
  split.
  - intros self self' fs fs' path r. unfold OpenCV.open.
    destruct (negb _); [by intros [= <- <- <-]|].
    destruct (cv2_fourcc lib _); [|by intros [= <- <- <-]].
    match goal with
    | |- context [new_writer lib ?p ?f] =>
        destruct (new_writer lib p f) as [[w|e] fs0]
    end; [|by intros [= <- <- <-]].
    destruct (isOpened lib w) eqn:Ew; simpl; intros [= <- <- <-]; simpl.
    + split; [done|]. split; [done|]. by exists w.
    + done.
  - intros self self' fs fs' path r. unfold FFmpegCV.open.
    destruct (ffmpegcv_importable lib); simpl.
    + match goal with
      | |- context [new_writer lib ?p ?f] =>
          destruct (new_writer lib p f) as [[w|e] fs0]
      end; intros [= <- <- <-]; simpl; [|done].
      split; [done|]. split; [by exists w | done].
    + by intros [= <- <- <-].
Qed.

Lemma open_outcomes_witness :
  exists s,
    OpenCV.open Sim.lib "out.mp4" (Sim.fresh_opencv, ∅) = (Ok tt, s)
    /\ OpenCV._is_opened (fst s) = true.
Proof.
  destruct (OpenCV.open Sim.lib "out.mp4" (Sim.fresh_opencv, ∅))
    as [r [self' fs']] eqn:E.
  assert (Hr : r = Ok tt).
  { assert (H : fst (OpenCV.open Sim.lib "out.mp4" (Sim.fresh_opencv, ∅))
                = Ok tt) by (vm_compute; reflexivity).
    by rewrite E in H. }
  subst r. exists (self', fs'). split; [reflexivity|].
  exact (proj1 (proj2 (proj1 (open_outcomes _ Sim.lib) _ _ _ _ _ _ E))).
Defined.

(** X11.  [write_frame] reaches the resize and the writer only on an open
    instance given an array of three dimensions (for the OpenCV backend,
    with 1, 3 or 4 channels): in every other case it raises and leaves the
    instance and the file system exactly as they were. *)
Theorem write_frame_rejects_without_effect (W : Type) (lib : VideoLib W) :
  (forall (self self' : OpenCV.t W) fs fs' frame r,
      OpenCV.write_frame lib frame (self, fs) = (r, (self', fs')) ->
      (OpenCV._is_opened self && opencv_frame frame = false
       -> is_ok r = false /\ (self', fs') = (self, fs))
      /\ ((self', fs') <> (self, fs)
          -> OpenCV._is_opened self = true /\ opencv_frame frame = true))
  /\ (forall (self self' : FFmpegCV.t W) fs fs' frame r,
        FFmpegCV.write_frame lib frame (self, fs) = (r, (self', fs')) ->
        (FFmpegCV._is_opened self && three_dimensional frame = false
         -> is_ok r = false /\ (self', fs') = (self, fs))
        /\ ((self', fs') <> (self, fs)
            -> FFmpegCV._is_opened self = true
               /\ three_dimensional frame = true)).
Proof.
  split.
  - intros self self' fs fs' frame r Hw.
    assert (H : OpenCV._is_opened self && opencv_frame frame = false ->
                is_ok r = false /\ (self', fs') = (self, fs)).
    { revert Hw. unfold OpenCV.write_frame, opencv_frame.
      destruct (OpenCV._is_opened self); [|by intros [= <- <- <-]].
      destruct (OpenCV._writer self) as [w|]; [|by intros [= <- <- <-]].
      destruct frame as [|a]; [by intros [= <- <- <-]|].
      destruct (Nat.eqb (length (shape a)) 3); simpl;
        [|by intros [= <- <- <-]].
      destruct (_ || _); simpl; [done | by intros [= <- <- <-]]. }
    split; [exact H|]. intros Hne.
    destruct (OpenCV._is_opened self && opencv_frame frame) eqn:E.
    + by apply andb_true_iff in E.
    + by destruct (H eq_refl).
  - intros self self' fs fs' frame r Hw.
    assert (H : FFmpegCV._is_opened self && three_dimensional frame = false ->
                is_ok r = false /\ (self', fs') = (self, fs)).
    { revert Hw. unfold FFmpegCV.write_frame, three_dimensional.
      destruct (FFmpegCV._is_opened self); [|by intros [= <- <- <-]].
      destruct (FFmpegCV._writer self) as [w|]; [|by intros [= <- <- <-]].
      destruct frame as [|a]; [by intros [= <- <- <-]|].
      destruct (Nat.eqb (length (shape a)) 3); simpl;
        [done | by intros [= <- <- <-]]. }
    split; [exact H|]. intros Hne.
    destruct (FFmpegCV._is_opened self && three_dimensional frame) eqn:E.
    + by apply andb_true_iff in E.
    + by destruct (H eq_refl).
Qed.

Lemma write_frame_rejects_without_effect_witness :
  fst Sim.opencv_small_write = Ok tt
  /\ OpenCV._is_opened (fst Sim.opencv_opened) = true
  /\ opencv_frame (Array Sim.small_frame) = true.
Proof.
  split; [vm_compute; reflexivity|].
  assert (E : OpenCV.write_frame Sim.lib (Array Sim.small_frame)
                (fst Sim.opencv_opened, snd Sim.opencv_opened)
              = (fst Sim.opencv_small_write,
                 (fst (snd Sim.opencv_small_write),
                  snd (snd Sim.opencv_small_write))))
    by (vm_compute; reflexivity).
  apply (proj2 (proj1 (write_frame_rejects_without_effect _ Sim.lib)
                  _ _ _ _ _ _ E)).
  vm_compute. intros H. discriminate H.
Defined.

(** ** [validate_settings], both ways *)

Lemma append_error_nil {A : Type} (c : bool) (errors : list A) (m : A) :
  (if c then errors ++ [m] else errors) = [] <-> c = false /\ errors = [].
Proof.
  destruct c.
  - split; [|by intros [? _]]. intros H. by apply app_eq_nil in H as [_ ?].
  - by split; [|intros [_ ?]].
Qed.

Section ValidateMore.
Context {W : Type} (lib : VideoLib W).

Lemma opencv_validate_settings_empty_iff (self : OpenCV.t W) :
  OpenCV.validate_settings self = [] <->
  0 < OpenCV.fps self <= 120
  /\ 0 < OpenCV.width self <= 8192 /\ 0 < OpenCV.height self <= 8192
  /\ OpenCV.width self mod 2 = 0 /\ OpenCV.height self mod 2 = 0
  /\ str_in (OpenCV.codec self) (OpenCV.supported_codecs self) = true
  /\ (str_in (OpenCV.codec self) ["mp4v"; "x264"] = true ->
      16 <= OpenCV.width self /\ 16 <= OpenCV.height self).
Proof.
  unfold OpenCV.validate_settings. cbv zeta.
  rewrite !append_error_nil.
  rewrite !orb_false_iff, !negb_false_iff, andb_false_iff, orb_false_iff.
  rewrite !Z.leb_gt, !Z.gtb_ltb, !Z.ltb_ge, !Z.eqb_eq.
  destruct (str_in (OpenCV.codec self) ["mp4v"; "x264"]);
    destruct (str_in (OpenCV.codec self) (OpenCV.supported_codecs self));
    intuition (try discriminate; try lia).
Qed.

Lemma ffmpegcv_gpu_check_passes (self : FFmpegCV.t W) :
  str_in (FFmpegCV.codec self) (FFmpegCV.supported_codecs lib self) = true ->
  (if FFmpegCV._is_gpu_codec (FFmpegCV.codec self) then
     if endswith "_nvenc" (FFmpegCV.codec self)
        && negb (FFmpegCV._is_nvidia_available lib)
     then true
     else endswith "_qsv" (FFmpegCV.codec self)
          && negb (FFmpegCV._is_intel_qsv_available lib)
   else false) = false.
Proof.
  intros Hc. apply str_in_elem in Hc. revert Hc.
  unfold FFmpegCV.supported_codecs, FFmpegCV._is_gpu_codec,
    FFmpegCV._is_nvidia_available, FFmpegCV._is_intel_qsv_available,
    FFmpegCV._is_amd_available.
  destruct (ffmpegcv_importable lib), (nvenc_probe lib), (qsv_probe lib);
    simpl; intros Hc;
    repeat (apply elem_of_cons in Hc as [->|Hc]; [reflexivity|]);
    by apply elem_of_nil in Hc.
Qed.

(** The last step of [validate_settings] as one conditional append. *)
Lemma ffmpegcv_gpu_step (self : FFmpegCV.t W) (errors : list string) :
  (if FFmpegCV._is_gpu_codec (FFmpegCV.codec self) then
     if endswith "_nvenc" (FFmpegCV.codec self)
        && negb (FFmpegCV._is_nvidia_available lib)
     then errors ++
          ["NVIDIA NVENC codec selected but NVIDIA GPU not available"]
     else if endswith "_qsv" (FFmpegCV.codec self)
             && negb (FFmpegCV._is_intel_qsv_available lib)
     then errors ++
          ["Intel QSV codec selected but Intel Quick Sync not available"]
     else errors
   else errors) = [] <->
  (if FFmpegCV._is_gpu_codec (FFmpegCV.codec self) then
     if endswith "_nvenc" (FFmpegCV.codec self)
        && negb (FFmpegCV._is_nvidia_available lib)
     then true
     else endswith "_qsv" (FFmpegCV.codec self)
          && negb (FFmpegCV._is_intel_qsv_available lib)
   else false) = false
  /\ errors = [].
Proof.
  destruct (FFmpegCV._is_gpu_codec _); [|by split; [|intros [_ ?]]].
  destruct (endswith "_nvenc" _ && _).
  { split; [|by intros [? _]]. intros H. by apply app_eq_nil in H as [_ ?]. }
  destruct (endswith "_qsv" _ && _).
  { split; [|by intros [? _]]. intros H. by apply app_eq_nil in H as [_ ?]. }
  by split; [|intros [_ ?]].
Qed.

Lemma ffmpegcv_validate_settings_empty_iff (self : FFmpegCV.t W) :
  FFmpegCV.validate_settings lib self = [] <->
  0 < FFmpegCV.fps self <= 240
  /\ 0 < FFmpegCV.width self <= 16384 /\ 0 < FFmpegCV.height self <= 16384
  /\ FFmpegCV.width self mod 2 = 0 /\ FFmpegCV.height self mod 2 = 0
  /\ str_in (FFmpegCV.codec self) (FFmpegCV.supported_codecs lib self) = true
  /\ 0 <= FFmpegCV.crf self <= 51.
Proof.
  pose proof (ffmpegcv_gpu_check_passes self) as Hgpu.
  unfold FFmpegCV.validate_settings. cbv zeta.
  rewrite ffmpegcv_gpu_step, !append_error_nil.
  rewrite !orb_false_iff, !negb_false_iff.
  rewrite !Z.leb_gt, !Z.gtb_ltb, !Z.ltb_ge, !Z.eqb_eq.
  destruct (str_in (FFmpegCV.codec self) (FFmpegCV.supported_codecs lib self)).
  - specialize (Hgpu eq_refl). rewrite Hgpu.
    intuition (try discriminate; try lia).
  - intuition (try discriminate; try lia).
Qed.
End ValidateMore.

(** X12.  [validate_settings()] is empty exactly within the limits.  For
    the OpenCV backend: 0 < fps <= 120, width and height even and between
    1 and 8192, a codec among the supported codecs, and at least 16 pixels
    each way when the codec is mp4v or x264.  For the FFmpegCV backend:
    0 < fps <= 240, width and height even and between 1 and 16384, a codec
    among the supported codecs and a crf between 0 and 51.  Outside them at
    least one message is returned. *)
Theorem validate_settings_empty_exactly (W : Type) (lib : VideoLib W) :
  (forall self : OpenCV.t W,
      OpenCV.validate_settings self = [] <->
      0 < OpenCV.fps self <= 120
      /\ 0 < OpenCV.width self <= 8192 /\ 0 < OpenCV.height self <= 8192
      /\ OpenCV.width self mod 2 = 0 /\ OpenCV.height self mod 2 = 0
      /\ str_in (OpenCV.codec self) (OpenCV.supported_codecs self) = true
      /\ (str_in (OpenCV.codec self) ["mp4v"; "x264"] = true ->
          16 <= OpenCV.width self /\ 16 <= OpenCV.height self))
  /\ (forall self : FFmpegCV.t W,
        FFmpegCV.validate_settings lib self = [] <->
        0 < FFmpegCV.fps self <= 240
        /\ 0 < FFmpegCV.width self <= 16384
        /\ 0 < FFmpegCV.height self <= 16384
        /\ FFmpegCV.width self mod 2 = 0 /\ FFmpegCV.height self mod 2 = 0
        /\ str_in (FFmpegCV.codec self) (FFmpegCV.supported_codecs lib self)
           = true
        /\ 0 <= FFmpegCV.crf self <= 51).
Proof.
  split; intros self.
  - apply opencv_validate_settings_empty_iff.
  - apply ffmpegcv_validate_settings_empty_iff.
Qed.

Section DefaultsValidate.
Context {W : Type} (lib : VideoLib W).

Lemma select_optimal_codec_supported (hardware_accel : string)
    (self : FFmpegCV.t W) :
  str_in (FFmpegCV._select_optimal_codec lib hardware_accel)
         (FFmpegCV.supported_codecs lib self) = true.
Proof.
  unfold FFmpegCV._select_optimal_codec, FFmpegCV.supported_codecs,
    FFmpegCV._is_nvidia_available, FFmpegCV._is_intel_qsv_available,
    FFmpegCV._is_amd_available.
  destruct (str_in hardware_accel ["auto"; "nvidia"]),
    (str_in hardware_accel ["auto"; "intel"]),
    (str_in hardware_accel ["auto"; "amd"]),
    (ffmpegcv_importable lib), (nvenc_probe lib), (qsv_probe lib);
    reflexivity.
Qed.

Lemma forced_even_range (given stored lo hi : Z) :
  forced_even given stored ->
  lo mod 2 = 0 -> hi mod 2 = 0 ->
  lo <= given <= hi + 1 -> lo <= stored <= hi.
Proof.
  intros (Hs & Hle & He & Ho) Hlo Hhi [H1 H2].
  destruct (Z.eq_dec (given mod 2) 0) as [E|E].
  - rewrite (He E).
    split; [lia|]. destruct (Z.eq_dec given (hi + 1)) as [->|]; [|lia].
    rewrite Z.add_mod, Hhi in E by lia. discriminate E.
  - rewrite (Ho E).
    split; [|lia]. destruct (Z.eq_dec given lo) as [->|]; [|lia].
    congruence.
Qed.
End DefaultsValidate.

(** X13.  A default codec passes validation.  [OpenCVBackend(fps, width,
    height)], constructed without a codec, has an empty
    [validate_settings()] for 0 < fps <= 120 and 16 <= width, height <=
    8193, odd sizes included.  In the FFmpegCV class the codec that
    [get_default_codec()] picks is among [supported_codecs] whatever the
    hardware and the [hardware_accel] hint, so that a record holding it
    has an empty [validate_settings()] within the limits on fps, size and
    crf. *)
Theorem default_codec_passes_validation (W : Type) (lib : VideoLib W) :
  (forall fps width height bitrate quality_preset kwargs (self : OpenCV.t W),
      OpenCV.__init__ fps width height None bitrate quality_preset kwargs
        = Ok self ->
      0 < fps <= 120 -> 16 <= width <= 8193 -> 16 <= height <= 8193 ->
      OpenCV.validate_settings self = [])
  /\ (forall self : FFmpegCV.t W,
        str_in (FFmpegCV.get_default_codec lib self)
               (FFmpegCV.supported_codecs lib self) = true
        /\ (FFmpegCV.codec self = FFmpegCV.get_default_codec lib self ->
            0 < FFmpegCV.fps self <= 240 ->
            0 < FFmpegCV.width self <= 16384 ->
            0 < FFmpegCV.height self <= 16384 ->
            FFmpegCV.width self mod 2 = 0 -> FFmpegCV.height self mod 2 = 0 ->
            0 <= FFmpegCV.crf self <= 51 ->
            FFmpegCV.validate_settings lib self = [])).
Proof.
  split.
  - intros fps width height bitrate qp kw self Hi Hf Hw Hh.
    pose proof (opencv_init_dimensions _ _ _ _ _ _ _ _ Hi) as (Hd & _ & _).
    pose proof (ensure_even_dimensions_forced width height) as [Fw Fh].
    rewrite <- Hd in Fw, Fh. simpl in Fw, Fh.
    pose proof (forced_even_range _ _ 16 8192 Fw eq_refl eq_refl Hw).
    pose proof (forced_even_range _ _ 16 8192 Fh eq_refl eq_refl Hh).
    assert (Hc : OpenCV.codec self = "mp4v" /\ OpenCV.fps self = fps).
    { revert Hi. unfold OpenCV.__init__, _ensure_even_dimensions.
      destruct (dict_get (lower qp) OpenCV.QUALITY_PRESETS) as [row|] eqn:Er;
        [|done].
      destruct (ensure_even_dimensions width height).
      intros [= <-]. simpl. split; [|done].
      revert Er. unfold OpenCV.QUALITY_PRESETS. simpl.
      repeat (destruct (String.eqb _ _); [by intros [= <-]|]). done. }
    destruct Hc as [Hc Hfps].
    apply opencv_validate_settings_empty_iff.
    rewrite Hc, Hfps. destruct Fw as [? _], Fh as [? _].
    split_and!; try done; try lia.
  - intros self.
    assert (Hin : str_in (FFmpegCV.get_default_codec lib self)
                         (FFmpegCV.supported_codecs lib self) = true)
      by apply select_optimal_codec_supported.
    split; [exact Hin|].
    intros Hc Hf Hw Hh Hwe Hhe Hcrf.
    apply ffmpegcv_validate_settings_empty_iff.
    rewrite Hc, Hin. split_and!; try done; lia.
Qed.

Lemma default_codec_passes_validation_witness :
  exists self : OpenCV.t Sim.writer,
    OpenCV.__init__ 30 641 481 None None "HIGH" [] = Ok self
    /\ OpenCV.validate_settings self = [].
Proof.
  destruct (OpenCV.__init__ (W:=Sim.writer) 30 641 481 None None "HIGH" [])
    as [self|e] eqn:E; [|vm_compute in E; discriminate E].
  exists self. split; [reflexivity|].
  apply (proj1 (default_codec_passes_validation _ Sim.lib)
           30 641 481 None "HIGH" [] self E); lia.
Defined.

Section NeverOdd.
Context {W : Type} (lib : VideoLib W).

Lemma not_elem_append_error (c : bool) (errors : list string) (m x : string) :
  x ∉ errors -> (c = true -> x <> m) ->
  x ∉ (if c then errors ++ [m] else errors).
Proof.
  intros He Hm. destruct c; [|done].
  rewrite elem_of_app, list_elem_of_singleton. intros [?|?]; [done|].
  by apply Hm.
Qed.
End NeverOdd.

(** X14.  The parity check of the OpenCV [validate_settings] never fires
    on a live instance: in every state reachable from [__init__] through
    [open], [write_frame] and [close], the message "Width and height must
    be even for most codecs" is not among the messages returned. *)
Theorem validate_settings_never_reports_odd (W : Type) (lib : VideoLib W)
    (width height : Z) (self : OpenCV.t W) :
  opencv_reachable lib width height self ->
  "Width and height must be even for most codecs"
    ∉ OpenCV.validate_settings self.
Proof.
  intros Hr.
  apply opencv_reachable_dimensions in Hr.
  pose proof (ensure_even_dimensions_forced width height) as [[Hw _] [Hh _]].
  rewrite <- Hr in Hw, Hh. simpl in Hw, Hh.
  unfold OpenCV.validate_settings. cbv zeta. rewrite Hw, Hh.
  repeat (apply not_elem_append_error;
          [|first [discriminate | intros _; discriminate]]).
  apply not_elem_of_nil.
Qed.

Lemma validate_settings_never_reports_odd_witness :
  opencv_reachable Sim.lib 640 480 Sim.fresh_opencv
  /\ "Width and height must be even for most codecs"
       ∉ OpenCV.validate_settings Sim.fresh_opencv.
Proof.
  assert (Hr : opencv_reachable Sim.lib 640 480 Sim.fresh_opencv)
    by exact (ocv_init Sim.lib 640 480 30 None None "medium" [] _ eq_refl).
  split; [exact Hr|].
  exact (validate_settings_never_reports_odd _ Sim.lib _ _ _ Hr).
Defined.

(** * Further properties of the generator *)

Section AcquireMore.
Context {I : Type}.
Implicit Types (cls : BackendRegistry.t I) (n : string).

Import BackendRegistry.



End AcquireMore.



Section NegotiatedSize.
Context {W : Type} (lib : VideoLib W).



End NegotiatedSize.



Section EncodeMore.
Context {W : Type} (lib : VideoLib W).
Context {B : Type} {backend_ops : VideoBackend.ops B}.

Import VideoGenerator.

(** An iteration adds at most one to each counter. *)
Lemma loop_body_each self env width height total i path (st : loop_state) :
  let st' := loop_body lib self env width height total i path st in
  ls_frame_count st <= ls_frame_count st' <= ls_frame_count st + 1
  /\ ls_skipped_count st <= ls_skipped_count st'
     <= ls_skipped_count st + 1.
Proof.
  unfold loop_body.
  repeat match goal with
         | |- context [if ?c then _ else _] => destruct c
         | |- context [match ?x with _ => _ end] => destruct x
         end; simpl; lia.
Qed.

Lemma frame_loop_each self env width height total images i
    (st : loop_state) :
  let st' := frame_loop lib self env width height total i images st in
  ls_frame_count st <= ls_frame_count st'
    <= ls_frame_count st + Z.of_nat (length images)
  /\ ls_skipped_count st <= ls_skipped_count st'
     <= ls_skipped_count st + Z.of_nat (length images).
Proof.
  revert i st.
  induction images as [|path images IH]; intros i st; simpl; [lia|].
  pose proof (loop_body_each self env width height total i path st) as Hb.
  specialize (IH (S i) (loop_body lib self env width height total i path st)).
  simpl in *. lia.
Qed.

(** An image that cannot be read is skipped without a call of the
    backend. *)
Lemma loop_body_unreadable self env width height total i path
    (st : loop_state) :
  cv2_imread lib path = Ok None ->
  loop_body lib self env width height total i path st
  = {| ls_frame_count := ls_frame_count st;
       ls_skipped_count := ls_skipped_count st + 1;
       ls_backend := ls_backend st;
       ls_fs := ls_fs st |}.
Proof. intros H. unfold loop_body, _process_image. by rewrite H. Qed.

Lemma frame_loop_unreadable self env width height total images i
    (st : loop_state) :
  Forall (fun path => cv2_imread lib path = Ok None) images ->
  frame_loop lib self env width height total i images st
  = {| ls_frame_count := ls_frame_count st;
       ls_skipped_count := ls_skipped_count st + Z.of_nat (length images);
       ls_backend := ls_backend st;
       ls_fs := ls_fs st |}.
Proof.
  intros Hall. revert i st.
  induction Hall as [|path images Hp _ IH]; intros i st.
  - simpl. destruct st; simpl. f_equal. lia.
  - cbn [frame_loop]. rewrite loop_body_unreadable, IH by done.
    cbn [ls_frame_count ls_skipped_count ls_backend ls_fs].
    f_equal. rewrite length_cons. lia.
Qed.
End EncodeMore.

(** X17.  A frame returned by [_process_image] has the target height and
    width, whatever the size of the image read, given that [cv2.resize]
    returns an array of the size asked for and that [cv2.cvtColor] keeps
    the height and width of its argument. *)
Theorem processed_frame_has_target_size (W : Type) (lib : VideoLib W)
    (image_path : string) (target_width target_height : Z)
    (pixel_format : string) (img : ndarray) :
  resize_gives_size lib ->
  (forall a a', cv2_cvtColor lib a = Ok a' ->
                firstn 2 (shape a') = firstn 2 (shape a)) ->
  VideoGenerator._process_image lib image_path target_width target_height
    pixel_format = Some img ->
  shape2_differs img target_height target_width = false.
Proof.
  intros Hresize Hcvt. unfold VideoGenerator._process_image.
  destruct (cv2_imread lib image_path) as [[img0|]|]; [|done|done].
  destruct (shape img0) as [|ch [|cw rest]] eqn:Es; [done|done|].
  assert (Hsized : forall a,
    (if negb (cw =? target_width) || negb (ch =? target_height)
     then cv2_resize lib img0 target_width target_height
     else Ok img0) = Ok a ->
    shape2_differs a target_height target_width = false).
  { intros a.
    destruct (Z.eqb_spec cw target_width) as [->|]; simpl.
    - destruct (Z.eqb_spec ch target_height) as [->|]; simpl.
      + intros [= <-]. unfold shape2_differs. rewrite Es. simpl.
        by rewrite !Z.eqb_refl.
      + apply Hresize.
    - apply Hresize. }
  destruct (if negb (cw =? target_width) || negb (ch =? target_height)
            then cv2_resize lib img0 target_width target_height
            else Ok img0) as [a|]; [|done].
  specialize (Hsized a eq_refl).
  destruct (_ && _).
  - destruct (cv2_cvtColor lib a) as [a'|] eqn:Ec; [|done].
    intros [= <-]. unfold shape2_differs in *.
    by rewrite (Hcvt a a' Ec).
  - by intros [= <-].
Qed.

Lemma processed_frame_has_target_size_witness :
  exists img,
    VideoGenerator._process_image Sim.lib "a.jpg" 320 240 "rgb" = Some img
    /\ shape2_differs img 240 320 = false.
Proof.
  destruct (VideoGenerator._process_image Sim.lib "a.jpg" 320 240 "rgb")
    as [img|] eqn:E; [|vm_compute in E; discriminate E].
  exists img. split; [reflexivity|].
  refine (processed_frame_has_target_size _ Sim.lib "a.jpg" 320 240 "rgb" img
            sim_resize_gives_size _ E).
  intros a a' [= <-]. reflexivity.
Defined.

(** X18.  In the result of a completed job neither counter exceeds the
    number of images: 0 <= frame_count <= n and 0 <= skipped_count <= n,
    while their sum is at least n. *)
Theorem frame_and_skip_counts_bounded
    (W : Type) (lib : VideoLib W) (B : Type) (backend_ops : VideoBackend.ops B)
    (self : VideoGenerator.t) (env : VideoGenerator.RunEnv)
    (valid_images : list string) (output_path : string) (width height : Z)
    (create_thumbnail : bool) (s s' : B * FS)
    (r : VideoGenerator.GenerationResult) :
  VideoGenerator._generate_with_backend lib self env valid_images output_path
    width height create_thumbnail s = (Ok r, s') ->
  let n := Z.of_nat (length valid_images) in
  0 <= VideoGenerator.frame_count r <= n
  /\ 0 <= VideoGenerator.skipped_count r <= n
  /\ n <= VideoGenerator.frame_count r + VideoGenerator.skipped_count r.
Proof.
  unfold VideoGenerator._generate_with_backend. destruct s as [b fs].
  destruct (VideoBackend.open output_path (b, fs)) as [[[]|e0] s1]; [|done].
  destruct (VideoGenerator.encode_and_finalize _ _ _ _ _ _ _ _ _ _)
    as [[r0|e] s2] eqn:Ee.
  - intros [= <- <-].
    apply encode_and_finalize_ok in Ee as (_ & _ & _ & -> & -> & _).
    match goal with
    | |- context [VideoGenerator.frame_loop lib ?a ?b ?c ?d ?e ?f ?g ?h] =>
        pose proof (frame_loop_each lib a b c d e g f h) as H1;
        pose proof (frame_loop_counts lib a b c d e g f h) as H2
    end.
    simpl in H1, H2. simpl. lia.
  - by destruct (VideoBackend.close s2) as [rc [b3 fs3]].
Qed.

Lemma frame_and_skip_counts_bounded_witness :
  let job := Sim.run (Some Sim.failing_callback) ["a.jpg"; "corrupt.jpg"] in
  match fst job with
  | Ok r =>
      0 <= VideoGenerator.frame_count r <= 2
      /\ 0 <= VideoGenerator.skipped_count r <= 2
      /\ 2 <= VideoGenerator.frame_count r + VideoGenerator.skipped_count r
  | Raise _ => False
  end.
Proof.
  intros job.
  assert (Hok : is_ok (fst job) = true) by (vm_compute; reflexivity).
  destruct job as [[r|e] s'] eqn:Ej; [|discriminate Hok].
  exact (frame_and_skip_counts_bounded _ Sim.lib _
           (VideoBackend.opencv Sim.lib) (Sim.generator "opencv")
           (Sim.run_env (Some Sim.failing_callback))
           ["a.jpg"; "corrupt.jpg"] "out.mp4" 640 480 false
           (Sim.fresh_opencv, ∅) s' r Ej).
Defined.

(** X19.  When [cv2.imread] returns [None] for every image of the list,
    the backend sees [open] and [close] and nothing else: a job that
    completes reports no frame, every image as skipped, and ends in the
    state that [close()] right after [open()] gives. *)
Theorem unreadable_images_never_reach_backend
    (W : Type) (lib : VideoLib W) (B : Type) (backend_ops : VideoBackend.ops B)
    (self : VideoGenerator.t) (env : VideoGenerator.RunEnv)
    (valid_images : list string) (output_path : string) (width height : Z)
    (create_thumbnail : bool) (s s1 s' : B * FS)
    (r : VideoGenerator.GenerationResult) :
  Forall (fun path => cv2_imread lib path = Ok None) valid_images ->
  VideoBackend.open output_path s = (Ok tt, s1) ->
  VideoGenerator._generate_with_backend lib self env valid_images output_path
    width height create_thumbnail s = (Ok r, s') ->
  VideoGenerator.frame_count r = 0
  /\ VideoGenerator.skipped_count r = Z.of_nat (length valid_images)
  /\ VideoBackend.close s1 = (Ok tt, s').
Proof.
  intros Hall Ho. unfold VideoGenerator._generate_with_backend.
  destruct s as [b fs]. rewrite Ho.
  destruct (VideoGenerator.encode_and_finalize _ _ _ _ _ _ _ _ _ _)
    as [[r0|e] s2] eqn:Ee.
  - intros [= <- <-].
    apply encode_and_finalize_ok in Ee as (Hc & _ & _ & -> & -> & _).
    rewrite frame_loop_unreadable in * by done. simpl in *.
    split_and!; [done | lia |]. by destruct s1.
  - by destruct (VideoBackend.close s2) as [rc [b3 fs3]].
Qed.

Lemma unreadable_images_never_reach_backend_witness :
  let job := Sim.run None ["corrupt.jpg"; "corrupt.jpg"] in
  match fst job with
  | Ok r =>
      VideoGenerator.frame_count r = 0
      /\ VideoGenerator.skipped_count r = 2
      /\ OpenCV.close Sim.lib Sim.opencv_opened = (Ok tt, snd job)
  | Raise _ => False
  end.
Proof.
  intros job.
  assert (Hok : is_ok (fst job) = true) by (vm_compute; reflexivity).
  assert (Hall : Forall (fun path => cv2_imread Sim.lib path = Ok None)
                        ["corrupt.jpg"; "corrupt.jpg"])
    by (repeat constructor).
  assert (Ho : OpenCV.open Sim.lib "out.mp4" (Sim.fresh_opencv, ∅)
               = (Ok tt, Sim.opencv_opened)) by (vm_compute; reflexivity).
  destruct job as [[r|e] s'] eqn:Ej; [|discriminate Hok].
  exact (unreadable_images_never_reach_backend _ Sim.lib _
           (VideoBackend.opencv Sim.lib) (Sim.generator "opencv")
           (Sim.run_env None) ["corrupt.jpg"; "corrupt.jpg"] "out.mp4"
           640 480 false (Sim.fresh_opencv, ∅) Sim.opencv_opened s' r
           Hall Ho Ej).
Defined.

Section FinalClose.
Context {W : Type} (lib : VideoLib W).

Abbreviation instance := (OpenCV.t W + FFmpegCV.t W)%type.
Abbreviation ops := (Backends.instance_ops lib).

Lemma close_no_writer (b : instance) (fs : FS) :
  no_writer b -> VideoBackend.close (ops := ops) (b, fs) = (Ok tt, (b, fs)).
Proof.
  destruct b as [a|a]; intros H.
  - change (VideoBackend.close (ops := ops) (inl a, fs))
      with (let '(r, (a', fs')) := OpenCV.close lib (a, fs) in
            (r, (inl a' : instance, fs'))).
    by rewrite opencv_close_no_writer.
  - change (VideoBackend.close (ops := ops) (inr a, fs))
      with (let '(r, (a', fs')) := FFmpegCV.close lib (a, fs) in
            (r, (inr a' : instance, fs'))).
    by rewrite ffmpegcv_close_no_writer.
Qed.

Lemma close_clears_writer (s : instance * FS) :
  fst (VideoBackend.close (ops := ops) s) = Ok tt
  /\ no_writer (fst (snd (VideoBackend.close (ops := ops) s))).
Proof.
  destruct s as [[a|a] fs].
  - change (VideoBackend.close (ops := ops) (inl a, fs))
      with (let '(r, (a', fs')) := OpenCV.close lib (a, fs) in
            (r, (inl a' : instance, fs'))).
    pose proof (opencv_close_clears_writer lib a fs) as H.
    by destruct (OpenCV.close lib (a, fs)) as [r [a' fs']].
  - change (VideoBackend.close (ops := ops) (inr a, fs))
      with (let '(r, (a', fs')) := FFmpegCV.close lib (a, fs) in
            (r, (inr a' : instance, fs'))).
    pose proof (ffmpegcv_close_clears_writer lib a fs) as H.
    by destruct (FFmpegCV.close lib (a, fs)) as [r [a' fs']].
Qed.

Lemma failed_open_no_writer (b b' : instance) (fs fs' : FS) path e :
  no_writer b ->
  VideoBackend.open (ops := ops) path (b, fs) = (Raise e, (b', fs')) ->
  no_writer b'.
Proof.
  destruct b as [a|a]; intros Hw.
  - change (VideoBackend.open (ops := ops) path (inl a, fs))
      with (let '(r, (a', fs')) := OpenCV.open lib path (a, fs) in
            (r, (inl a' : instance, fs'))).
    destruct (OpenCV.open lib path (a, fs)) as [r [a' fs1]] eqn:Eo.
    intros [= -> <- <-].
    by eapply opencv_failed_open_no_writer.
  - change (VideoBackend.open (ops := ops) path (inr a, fs))
      with (let '(r, (a', fs')) := FFmpegCV.open lib path (a, fs) in
            (r, (inr a' : instance, fs'))).
    destruct (FFmpegCV.open lib path (a, fs)) as [r [a' fs1]] eqn:Eo.
    intros [= -> <- <-].
    by eapply ffmpegcv_failed_open_no_writer.
Qed.

(** However [_generate_with_backend] ends, it leaves the backend without
    a writer. *)
Lemma generate_with_backend_no_writer (self : VideoGenerator.t) env images
    out width height thumb (b b' : instance) (fs fs' : FS) r :
  no_writer b ->
  VideoGenerator._generate_with_backend lib (backend_ops := ops) self env
    images out width height thumb (b, fs) = (r, (b', fs')) ->
  no_writer b'.
Proof.
  intros Hw. unfold VideoGenerator._generate_with_backend.
  destruct (VideoBackend.open out (b, fs)) as [[[]|e0] [b1 fs1]] eqn:Eo.
  2:{ intros [= <- <- <-]. by eapply failed_open_no_writer. }
  destruct (VideoGenerator.encode_and_finalize _ _ _ _ _ _ _ _ _ _)
    as [[r0|e] s2] eqn:Ee.
  - intros [= <- ->].
    apply encode_and_finalize_ok in Ee as (Hc & _).
    match type of Hc with
    | VideoBackend.close ?s = _ =>
        pose proof (close_clears_writer s) as [_ Hn]
    end.
    by rewrite Hc in Hn.
  - pose proof (close_clears_writer s2) as [_ Hn].
    destruct (VideoBackend.close s2) as [rc [b3 fs3]].
    by intros [= <- <- <-].
Qed.
End FinalClose.

(** X20.  [_generate_with_backend] leaves the backend closed.  Started on
    an instance of either class that holds no writer, however the job
    ends, with a result, a failed [open], an error after the loop or a
    missing output file, the instance holds no writer afterwards, so that
    a further [close()], the one in the [finally] clause of
    [generate_video], changes neither the instance nor the file
    system. *)
Theorem generate_with_backend_leaves_backend_closed
    (W : Type) (lib : VideoLib W) (self : VideoGenerator.t)
    (env : VideoGenerator.RunEnv) (valid_images : list string)
    (output_path : string) (width height : Z) (create_thumbnail : bool)
    (backend backend' : OpenCV.t W + FFmpegCV.t W) (fs fs' : FS)
    (r : result VideoGenerator.GenerationResult) :
  no_writer backend ->
  VideoGenerator._generate_with_backend lib
    (backend_ops := Backends.instance_ops lib) self env valid_images
    output_path width height create_thumbnail (backend, fs)
  = (r, (backend', fs')) ->
  no_writer backend'
  /\ VideoBackend.close (ops := Backends.instance_ops lib) (backend', fs')
     = (Ok tt, (backend', fs')).
Proof.
  intros Hw Hg.
  pose proof (generate_with_backend_no_writer lib _ _ _ _ _ _ _ _ _ _ _ _
                Hw Hg) as Hw'.
  split; [exact Hw'|]. by apply close_no_writer.
Qed.

Lemma generate_with_backend_leaves_backend_closed_witness :
  let job := VideoGenerator._generate_with_backend Sim.lib
               (backend_ops := Backends.instance_ops Sim.lib)
               (Sim.generator "opencv") (Sim.run_env None)
               ["a.jpg"; "corrupt.jpg"] "out.mp4" 640 480 false
               (inl Sim.fresh_opencv, ∅) in
  is_ok (fst job) = true
  /\ VideoBackend.close (ops := Backends.instance_ops Sim.lib) (snd job)
     = (Ok tt, snd job).
Proof.
  intros job. split; [vm_compute; reflexivity|].
  destruct job as [r [b' fs']] eqn:Ej.
  exact (proj2 (generate_with_backend_leaves_backend_closed _ Sim.lib
                  (Sim.generator "opencv") (Sim.run_env None)
                  ["a.jpg"; "corrupt.jpg"] "out.mp4" 640 480 false
                  (inl Sim.fresh_opencv) b' ∅ fs' r eq_refl Ej)).
Defined.

(** * The image-listing helpers *)

Section FileUtilsFacts.
Import FileUtils.
Context (L : ImageLib).

Lemma validate_loop_spec (image_files valid_files : list string)
    (errors : list (string * option string)) :
  validate_loop L image_files valid_files errors
  = (valid_files
       ++ List.filter (fun p => fst (validate_image L p)) image_files,
     errors
       ++ map (fun p => (p, snd (validate_image L p)))
              (List.filter (fun p => negb (fst (validate_image L p)))
                           image_files)).
Proof.
  revert valid_files errors.
  induction image_files as [|p l IH]; intros valid_files errors; simpl.
  - by rewrite !app_nil_r.
  - destruct (validate_image L p) as [[] msg] eqn:E; simpl.
    + rewrite IH. f_equal. by rewrite <- app_assoc.
    + rewrite IH, E. f_equal. by rewrite <- app_assoc.
Qed.

Lemma filter_all_valid (valid : string -> bool) (l : list string) :
  forallb valid l = true ->
  List.filter valid l = l
  /\ List.filter (fun p => negb (valid p)) l = [].
Proof.
  induction l as [|p l IH]; simpl; [done|].
  intros [Hp Hl]%andb_true_iff. rewrite Hp. simpl.
  destruct (IH Hl) as [-> ->]. done.
Qed.

Lemma filter_some_invalid (valid : string -> bool) (l : list string) :
  forallb valid l = false ->
  List.filter (fun p => negb (valid p)) l <> [].
Proof.
  induction l as [|p l IH]; simpl; [done|].
  destruct (valid p); simpl; [exact IH | done].
Qed.

Lemma validate_image_message (p : string) :
  match validate_image L p with
  | (true, msg) => msg = None
  | (false, msg) => is_Some msg
  end.
Proof.
  unfold validate_image.
  destruct (Image_open L p); [|by eexists].
  destruct (Image_verify L p); [|by eexists].
  destruct (_ || _); [by eexists | done].
Qed.

Lemma slice_step_from_ext {A : Type} (k : nat) (l l' : list A) (skip : nat) :
  (1 <= k)%nat ->
  length l = length l' ->
  (forall j : nat, l !! (skip + j * k)%nat = l' !! (skip + j * k)%nat) ->
  slice_step_from k skip l = slice_step_from k skip l'.
Proof.
  intros Hk. revert l' skip.
  induction l as [|x t IH]; intros [|y t'] skip Hlen Hagree; try done.
  simpl in Hlen. injection Hlen as Hlen.
  destruct skip as [|s]; simpl.
  - pose proof (Hagree 0%nat) as H0. simpl in H0. injection H0 as <-.
    f_equal. apply IH; [done|]. intros j.
    specialize (Hagree (S j)). simpl in Hagree.
    replace (k - 1 + j * k)%nat with (Nat.pred (k + j * k)) by lia.
    destruct (k + j * k)%nat as [|m] eqn:E; [lia|]. exact Hagree.
  - apply IH; [done|]. intros j. exact (Hagree j).
Qed.

Lemma sample_files_ext (l l' : list string) :
  length l = length l' ->
  (forall i : nat,
      (i mod (length l / Nat.min 10 (length l) + 1) = 0)%nat ->
      l !! i = l' !! i) ->
  sample_files l = sample_files l'.
Proof.
  intros Hlen Hagree. unfold sample_files, slice_step. rewrite <- Hlen.
  f_equal. apply slice_step_from_ext; [lia | done |].
  intros j. simpl. apply Hagree. apply Nat.Div0.mod_mul.
Qed.
End FileUtilsFacts.

(** X21.  [validate_image_sequence] returns only when every image is
    valid, and then returns its input, in order, with an empty error
    list.  As soon as [validate_image] refuses one image the call raises
    [NameError]: the loop that logs the errors uses the name [logger],
    which the module does not define, so that no error list ever
    reaches the caller. *)
Theorem validate_image_sequence_all_or_nothing (L : FileUtils.ImageLib)
    (image_files : list string) :
  let valid := fun p => fst (FileUtils.validate_image L p) in
  (forall p, valid p = true -> snd (FileUtils.validate_image L p) = None)
  /\ (forallb valid image_files = true ->
      FileUtils.validate_image_sequence L image_files
      = Ok (image_files, []))
  /\ (forallb valid image_files = false ->
      FileUtils.validate_image_sequence L image_files
      = Raise FileUtils.logger_undefined)
  /\ (forall r, FileUtils.validate_image_sequence L image_files = Ok r ->
      r = (image_files, []) /\ forallb valid image_files = true).
Proof.
  intros valid.
  assert (Hall : forallb valid image_files = true ->
                 FileUtils.validate_image_sequence L image_files
                 = Ok (image_files, [])).
  { intros H. unfold FileUtils.validate_image_sequence.
    rewrite validate_loop_spec.
    destruct (filter_all_valid valid image_files H) as [E1 E2].
    subst valid. by rewrite E1, E2. }
  assert (Hsome : forallb valid image_files = false ->
                  FileUtils.validate_image_sequence L image_files
                  = Raise FileUtils.logger_undefined).
  { intros H. unfold FileUtils.validate_image_sequence.
    rewrite validate_loop_spec.
    pose proof (filter_some_invalid valid image_files H) as E.
    subst valid. cbv beta in E.
    destruct (List.filter
                (fun p => negb (fst (FileUtils.validate_image L p)))
                image_files) as [|p l]; [done | reflexivity]. }
  split_and!; [| exact Hall | exact Hsome |].
  - intros p Hp. subst valid. simpl in Hp.
    pose proof (validate_image_message L p) as Hm.
    destruct (FileUtils.validate_image L p) as [[] msg]; [exact Hm | done].
  - intros r Hr. destruct (forallb valid image_files) eqn:E.
    + rewrite (Hall eq_refl) in Hr. by injection Hr as <-.
    + by rewrite (Hsome eq_refl) in Hr.
Qed.

Lemma validate_image_sequence_all_or_nothing_witness :
  FileUtils.validate_image_sequence SimImages.lib ["a.jpg"; "b.jpg"]
    = Ok (["a.jpg"; "b.jpg"], [])
  /\ FileUtils.validate_image_sequence SimImages.lib ["a.jpg"; "corrupt.jpg"]
     = Raise FileUtils.logger_undefined.
Proof.
  split.
  - exact (proj1 (proj2 (validate_image_sequence_all_or_nothing
                           SimImages.lib ["a.jpg"; "b.jpg"])) eq_refl).
  - exact (proj1 (proj2 (proj2 (validate_image_sequence_all_or_nothing
                                  SimImages.lib ["a.jpg"; "corrupt.jpg"])))
             eq_refl).
Defined.

(** X25.  [find_image_files] never returns a list.  A missing directory
    is a [FileNotFoundError] and a directory without a matching file a
    [ValueError]; when files are found, the call that logs their number
    uses the name [logger], which the module does not define, and the
    function raises [NameError] before it sorts anything. *)
Theorem find_image_files_never_returns (directory : FileUtils.Directory) :
  exists e,
    FileUtils.find_image_files directory = Raise e
    /\ (exn_cls e = FileNotFoundError <->
        FileUtils.dir_exists directory = false)
    /\ (exn_cls e = NameError <->
        FileUtils.dir_exists directory = true
        /\ exists pattern file,
             pattern ∈ ["*.jpg"; "*.jpeg"; "*.JPG"; "*.JPEG"; "*.png"; "*.PNG"]
             /\ file ∈ FileUtils.dir_glob directory pattern).
Proof.
  unfold FileUtils.find_image_files.
  set (patterns := ["*.jpg"; "*.jpeg"; "*.JPG"; "*.JPEG"; "*.png"; "*.PNG"]).
  set (matched := flat_map (FileUtils.dir_glob directory) patterns).
  assert (Hm : (exists pattern file,
                  pattern ∈ patterns
                  /\ file ∈ FileUtils.dir_glob directory pattern)
               <-> matched <> []).
  { split.
    - intros (pattern & file & Hp & Hf) E.
      assert (Hin : In file matched).
      { apply in_flat_map. exists pattern. split; by apply list_elem_of_In. }
      rewrite E in Hin. done.
    - intros Hne. destruct matched as [|file l] eqn:E; [done|].
      assert (Hin : In file matched) by (rewrite E; by left).
      apply in_flat_map in Hin as (pattern & Hp & Hf).
      exists pattern, file. split; by apply list_elem_of_In. }
  destruct (FileUtils.dir_exists directory); cbn [negb].
  - destruct matched as [|file l].
    + eexists. split; [reflexivity|]. split; [done|].
      split; [done|]. intros [_ H]. by apply Hm in H.
    + eexists. split; [reflexivity|]. split; [done|].
      split; [|done]. intros _. split; [done|]. by apply Hm.
  - eexists. split; [reflexivity|]. split; [done|]. split; [done|].
    by intros [? _].
Qed.

(** X22.  The consistency check of [get_common_image_properties] looks
    only at the images whose index is a multiple of the step
    [len // min(10, len) + 1], which is at least 2: two lists of the same
    length that agree at those indices get the same [common_size],
    [sizes_consistent], [common_mode] and [modes_consistent], whatever
    the images in between, the second image to begin with. *)
Theorem consistency_check_skips_images (L : FileUtils.ImageLib)
    (image_files image_files' : list string)
    (p p' : FileUtils.CommonProperties) :
  length image_files = length image_files' ->
  let step := (length image_files / Nat.min 10 (length image_files) + 1)%nat in
  (forall i : nat, (i mod step = 0)%nat ->
                   image_files !! i = image_files' !! i) ->
  FileUtils.get_common_image_properties L image_files = Ok (Some p) ->
  FileUtils.get_common_image_properties L image_files' = Ok (Some p') ->
  (2 <= step)%nat
  /\ FileUtils.common_size p = FileUtils.common_size p'
  /\ FileUtils.sizes_consistent p = FileUtils.sizes_consistent p'
  /\ FileUtils.common_mode p = FileUtils.common_mode p'
  /\ FileUtils.modes_consistent p = FileUtils.modes_consistent p'.
Proof.
  intros Hlen step Hagree.
  pose proof (sample_files_ext image_files image_files' Hlen Hagree) as Hs.
  unfold FileUtils.get_common_image_properties. rewrite <- Hs.
  destruct image_files as [|first l]; [done|].
  destruct image_files' as [|first' l']; [done|].
  pose proof (Hagree 0%nat (Nat.Div0.mod_0_l _)) as H0.
  simpl in H0. injection H0 as <-.
  destruct (FileUtils.get_image_info L first) as [info|]; [|done].
  destruct (FileUtils.consistency_loop _ _ _ _ _ _) as [sc mc].
  destruct (FileUtils.sum_sizes L (first :: l) 0); [|done].
  destruct (FileUtils.sum_sizes L (first :: l') 0); [|done].
  destruct (PyFloat.int_truediv _ _); [|done].
  destruct (PyFloat.int_truediv _ _); [|done].
  intros [= <-] [= <-]. simpl. split_and!; try done.
  subst step.
  assert (1 <= length (first :: l) / Nat.min 10 (length (first :: l)))%nat;
    [|lia].
  apply Nat.div_le_lower_bound; cbn [length]; lia.
Qed.

Lemma consistency_check_skips_images_witness :
  exists p p',
    FileUtils.get_common_image_properties SimImages.lib
      ["a.jpg"; "b.jpg"; "c.jpg"] = Ok (Some p)
    /\ FileUtils.get_common_image_properties SimImages.lib
         ["a.jpg"; "odd.jpg"; "c.jpg"] = Ok (Some p')
    /\ FileUtils.sizes_consistent p = true
    /\ FileUtils.sizes_consistent p' = true.
Proof.
  destruct (FileUtils.get_common_image_properties SimImages.lib
              ["a.jpg"; "b.jpg"; "c.jpg"]) as [[p|]|] eqn:E;
    [|vm_compute in E; discriminate E|vm_compute in E; discriminate E].
  destruct (FileUtils.get_common_image_properties SimImages.lib
              ["a.jpg"; "odd.jpg"; "c.jpg"]) as [[p'|]|] eqn:E';
    [|vm_compute in E'; discriminate E'|vm_compute in E'; discriminate E'].
  exists p, p'.
  assert (Hp : FileUtils.sizes_consistent p = true).
  { vm_compute in E. by injection E as <-. }
  split_and!; [reflexivity | reflexivity | exact Hp |].
  destruct (consistency_check_skips_images SimImages.lib
              ["a.jpg"; "b.jpg"; "c.jpg"] ["a.jpg"; "odd.jpg"; "c.jpg"]
              p p' eq_refl) as (_ & _ & H & _); [| exact E | exact E' |].
  - intros [|[|[|i]]] Hi; try reflexivity; vm_compute in Hi; discriminate Hi.
  - by rewrite <- H.
Defined.

Section NaturalKeyFacts.
Import FileUtils.

Lemma append_String (c : ascii) (s t : string) :
  (String c s ++ t)%string = String c (s ++ t)%string.
Proof. reflexivity. Qed.

Lemma append_empty_l (s : string) : ("" ++ s)%string = s.
Proof. reflexivity. Qed.

Lemma append_empty_r (s : string) : (s ++ "")%string = s.
Proof. induction s as [|c s IH]; [done|]. by rewrite append_String, IH. Qed.

Lemma append_assoc_string (s t u : string) :
  ((s ++ t) ++ u)%string = (s ++ (t ++ u))%string.
Proof.
  induction s as [|c s IH]; [done|]. by rewrite !append_String, IH.
Qed.

Lemma list_ascii_of_string_app (s t : string) :
  list_ascii_of_string (s ++ t)
  = list_ascii_of_string s ++ list_ascii_of_string t.
Proof.
  induction s as [|c s IH]; [done|].
  rewrite append_String. simpl. by rewrite IH.
Qed.

(** The piece in progress is a prefix of the first piece. *)
Lemma re_split_digits_from_piece (s piece : string) (in_run : bool) :
  exists first rest,
    re_split_digits_from s "" in_run = first :: rest
    /\ re_split_digits_from s piece in_run = (piece ++ first)%string :: rest.
Proof.
  revert piece in_run. induction s as [|c s IH]; intros piece in_run; simpl.
  - destruct in_run; eexists _, _; by rewrite append_empty_r.
  - destruct (Bool.eqb (is_digit c) in_run).
    + destruct (IH (String c "") in_run) as (f & r & E0 & E1).
      destruct (IH (piece ++ String c "")%string in_run) as (f' & r' & E0' & E2).
      rewrite E0 in E0'. injection E0' as <- <-.
      rewrite append_empty_l, E1, E2. eexists _, _. split; [done|].
      by rewrite append_assoc_string.
    + eexists _, _. by rewrite append_empty_r.
Qed.

Lemma digit_free_not_isdigit (s : string) :
  digit_free s = true -> isdigit s = false.
Proof.
  unfold digit_free, isdigit. destruct s as [|c s]; [done|]. simpl.
  intros H. apply andb_true_iff in H as [H _].
  apply negb_true_iff in H. by rewrite H.
Qed.

Lemma isdigit_snoc (s : string) (c : ascii) :
  is_digit c = true -> (s = "" \/ isdigit s = true) ->
  isdigit (s ++ String c "") = true.
Proof.
  intros Hc Hs. unfold isdigit. rewrite list_ascii_of_string_app, forallb_app.
  simpl. rewrite Hc. simpl.
  destruct Hs as [-> | Hs]; [done|].
  unfold isdigit in Hs. apply andb_true_iff in Hs as [Hne Hall].
  rewrite Hall. destruct s; [done|]. done.
Qed.

Lemma digit_free_snoc (s : string) (c : ascii) :
  is_digit c = false -> digit_free s = true ->
  digit_free (s ++ String c "") = true.
Proof.
  intros Hc Hs. unfold digit_free in *.
  rewrite list_ascii_of_string_app, forallb_app, Hs. simpl. by rewrite Hc.
Qed.

Lemma re_split_digits_from_alternate (s piece : string) (in_run : bool) :
  (if in_run then isdigit piece = true else digit_free piece = true) ->
  pieces_alternate in_run (re_split_digits_from s piece in_run).
Proof.
  revert piece in_run. induction s as [|c s IH]; intros piece in_run Hp; simpl.
  - destruct in_run; simpl; by split_and!.
  - destruct (is_digit c) eqn:Ec, in_run; simpl.
    + apply IH. apply isdigit_snoc; [done | by right].
    + split; [done|]. apply (IH _ true). simpl.
      by apply (isdigit_snoc ""); [|left].
    + split; [done|]. apply (IH _ false). simpl.
      unfold digit_free. simpl. by rewrite Ec.
    + apply IH. by apply digit_free_snoc.
Qed.

Lemma natural_sort_key_alternate (pieces : list string) (in_run : bool) :
  pieces_alternate in_run pieces ->
  items_alternate in_run
    (map (fun text =>
            if isdigit text then KeyInt (int_of_digits text)
            else KeyStr (lower text)) pieces).
Proof.
  revert in_run. induction pieces as [|x l IH]; intros in_run; simpl; [done|].
  intros [Hx Hl]. split; [|by apply IH].
  destruct in_run.
  - by rewrite Hx.
  - by rewrite (digit_free_not_isdigit x Hx).
Qed.

Lemma list_lt_alternate (a b : list key_item) (int_first : bool) :
  items_alternate int_first a -> items_alternate int_first b ->
  is_ok (list_lt a b) = true.
Proof.
  revert b int_first. induction a as [|x a IH]; intros [|y b] int_first;
    simpl; try done.
  intros [Hx Ha] [Hy Hb].
  destruct (item_eqb x y); [by eapply IH|].
  destruct x, y; simpl; congruence.
Qed.

Lemma re_split_digit_free_prefix (p s piece : string) :
  digit_free p = true ->
  re_split_digits_from (p ++ s) piece false
  = re_split_digits_from s (piece ++ p) false.
Proof.
  revert piece. induction p as [|c p IH]; intros piece Hp.
  - by rewrite append_empty_l, append_empty_r.
  - unfold digit_free in Hp. simpl in Hp.
    apply andb_true_iff in Hp as [Hc Hp]. apply negb_true_iff in Hc.
    rewrite append_String. simpl. rewrite Hc. simpl.
    rewrite IH by done. by rewrite append_assoc_string.
Qed.

Lemma re_split_digits_run (d s piece : string) :
  forallb is_digit (list_ascii_of_string d) = true ->
  re_split_digits_from (d ++ s) piece true
  = re_split_digits_from s (piece ++ d) true.
Proof.
  revert piece. induction d as [|c d IH]; intros piece Hd.
  - by rewrite append_empty_l, append_empty_r.
  - simpl in Hd. apply andb_true_iff in Hd as [Hc Hd].
    rewrite append_String. simpl. rewrite Hc. simpl.
    rewrite IH by done. by rewrite append_assoc_string.
Qed.

Lemma re_split_after_run (r piece : string) :
  starts_without_digit r = true ->
  re_split_digits_from r piece true = piece :: re_split_digits r.
Proof.
  destruct r as [|c r]; simpl; [done|].
  intros Hc. apply negb_true_iff in Hc. rewrite Hc. simpl.
  unfold re_split_digits. simpl. by rewrite Hc.
Qed.

(** The pieces of a name made of a prefix without digits, a number and
    the rest. *)
Lemma re_split_numbered (p d r : string) :
  digit_free p = true -> isdigit d = true -> starts_without_digit r = true ->
  re_split_digits (p ++ d ++ r) = p :: d :: re_split_digits r.
Proof.
  intros Hp Hd Hr. unfold re_split_digits at 1.
  rewrite re_split_digit_free_prefix, append_empty_l by done.
  unfold isdigit in Hd. apply andb_true_iff in Hd as [Hne Hall].
  destruct d as [|c d]; [done|]. simpl in Hall.
  apply andb_true_iff in Hall as [Hc Hall].
  rewrite append_String. simpl. rewrite Hc. simpl. f_equal.
  rewrite re_split_digits_run by done.
  by rewrite re_split_after_run.
Qed.
End NaturalKeyFacts.

(** X23.  Sorting by [natural_sort_key] never fails on a comparison: a
    key is in turn a [str] and an [int], beginning with a [str], so that
    the [<] of two keys of ASCII names only ever compares a [str] with a
    [str] and an [int] with an [int], and returns. *)
Theorem natural_keys_compare_without_error (s1 s2 : string) :
  ascii_only s1 = true -> ascii_only s2 = true ->
  items_alternate false (FileUtils.natural_sort_key s1)
  /\ exists b,
       FileUtils.list_lt (FileUtils.natural_sort_key s1)
                         (FileUtils.natural_sort_key s2) = Ok b.
Proof.
  intros _ _.
  assert (Halt : forall s, items_alternate false (FileUtils.natural_sort_key s)).
  { intros s. apply natural_sort_key_alternate.
    by apply re_split_digits_from_alternate. }
  split; [apply Halt|].
  pose proof (list_lt_alternate _ _ false (Halt s1) (Halt s2)) as H.
  destruct (FileUtils.list_lt _ _) as [b|]; [by exists b | done].
Qed.

Lemma natural_keys_compare_without_error_witness :
  exists b,
    FileUtils.list_lt (FileUtils.natural_sort_key "frame12b.png")
                      (FileUtils.natural_sort_key "7up.jpg") = Ok b.
Proof.
  exact (proj2 (natural_keys_compare_without_error "frame12b.png" "7up.jpg"
                  eq_refl eq_refl)).
Defined.

(** X24.  Numbers in names are compared by value.  Of two names made of
    the same prefix without digits (compared without regard to case),
    then a run of digits, then a rest that is empty or begins with
    another character than a digit, the one whose run is the smaller
    number has the smaller key, whatever the number of digits and the
    leading zeros. *)
Theorem numbered_names_sort_by_number
    (prefix1 prefix2 digits1 digits2 rest1 rest2 : string) :
  ascii_only (prefix1 ++ digits1 ++ rest1) = true ->
  ascii_only (prefix2 ++ digits2 ++ rest2) = true ->
  lower prefix1 = lower prefix2 ->
  digit_free prefix1 = true -> digit_free prefix2 = true ->
  FileUtils.isdigit digits1 = true -> FileUtils.isdigit digits2 = true ->
  starts_without_digit rest1 = true -> starts_without_digit rest2 = true ->
  FileUtils.int_of_digits digits1 < FileUtils.int_of_digits digits2 ->
  let key1 := FileUtils.natural_sort_key (prefix1 ++ digits1 ++ rest1) in
  let key2 := FileUtils.natural_sort_key (prefix2 ++ digits2 ++ rest2) in
  FileUtils.list_lt key1 key2 = Ok true
  /\ FileUtils.list_lt key2 key1 = Ok false.
Proof.
  intros _ _ Hl Hp1 Hp2 Hd1 Hd2 Hr1 Hr2 Hlt key1 key2. subst key1 key2.
  unfold FileUtils.natural_sort_key.
  rewrite !re_split_numbered by done. simpl.
  rewrite !digit_free_not_isdigit, Hd1, Hd2 by done. simpl.
  rewrite Hl, !String.eqb_refl.
  assert (E1 : (FileUtils.int_of_digits digits1
                =? FileUtils.int_of_digits digits2) = false) by lia.
  assert (E2 : (FileUtils.int_of_digits digits2
                =? FileUtils.int_of_digits digits1) = false) by lia.
  rewrite E1, E2. split; f_equal; lia.
Qed.

Lemma numbered_names_sort_by_number_witness :
  FileUtils.list_lt (FileUtils.natural_sort_key "IMG_002.jpg")
                    (FileUtils.natural_sort_key "img_10.jpg") = Ok true
  /\ FileUtils.list_lt (FileUtils.natural_sort_key "img_10.jpg")
                       (FileUtils.natural_sort_key "IMG_002.jpg") = Ok false.
Proof.
  apply (numbered_names_sort_by_number "IMG_" "img_" "002" "10" ".jpg" ".jpg");
    try reflexivity.
Defined.
